(** * tg-spam: the spam detector of [lib/detector.go]

    A shallow embedding of the detection engine ([Detector], its check
    pipeline and its corpus operations) and the properties stated about it.

    Conventions of the embedding:
    - a Go [int] is a [Z] of the 64-bit targets, arithmetic wraps ([wrap64]);
    - a Go [float64] is an IEEE 754 binary64 value, [spec_float] with
      precision 53 and exponent bound 1024, the operations being the
      correctly rounded ones of [SpecFloat];
    - a Go [string] is a sequence of bytes ([string], one [ascii] per byte);
    - a Go [map[string]int] is a [gmap string Z], a missing key reads as 0;
    - a nil interface or pointer is [None];
    - a run-time panic is the outcome [Panics]. *)

From Stdlib Require Import ZArith String Ascii List Lia Bool DecimalString.
From Stdlib Require Import Floats.SpecFloat.
From stdpp Require Import base strings gmap list fin_maps.

Open Scope Z_scope.

(** ** Go integers *)

Module GoInt.

Definition MaxInt64 : Z := 2 ^ 63 - 1.
Definition MinInt64 : Z := - 2 ^ 63.

(** Two's complement wrap-around of a 64-bit signed result. *)
Definition wrap64 (z : Z) : Z := (z + 2 ^ 63) mod 2 ^ 64 - 2 ^ 63.

Definition inInt64 (z : Z) : Prop := MinInt64 <= z <= MaxInt64.

(** [len(x)] of a slice or string. *)
Definition len {A : Type} (l : list A) : Z := Z.of_nat (List.length l).

End GoInt.

(** ** Go float64 *)

Module GoFloat.

Definition float64 : Type := spec_float.

Definition prec : Z := 53.
Definition emax : Z := 1024.

(** The conversion [float64(n)] of an integer: rounding to nearest even. *)
Definition ofInt (n : Z) : float64 := binary_normalize prec emax n 0 false.

(** The constant [0.0]. *)
Definition zero : float64 := S754_zero false.

Definition Sqrt (x : float64) : float64 := SFsqrt prec emax x.
Definition mul (x y : float64) : float64 := SFmul prec emax x y.
Definition div (x y : float64) : float64 := SFdiv prec emax x y.

(** Comparisons: all are false when an operand is NaN. *)
Definition gt (x y : float64) : bool := SFltb y x.
Definition ge (x y : float64) : bool := SFleb y x.
Definition le (x y : float64) : bool := SFleb x y.
Definition eq (x y : float64) : bool := SFeqb x y.

End GoFloat.

(** ** Go strings: the functions of [strings], [strconv] and [bufio] the
    detector calls and whose result is decided by bytes alone *)

Module GoStrings.

Definition byte (c : ascii) : Z := Z.of_N (N_of_ascii c).

Definition isEmpty (s : string) : bool :=
  match s with EmptyString => true | String _ _ => false end.

(** [strings.HasPrefix(s, p)] *)
Definition HasPrefix (s p : string) : bool := String.prefix p s.

(** [strings.Contains(s, sub)] *)
Fixpoint Contains (s sub : string) : bool :=
  String.prefix sub s ||
  match s with
  | EmptyString => false
  | String _ s' => Contains s' sub
  end.

(** [strings.Split(s, sep)] for a separator of one byte. *)
Fixpoint Split (s : string) (sep : ascii) : list string :=
  match s with
  | EmptyString => [EmptyString]
  | String c s' =>
      if Ascii.eqb c sep then EmptyString :: Split s' sep
      else match Split s' sep with
           | h :: t => String c h :: t
           | [] => [String c EmptyString]
           end
  end.

Fixpoint inCutset (c : ascii) (cutset : string) : bool :=
  match cutset with
  | EmptyString => false
  | String x cutset' => Ascii.eqb c x || inCutset c cutset'
  end.

Fixpoint TrimLeft (s cutset : string) : string :=
  match s with
  | EmptyString => EmptyString
  | String c s' => if inCutset c cutset then TrimLeft s' cutset else s
  end.

Fixpoint TrimRight (s cutset : string) : string :=
  match s with
  | EmptyString => EmptyString
  | String c s' =>
      let r := TrimRight s' cutset in
      if isEmpty r && inCutset c cutset then EmptyString else String c r
  end.

(** [strings.Trim(s, cutset)] for a cutset of ASCII bytes (Go then trims
    byte by byte). *)
Definition Trim (s cutset : string) : string :=
  TrimLeft (TrimRight s cutset) cutset.

(** [strings.TrimSuffix(s, suffix)] for a suffix of one byte. *)
Fixpoint TrimSuffix (s : string) (suffix : ascii) : string :=
  match s with
  | EmptyString => EmptyString
  | String c s' =>
      if isEmpty s' && Ascii.eqb c suffix then EmptyString
      else String c (TrimSuffix s' suffix)
  end.

(** *** [len([]rune(s))]: the number of runes of the UTF-8 decoding, every
    byte that starts no valid encoding counting as one rune (U+FFFD). *)

Inductive decoding : Type :=
| Start
| Need (n : nat) (seen : Z) (lo hi : Z).

(** What a first byte asks for: one rune at once, or [n] continuation bytes,
    the first of them within [lo..hi] (the accept ranges of unicode/utf8). *)
Definition firstByte (b : Z) : Z * decoding :=
  if b <? 128 then (1, Start)
  else if (194 <=? b) && (b <=? 223) then (0, Need 1 0 128 191)
  else if b =? 224 then (0, Need 2 0 160 191)
  else if b =? 237 then (0, Need 2 0 128 159)
  else if (225 <=? b) && (b <=? 239) then (0, Need 2 0 128 191)
  else if b =? 240 then (0, Need 3 0 144 191)
  else if (241 <=? b) && (b <=? 243) then (0, Need 3 0 128 191)
  else if b =? 244 then (0, Need 3 0 128 143)
  else (1, Start).

Fixpoint runeCountFrom (st : decoding) (s : string) : Z :=
  match s with
  | EmptyString =>
      match st with
      | Start => 0
      | Need _ seen _ _ => 1 + seen
      end
  | String c s' =>
      let b := byte c in
      match st with
      | Start => let '(k, st') := firstByte b in k + runeCountFrom st' s'
      | Need n seen lo hi =>
          if (lo <=? b) && (b <=? hi) then
            match n with
            | S (S m) => runeCountFrom (Need (S m) (seen + 1) 128 191) s'
            | _ => 1 + runeCountFrom Start s'
            end
          else
            (* the first byte and the continuation bytes read so far are one
               invalid rune each; decoding starts again at this byte *)
            let '(k, st') := firstByte b in
            1 + seen + k + runeCountFrom st' s'
      end
  end.

Definition runeCount (s : string) : Z := runeCountFrom Start s.

(** *** [strconv.ParseInt(s, 10, 64)]: [None] stands for any error (syntax or
    range). *)

Definition digit (c : ascii) : option Z :=
  let b := byte c in
  if (48 <=? b) && (b <=? 57) then Some (b - 48) else None.

Fixpoint parseDigits (acc : Z) (s : string) : option Z :=
  match s with
  | EmptyString => Some acc
  | String c s' =>
      match digit c with
      | Some d => parseDigits (10 * acc + d) s'
      | None => None
      end
  end.

Definition ParseUint (s : string) : option Z :=
  if isEmpty s then None else parseDigits 0 s.

Definition ParseInt (s : string) : option Z :=
  match s with
  | EmptyString => None
  | String c s' =>
      let '(neg, digits) :=
        if Ascii.eqb c "+" then (false, s')
        else if Ascii.eqb c "-" then (true, s')
        else (false, s) in
      match ParseUint digits with
      | None => None
      | Some un =>
          if negb neg && (2 ^ 63 <=? un) then None
          else if neg && (2 ^ 63 <? un) then None
          else Some (if neg then - un else un)
      end
  end.

(** *** [bufio.Scanner] with the default split function [ScanLines] *)

Definition MaxScanTokenSize : Z := 64 * 1024.

Definition strlen (s : string) : Z := Z.of_nat (String.length s).

(** [dropCR]: one trailing carriage return is no part of the line. *)
Definition dropCR (s : string) : string := TrimSuffix s "013".

End GoStrings.

(** ** Values shared by the detector and its collaborators *)

(** A Go [error]: a message, possibly wrapping another error ([%w]). *)
Inductive error : Type :=
| errorString (msg : string)
| wrapError (msg : string) (err : error).

(** [errors.Unwrap] *)
Definition Unwrap (e : error) : option error :=
  match e with
  | errorString _ => None
  | wrapError _ err => Some err
  end.

(** [bufio.ErrTooLong] *)
Definition ErrTooLong : error := errorString "bufio.Scanner: token too long".

(** An argument of [fmt.Sprintf]. *)
Inductive fmtArg : Type :=
| argString (s : string)
| argInt (n : Z)
| argFloat (x : GoFloat.float64)
| argError (e : error).

(** The outcome of a call: it returns, or the goroutine panics. *)
Inductive outcome (A : Type) : Type :=
| Returns (a : A)
| Panics (why : string).
Arguments Returns {A} a.
Arguments Panics {A} why.

(** CheckResult is a result of spam check. *)
Record CheckResult : Type := mkCheckResult {
  Name : string;
  Spam : bool;
  Details : string;
}.

(** LoadResult is a result of loading samples. *)
Record LoadResult : Type := mkLoadResult {
  ExcludedTokens : Z;
  SpamSamples : Z;
  HamSamples : Z;
  StopWords : Z;
}.

(** A classifier document: class and tokens. *)
Record document : Type := mkDocument {
  spamClass : string;
  tokens : list string;
}.

(** An [io.Reader] (not nil) as [bufio.Scanner] sees it: the lines [Scan]
    delivers, then the end of input or the read error [Err] reports. *)
Record Reader : Type := mkReader {
  scanned : list string;
  scanErr : option error;
}.

(** The request [GET url] and the response of the CAS API. *)
Record Request : Type := mkRequest {
  Method : string;
  URL : string;
}.

Record Response : Type := mkResponse {
  Body : string;
}.

(** The interfaces of the collaborators. *)
Module Iface.

(** HTTPClient is an interface for http client, satisfied by http.Client:
    [Do] gives a response (with a body) or an error, as net/http promises. *)
Record HTTPClient : Type := mkHTTPClient {
  Do : Request -> Response + error;
}.

(** SampleUpdater: [Append] gives nil ([None]) or an error. [Reader] is not
    called by the detector. *)
Record SampleUpdater : Type := mkSampleUpdater {
  Append : string -> option error;
}.

(** The attached LLM checker: [check(msg)] gives the verdict and its
    CheckResult ([lib/openai.go] is not among the sources). *)
Record openAIChecker : Type := mkOpenAIChecker {
  check : string -> bool * CheckResult;
}.

End Iface.

(** ** The naive-Bayes classifier *)

Module NaiveBayes.

(** Modelled from the spec: the state of the classifier, whose source file
    (lib/classifier.go) is absent; the detector reads only [nAllDocument],
    the spec's totalDocs. *)
Record classifier : Type := mkClassifier {
  docsPerClass : gmap string Z;
  tokenCount : gmap string (gmap string Z);
  totalTokens : gmap string Z;
  nAllDocument : Z;
  vocabulary : gset string;
}.

(** Modelled from the spec: newClassifier, absent from the sources: all
    counts zero, the vocabulary empty. *)
Definition newClassifier : classifier :=
  {| docsPerClass := ∅; tokenCount := ∅; totalTokens := ∅;
     nAllDocument := 0; vocabulary := ∅ |}.

(** Modelled from the spec: reset, absent from the sources: zero every
    counter and clear the vocabulary. *)
Definition reset (c : classifier) : classifier := newClassifier.

(** Modelled from the spec: a count of the classifier, 0 for a key not yet
    seen. *)
Definition count (m : gmap string Z) (k : string) : Z := default 0 (m !! k).

(** Modelled from the spec: learn, for one distinct token of a document:
    tokenCount[class][t] and totalTokens[class] go up by 1 and the token
    joins the vocabulary. *)
Definition learnToken (class : string) (c : classifier) (t : string) : classifier :=
  {| docsPerClass := docsPerClass c;
     tokenCount :=
       <[class := <[t := count (default ∅ (tokenCount c !! class)) t + 1]>
                    (default ∅ (tokenCount c !! class))]> (tokenCount c);
     totalTokens := <[class := count (totalTokens c) class + 1]> (totalTokens c);
     nAllDocument := nAllDocument c;
     vocabulary := {[t]} ∪ vocabulary c |}.

(** Modelled from the spec: learn, for one document: docsPerClass[class]
    and totalDocs go up by 1, then each distinct token is learned. *)
Definition learnDocument (c : classifier) (doc : document) : classifier :=
  let c' :=
    {| docsPerClass :=
         <[spamClass doc := count (docsPerClass c) (spamClass doc) + 1]> (docsPerClass c);
       tokenCount := tokenCount c;
       totalTokens := totalTokens c;
       nAllDocument := nAllDocument c + 1;
       vocabulary := vocabulary c |} in
  fold_left (learnToken (spamClass doc)) (remove_dups (tokens doc)) c'.

(** Modelled from the spec: learn, absent from the sources: for each
    document, increment docsPerClass and totalDocs, and for each distinct
    token increment tokenCount[class][t] and totalTokens[class] by 1 and add
    the token to the vocabulary. *)
Definition learn (c : classifier) (docs : list document) : classifier :=
  fold_left learnDocument docs c.

End NaiveBayes.

(** ** What the detector takes from outside this file *)

(** The functions of Go's standard library whose result depends on Unicode
    tables, on the formatting rules of [fmt], on URL syntax or on JSON. *)
Class GoRuntime : Type := {
  (** [strings.ToLower] *)
  ToLower : string -> string;
  (** [strings.Fields] *)
  Fields : string -> list string;
  (** [strings.EqualFold] *)
  EqualFold : string -> string -> bool;
  (** [fmt.Sprintf] *)
  Sprintf : string -> list fmtArg -> string;
  (** [http.NewRequest(method, url, http.NoBody)] *)
  NewRequest : string -> string -> Request + error;
  (** [json.NewDecoder(body).Decode] into [{ok bool; description string}] *)
  jsonDecode : string -> (bool * string) + error;
}.

(** Functions of package lib that the detector calls and whose source
    files are absent: they are taken as they come. *)
Class LibHelpers : Type := {
  (** cleanEmoji removes the emoji of a string. *)
  cleanEmoji : string -> string;
  (** countEmoji counts the emoji of a string. *)
  countEmoji : string -> Z;
  (** classifier.classify gives (class, probability in percent, certain). *)
  classify : NaiveBayes.classifier -> list string -> string * GoFloat.float64 * bool;
}.

(** ** The detector *)

(** Config is a set of parameters for Detector. *)
Record Config : Type := mkConfig {
  SimilarityThreshold : GoFloat.float64;
  MinMsgLen : Z;
  MaxAllowedEmoji : Z;
  CasAPI : string;
  FirstMessageOnly : bool;
  FirstMessagesCount : Z;
  HTTPClient : option Iface.HTTPClient;
  MinSpamProbability : GoFloat.float64;
  OpenAIVeto : bool;
}.

(** Detector is a spam detector. The read-write lock is left out: one call
    runs at a time here. *)
Record Detector : Type := mkDetector {
  config : Config;
  classifier : NaiveBayes.classifier;
  openaiChecker : option Iface.openAIChecker;
  tokenizedSpam : list (gmap string Z);
  approvedUsers : gmap string Z;
  stopWords : list string;
  excludedTokens : list string;
  spamSamplesUpd : option Iface.SampleUpdater;
  hamSamplesUpd : option Iface.SampleUpdater;
}.

(** The places of [Check] that put a result on its list, in the order of
    the pipeline. *)
Inductive producer : Type :=
| byPreApproved
| byStopWord
| byEmoji
| byMsgLength
| bySimilarity
| byClassifier
| byCas
| byOpenAI.

#[global] Instance producer_eq_dec : EqDecision producer.
Proof. solve_decision. Defined.

(** What a call of [Check] leaves behind: the two values it returns, the
    producer of each result of the list (same order, same length), and the
    detector after the call. *)
Record CheckReturn : Type := mkCheckReturn {
  ret_spam : bool;
  ret_cr : list CheckResult;
  ret_by : list producer;
  ret_detector : Detector;
}.

(** The results collected so far and their producers. *)
Definition collected : Type := list CheckResult * list producer.

Definition collect (acc : collected) (p : producer) (r : CheckResult) : collected :=
  (acc.1 ++ [r], acc.2 ++ [p]).

Section Engine.
Context {rt : GoRuntime} {lh : LibHelpers}.
Import GoInt GoStrings.

(** [m[key]] of a Go map: the zero value when the key is missing. *)
Definition at_ (m : gmap string Z) (key : string) : Z := default 0 (m !! key).

(** [for key := range m]: the keys, in the order of [map_to_list] (Go leaves
    the order open). *)
Definition keys (m : gmap string Z) : list string := (map_to_list m).*1.

(** NewDetector makes a new Detector with the given config. *)
Definition NewDetector (p : Config) : Detector :=
  {| config :=
       if 0 <? FirstMessagesCount p then
         {| SimilarityThreshold := SimilarityThreshold p;
            MinMsgLen := MinMsgLen p;
            MaxAllowedEmoji := MaxAllowedEmoji p;
            CasAPI := CasAPI p;
            FirstMessageOnly := true;
            FirstMessagesCount := FirstMessagesCount p;
            HTTPClient := HTTPClient p;
            MinSpamProbability := MinSpamProbability p;
            OpenAIVeto := OpenAIVeto p |}
       else p;
     classifier := NaiveBayes.newClassifier;
     openaiChecker := None;
     tokenizedSpam := [];
     approvedUsers := ∅;
     stopWords := [];
     excludedTokens := [];
     spamSamplesUpd := None;
     hamSamplesUpd := None |}.

(** *** Tokens *)

(** The tokens of one scanned line: a line holding a comma and starting
    with a double quote is a list of tokens, any other line is one token. *)
Definition lineTokens (line : string) : list string :=
  if Contains line "," && HasPrefix line (String "034" EmptyString) then
    List.filter (fun t => negb (isEmpty t))
      (List.map (fun t => Trim t (String " " (String "034" (String "010" (String "013" (String "009" EmptyString))))))
         (Split line ","))
  else
    let cleanToken := Trim line (String " " (String "010" (String "013" (String "009" EmptyString)))) in
    if isEmpty cleanToken then [] else [cleanToken].

(** tokenChan parses readers and returns the tokens, reader after reader;
    a read error ends its reader and is logged only. *)
Definition tokenChan (readers : list Reader) : list string :=
  flat_map (fun reader => flat_map lineTokens (scanned reader)) readers.

(** The lines [bufio.Scanner] delivers from the pieces between newlines: a
    last empty piece is no line, and a line of [MaxScanTokenSize] bytes or
    more stops the scan with [ErrTooLong]. *)
Fixpoint scanPieces (pieces : list string) : list string * option error :=
  match pieces with
  | [] => ([], None)
  | piece :: rest =>
      match rest with
      | [] =>
          if isEmpty piece then ([], None)
          else if MaxScanTokenSize <=? strlen piece then ([], Some ErrTooLong)
          else ([dropCR piece], None)
      | _ :: _ =>
          if MaxScanTokenSize <=? strlen piece then ([], Some ErrTooLong)
          else let '(ls, e) := scanPieces rest in (dropCR piece :: ls, e)
      end
  end.

(** [bytes.NewBufferString(msg)] read by a scanner. *)
Definition NewBufferString (msg : string) : Reader :=
  let '(ls, e) := scanPieces (Split msg "010") in
  {| scanned := ls; scanErr := e |}.

Definition isExcludedToken (d : Detector) (token : string) : bool :=
  existsb (fun w => EqualFold token w) (excludedTokens d).

Definition tokenizeStep (d : Detector) (tokenFrequency : gmap string Z) (token : string)
  : gmap string Z :=
  if isExcludedToken d token then tokenFrequency
  else
    let token := cleanEmoji token in
    let token := Trim token ".,!?-:;()#" in
    let token := ToLower token in
    if runeCount token <? 3 then tokenFrequency
    else <[ToLower token := wrap64 (at_ tokenFrequency (ToLower token) + 1)]> tokenFrequency.

(** tokenize takes a string and returns a map where the keys are unique
    words (tokens) and the values are the frequencies of those words. *)
Definition tokenize (d : Detector) (inp : string) : gmap string Z :=
  fold_left (tokenizeStep d) (Fields inp) ∅.

(** *** The checks *)

(** cosineSimilarity calculates the cosine similarity between two token
    frequency maps. *)
Definition cosineSimilarity (a b : gmap string Z) : GoFloat.float64 :=
  if Nat.eqb (size a) 0 || Nat.eqb (size b) 0 then GoFloat.zero
  else
    let '(dotProduct, normA) :=
      map_fold (fun key val '(dotProduct, normA) =>
                  (wrap64 (dotProduct + wrap64 (val * at_ b key)),
                   wrap64 (normA + wrap64 (val * val))))
               (0, 0) a in
    let normB := map_fold (fun _ val normB => wrap64 (normB + wrap64 (val * val))) 0 b in
    if (normA =? 0) || (normB =? 0) then GoFloat.zero
    else GoFloat.div (GoFloat.ofInt dotProduct)
           (GoFloat.mul (GoFloat.Sqrt (GoFloat.ofInt normA)) (GoFloat.Sqrt (GoFloat.ofInt normB))).

(** The three sums of cosineSimilarity on their own: the dot product of
    two maps and the sum of the squares of one, in int arithmetic. *)
Definition dotProductOf (a b : gmap string Z) : Z :=
  map_fold (fun key val dotProduct => wrap64 (dotProduct + wrap64 (val * at_ b key))) 0 a.

Definition sumOfSquares (a : gmap string Z) : Z :=
  map_fold (fun _ val norm => wrap64 (norm + wrap64 (val * val))) 0 a.

(** The sum of [h key val] over the entries of a map, in [Z]. *)
Definition sumOver (h : string -> Z -> Z) (m : gmap string Z) : Z :=
  map_fold (fun key val acc => acc + h key val) 0 m.

(** [maxSimilarity] after one more sample of isSpamSimilarityHigh. *)
Definition nextMax (maxSimilarity similarity : GoFloat.float64) : GoFloat.float64 :=
  if GoFloat.gt similarity maxSimilarity then similarity else maxSimilarity.

Definition isNaN (x : GoFloat.float64) : bool :=
  match x with S754_nan => true | _ => false end.

Definition similarityResult (d : Detector) (spam : bool) (maxSimilarity : GoFloat.float64)
  : CheckResult :=
  {| Name := "similarity"; Spam := spam;
     Details := Sprintf "%0.2f/%0.2f"
                  [argFloat maxSimilarity; argFloat (SimilarityThreshold (config d))] |}.

(** The loop of isSpamSimilarityHigh over the samples still to examine. *)
Fixpoint similarityLoop (d : Detector) (tokenizedMessage : gmap string Z)
    (samples : list (gmap string Z)) (maxSimilarity : GoFloat.float64) : CheckResult :=
  match samples with
  | [] => similarityResult d false maxSimilarity
  | spam :: rest =>
      let similarity := cosineSimilarity tokenizedMessage spam in
      let maxSimilarity :=
        if GoFloat.gt similarity maxSimilarity then similarity else maxSimilarity in
      if GoFloat.ge similarity (SimilarityThreshold (config d))
      then similarityResult d true maxSimilarity
      else similarityLoop d tokenizedMessage rest maxSimilarity
  end.

(** isSpamSimilarityHigh checks if a given message is similar to any of the
    known bad messages. *)
Definition isSpamSimilarityHigh (d : Detector) (msg : string) : CheckResult :=
  similarityLoop d (tokenize d msg) (tokenizedSpam d) GoFloat.zero.

Definition casResult (spam : bool) (details : string) : CheckResult :=
  {| Name := "cas"; Spam := spam; Details := details |}.

(** isCasSpam checks if a given user ID is a spammer with CAS API. *)
Definition isCasSpam (d : Detector) (msgID : string) : outcome CheckResult :=
  match ParseInt msgID with
  | None => Returns (casResult false (Sprintf "invalid user id %q" [argString msgID]))
  | Some _ =>
      let reqURL := Sprintf "%s/check?user_id=%s" [argString (CasAPI (config d)); argString msgID] in
      match NewRequest "GET" reqURL with
      | inr err =>
          Returns (casResult false
                     (Sprintf "failed to make request %s: %v" [argString reqURL; argError err]))
      | inl req =>
          match HTTPClient (config d) with
          | None => Panics "invalid memory address or nil pointer dereference"
          | Some client =>
              match Iface.Do client req with
              | inr err =>
                  Returns (casResult false
                             (Sprintf "ffailed to send request %s: %v" [argString reqURL; argError err]))
              | inl resp =>
                  match jsonDecode (Body resp) with
                  | inr err =>
                      Returns (casResult false
                                 (Sprintf "failed to parse response from %s: %v"
                                    [argString reqURL; argError err]))
                  | inl (ok, description) =>
                      let description := ToLower description in
                      let description := TrimSuffix description "." in
                      if ok then Returns (casResult true description)
                      else
                        let details := if isEmpty description then "not found" else description in
                        Returns (casResult false details)
                  end
              end
          end
      end
  end.

(** isSpamClassified classify tokens from a document. *)
Definition isSpamClassified (d : Detector) (msg : string) : CheckResult :=
  let tm := tokenize d msg in
  let '(class, prob, certain) := classify (classifier d) (keys tm) in
  let isSpam :=
    String.eqb class "spam" && certain &&
    (GoFloat.eq (MinSpamProbability (config d)) GoFloat.zero
     || GoFloat.ge prob (MinSpamProbability (config d))) in
  {| Name := "classifier"; Spam := isSpam;
     Details := Sprintf "probability of %s: %.2f%%" [argString class; argFloat prob] |}.

(** isStopWord checks if a given message contains any of the stop words. *)
Definition isStopWord (d : Detector) (msg : string) : CheckResult :=
  let cleanMsg := cleanEmoji (ToLower msg) in
  match List.find (fun word => Contains cleanMsg (ToLower word)) (stopWords d) with
  | Some word => {| Name := "stopword"; Spam := true; Details := word |}
  | None => {| Name := "stopword"; Spam := false; Details := "not found" |}
  end.

(** isManyEmojis checks if a given message contains more than
    MaxAllowedEmoji emojis. *)
Definition isManyEmojis (d : Detector) (msg : string) : CheckResult :=
  let count := countEmoji msg in
  {| Name := "emoji"; Spam := MaxAllowedEmoji (config d) <? count;
     Details := Sprintf "%d/%d" [argInt count; argInt (MaxAllowedEmoji (config d))] |}.

(** *** Field updates of a detector *)

Definition withApprovedUsers (d : Detector) (m : gmap string Z) : Detector :=
  {| config := config d; classifier := classifier d; openaiChecker := openaiChecker d;
     tokenizedSpam := tokenizedSpam d; approvedUsers := m; stopWords := stopWords d;
     excludedTokens := excludedTokens d; spamSamplesUpd := spamSamplesUpd d;
     hamSamplesUpd := hamSamplesUpd d |}.

Definition withClassifier (d : Detector) (c : NaiveBayes.classifier) : Detector :=
  {| config := config d; classifier := c; openaiChecker := openaiChecker d;
     tokenizedSpam := tokenizedSpam d; approvedUsers := approvedUsers d;
     stopWords := stopWords d; excludedTokens := excludedTokens d;
     spamSamplesUpd := spamSamplesUpd d; hamSamplesUpd := hamSamplesUpd d |}.

Definition withTokenizedSpam (d : Detector) (l : list (gmap string Z)) : Detector :=
  {| config := config d; classifier := classifier d; openaiChecker := openaiChecker d;
     tokenizedSpam := l; approvedUsers := approvedUsers d; stopWords := stopWords d;
     excludedTokens := excludedTokens d; spamSamplesUpd := spamSamplesUpd d;
     hamSamplesUpd := hamSamplesUpd d |}.

Definition withStopWords (d : Detector) (l : list string) : Detector :=
  {| config := config d; classifier := classifier d; openaiChecker := openaiChecker d;
     tokenizedSpam := tokenizedSpam d; approvedUsers := approvedUsers d; stopWords := l;
     excludedTokens := excludedTokens d; spamSamplesUpd := spamSamplesUpd d;
     hamSamplesUpd := hamSamplesUpd d |}.

Definition withExcludedTokens (d : Detector) (l : list string) : Detector :=
  {| config := config d; classifier := classifier d; openaiChecker := openaiChecker d;
     tokenizedSpam := tokenizedSpam d; approvedUsers := approvedUsers d;
     stopWords := stopWords d; excludedTokens := l;
     spamSamplesUpd := spamSamplesUpd d; hamSamplesUpd := hamSamplesUpd d |}.

(** WithOpenAIChecker sets an openAIChecker for spam checking. *)
Definition WithOpenAIChecker (d : Detector) (checker : Iface.openAIChecker) : Detector :=
  {| config := config d; classifier := classifier d; openaiChecker := Some checker;
     tokenizedSpam := tokenizedSpam d; approvedUsers := approvedUsers d;
     stopWords := stopWords d; excludedTokens := excludedTokens d;
     spamSamplesUpd := spamSamplesUpd d; hamSamplesUpd := hamSamplesUpd d |}.

(** WithSpamUpdater sets a SampleUpdater for spam samples. *)
Definition WithSpamUpdater (d : Detector) (s : option Iface.SampleUpdater) : Detector :=
  {| config := config d; classifier := classifier d; openaiChecker := openaiChecker d;
     tokenizedSpam := tokenizedSpam d; approvedUsers := approvedUsers d;
     stopWords := stopWords d; excludedTokens := excludedTokens d;
     spamSamplesUpd := s; hamSamplesUpd := hamSamplesUpd d |}.

(** WithHamUpdater sets a SampleUpdater for ham samples. *)
Definition WithHamUpdater (d : Detector) (s : option Iface.SampleUpdater) : Detector :=
  {| config := config d; classifier := classifier d; openaiChecker := openaiChecker d;
     tokenizedSpam := tokenizedSpam d; approvedUsers := approvedUsers d;
     stopWords := stopWords d; excludedTokens := excludedTokens d;
     spamSamplesUpd := spamSamplesUpd d; hamSamplesUpd := s |}.

(** *** Check *)

Definition preApprovedResult : CheckResult :=
  {| Name := "pre-approved"; Spam := false; Details := "user already approved" |}.

Definition msgLengthResult : CheckResult :=
  {| Name := "message length"; Spam := false; Details := "too short" |}.

(** The closure isSpamDetected of Check. *)
Definition isSpamDetected (cr : list CheckResult) : bool := existsb Spam cr.

(** [d.FirstMessageOnly || d.FirstMessagesCount > 0] *)
Definition firstMessages (d : Detector) : bool :=
  FirstMessageOnly (config d) || (0 <? FirstMessagesCount (config d)).

(** [d.FirstMessageOnly && d.approvedUsers[userID] > d.FirstMessagesCount] *)
Definition preApproved (d : Detector) (userID : string) : bool :=
  FirstMessageOnly (config d) && (FirstMessagesCount (config d) <? at_ (approvedUsers d) userID).

(** [len([]rune(msg)) < d.MinMsgLen] *)
Definition tooShort (d : Detector) (msg : string) : bool :=
  runeCount msg <? MinMsgLen (config d).

(** Check, the checks before the length gate: stop words, emoji. *)
Definition checkLocal (d : Detector) (msg : string) : collected :=
  let acc : collected := ([], []) in
  let acc := if 0 <? len (stopWords d) then collect acc byStopWord (isStopWord d msg) else acc in
  let acc :=
    if 0 <=? MaxAllowedEmoji (config d) then collect acc byEmoji (isManyEmojis d msg) else acc in
  acc.

(** Check, the checks after the length gate: similarity, classifier, CAS. *)
Definition checkCorpus (d : Detector) (msg userID : string) (acc : collected)
  : outcome collected :=
  let acc :=
    if GoFloat.gt (SimilarityThreshold (config d)) GoFloat.zero && (0 <? len (tokenizedSpam d))
    then collect acc bySimilarity (isSpamSimilarityHigh d msg) else acc in
  let acc :=
    if 0 <? NaiveBayes.nAllDocument (classifier d)
    then collect acc byClassifier (isSpamClassified d msg) else acc in
  if negb (isEmpty (CasAPI (config d))) then
    match isCasSpam d userID with
    | Returns r => Returns (collect acc byCas r)
    | Panics why => Panics why
    end
  else Returns acc.

(** Check, the aggregation: spamDetected of the checks so far, and openai. *)
Definition checkOpenAI (d : Detector) (msg : string) (acc : collected) : bool * collected :=
  let spamDetected := isSpamDetected acc.1 in
  match openaiChecker d with
  | Some checker =>
      if firstMessages d then
        if negb spamDetected && negb (OpenAIVeto (config d))
           || spamDetected && OpenAIVeto (config d)
        then
          let '(spam, details) := Iface.check checker msg in
          (spam, collect acc byOpenAI details)
        else (spamDetected, acc)
      else (spamDetected, acc)
  | None => (spamDetected, acc)
  end.

(** Check checks if a given message is spam. Returns true if spam and also
    returns a list of check results. *)
Definition Check (d : Detector) (msg userID : string) : outcome CheckReturn :=
  if preApproved d userID then
    Returns {| ret_spam := false; ret_cr := [preApprovedResult];
               ret_by := [byPreApproved]; ret_detector := d |}
  else
    let acc := checkLocal d msg in
    if tooShort d msg then
      let acc := collect acc byMsgLength msgLengthResult in
      if isSpamDetected acc.1
      then Returns {| ret_spam := true; ret_cr := acc.1; ret_by := acc.2; ret_detector := d |}
      else Returns {| ret_spam := false; ret_cr := acc.1; ret_by := acc.2; ret_detector := d |}
    else
      match checkCorpus d msg userID acc with
      | Panics why => Panics why
      | Returns acc =>
          let '(spamDetected, acc) := checkOpenAI d msg acc in
          if spamDetected
          then Returns {| ret_spam := true; ret_cr := acc.1; ret_by := acc.2; ret_detector := d |}
          else
            let d' :=
              if firstMessages d
              then withApprovedUsers d
                     (<[userID := wrap64 (at_ (approvedUsers d) userID + 1)]> (approvedUsers d))
              else d in
            Returns {| ret_spam := false; ret_cr := acc.1; ret_by := acc.2; ret_detector := d' |}
      end.

(** What it means that the place [p] of Check put the result [x] on the
    list, in the call [Check d msg userID]. *)
Definition producedBy (d : Detector) (msg userID : string) (p : producer) (x : CheckResult)
  : Prop :=
  match p with
  | byPreApproved => x = preApprovedResult
  | byStopWord => x = isStopWord d msg
  | byEmoji => x = isManyEmojis d msg
  | byMsgLength => x = msgLengthResult
  | bySimilarity => x = isSpamSimilarityHigh d msg
  | byClassifier => x = isSpamClassified d msg
  | byCas => isCasSpam d userID = Returns x
  | byOpenAI => exists checker, openaiChecker d = Some checker /\ x = (Iface.check checker msg).2
  end.

(** *** Corpus operations *)

(** Reset resets spam samples/classifier, excluded tokens, stop words and
    approved users. *)
Definition Reset (d : Detector) : Detector :=
  {| config := config d;
     classifier := NaiveBayes.reset (classifier d);
     openaiChecker := openaiChecker d;
     tokenizedSpam := [];
     approvedUsers := ∅;
     stopWords := [];
     excludedTokens := [];
     spamSamplesUpd := spamSamplesUpd d;
     hamSamplesUpd := hamSamplesUpd d |}.

(** AddApprovedUsers adds user IDs to the list of approved users. *)
Definition AddApprovedUsers (d : Detector) (ids : list string) : Detector :=
  fold_left
    (fun d id =>
       withApprovedUsers d
         (<[id := wrap64 (FirstMessagesCount (config d) + 1)]> (approvedUsers d)))
    ids d.

(** RemoveApprovedUsers removes user IDs from the list of approved users. *)
Definition RemoveApprovedUsers (d : Detector) (ids : list string) : Detector :=
  fold_left (fun d id => withApprovedUsers d (delete id (approvedUsers d))) ids d.

(** ApprovedUsers returns a list of approved users. *)
Definition ApprovedUsers (d : Detector) : list string := keys (approvedUsers d).

(** LoadApprovedUsers loads a list of approved users from a reader. *)
Definition LoadApprovedUsers (d : Detector) (r : Reader) : Z * option error * Detector :=
  let '(m, count) :=
    fold_left
      (fun '(m, count) userID =>
         if isEmpty userID then (m, count)
         else (<[userID := wrap64 (FirstMessagesCount (config d) + 1)]> m, wrap64 (count + 1)))
      (scanned r) (∅, 0) in
  (count, scanErr r, withApprovedUsers d m).

(** The document of a tokenized sample. *)
Definition sampleDocument (sc : string) (tokenized : gmap string Z) : document :=
  {| spamClass := sc; tokens := keys tokenized |}.

(** LoadSamples, one round of the loop over the spam samples: the sample is
    tokenized and stored, its document is queued, the count goes up. *)
Definition loadSpamStep (st : Detector * list document * Z) (token : string)
  : Detector * list document * Z :=
  let '(d, docs, n) := st in
  let tokenizedSpam_ := tokenize d token in
  (withTokenizedSpam d (tokenizedSpam d ++ [tokenizedSpam_]),
   docs ++ [sampleDocument "spam" tokenizedSpam_],
   wrap64 (n + 1)).

(** LoadSamples, one round of the loop over the ham samples. *)
Definition loadHamStep (d : Detector) (st : list document * Z) (token : string)
  : list document * Z :=
  let '(docs, n) := st in
  (docs ++ [sampleDocument "ham" (tokenize d token)], wrap64 (n + 1)).

(** LoadSamples loads spam samples from a reader and updates the
    classifier. Reset spam, ham samples/classifier, and excluded tokens. *)
Definition LoadSamples (d : Detector) (exclReader : Reader)
    (spamReaders hamReaders : list Reader) : LoadResult * option error * Detector :=
  let d := withTokenizedSpam d [] in
  let d := withExcludedTokens d [] in
  let d := withClassifier d (NaiveBayes.reset (classifier d)) in
  let d :=
    fold_left (fun d t => withExcludedTokens d (excludedTokens d ++ [ToLower t]))
      (tokenChan [exclReader]) d in
  let excludedCount := len (excludedTokens d) in
  let '(d, docs, spamCount) := fold_left loadSpamStep (tokenChan spamReaders) (d, [], 0) in
  let '(docs, hamCount) := fold_left (loadHamStep d) (tokenChan hamReaders) (docs, 0) in
  let d := withClassifier d (NaiveBayes.learn (classifier d) docs) in
  ({| ExcludedTokens := excludedCount; SpamSamples := spamCount;
      HamSamples := hamCount; StopWords := 0 |},
   None, d).

(** LoadStopWords loads stop words from a reader. Reset stop words list
    before loading. *)
Definition LoadStopWords (d : Detector) (readers : list Reader)
  : LoadResult * option error * Detector :=
  let d := withStopWords d [] in
  let d :=
    fold_left (fun d t => withStopWords d (stopWords d ++ [ToLower t])) (tokenChan readers) d in
  ({| ExcludedTokens := 0; SpamSamples := 0; HamSamples := 0;
      StopWords := len (stopWords d) |},
   None, d).

(** The documents updateSample learns from a message: one for each token of
    the sample-stream parser. *)
Definition sampleDocuments (d : Detector) (msg sc : string) : list document :=
  List.map (fun token => sampleDocument sc (tokenize d token)) (tokenChan [NewBufferString msg]).

(** updateSample appends a message to the samples file and updates the
    classifier; doesn't reset state, update append samples. *)
Definition updateSample (d : Detector) (msg : string) (upd : option Iface.SampleUpdater)
    (sc : string) : option error * Detector :=
  match upd with
  | None => (None, d)
  | Some updater =>
      match Iface.Append updater msg with
      | Some err =>
          (Some (wrapError (Sprintf "can't update %s samples: %w" [argString sc; argError err]) err),
           d)
      | None =>
          let docs :=
            fold_left (fun docs token => docs ++ [sampleDocument sc (tokenize d token)])
              (tokenChan [NewBufferString msg]) [] in
          (None, withClassifier d (NaiveBayes.learn (classifier d) docs))
      end
  end.

(** UpdateSpam appends a message to the spam samples file and updates the
    classifier. *)
Definition UpdateSpam (d : Detector) (msg : string) : option error * Detector :=
  updateSample d msg (spamSamplesUpd d) "spam".

(** UpdateHam appends a message to the ham samples file and updates the
    classifier. *)
Definition UpdateHam (d : Detector) (msg : string) : option error * Detector :=
  updateSample d msg (hamSamplesUpd d) "ham".

End Engine.

(** ** A reference runtime on ASCII text

    An instance of the two classes on which the model runs on concrete
    inputs. On ASCII text without emoji it does what Go's library does;
    [refJsonDecode] reads the bodies of the CAS API written without
    spaces and escapes and rejects every other body, and [refClassify]
    stands for a classifier the examples never train. *)

Module Ref.
Import GoStrings.

Definition dq : string := String "034" EmptyString.

Definition lowerByte (c : ascii) : ascii :=
  let b := byte c in
  if (65 <=? b) && (b <=? 90) then ascii_of_N (Z.to_N (b + 32)) else c.

Fixpoint refToLower (s : string) : string :=
  match s with
  | EmptyString => EmptyString
  | String c s' => String (lowerByte c) (refToLower s')
  end.

Definition isSpace (c : ascii) : bool :=
  let b := byte c in
  (b =? 32) || ((9 <=? b) && (b <=? 13)).

(** The fields of [s], [cur] being the field under way. *)
Fixpoint fieldsFrom (cur : string) (s : string) : list string :=
  match s with
  | EmptyString => if isEmpty cur then [] else [cur]
  | String c s' =>
      if isSpace c
      then (if isEmpty cur then fieldsFrom EmptyString s' else cur :: fieldsFrom EmptyString s')
      else fieldsFrom (cur +:+ String c EmptyString) s'
  end.

Definition refFields (s : string) : list string := fieldsFrom EmptyString s.

Definition refEqualFold (s t : string) : bool := String.eqb (refToLower s) (refToLower t).

Definition decimal (n : Z) : string := NilZero.string_of_int (Z.to_int n).

Definition twoDigits (n : Z) : string :=
  if n <? 10 then "0" +:+ decimal n else decimal n.

(** [num / den] rounded to the nearest integer, ties to even. *)
Definition roundHalfEven (num den : Z) : Z :=
  let q := num / den in
  let r := num mod den in
  if 2 * r <? den then q
  else if den <? 2 * r then q + 1
  else if Z.even q then q else q + 1.

(** The verb [%.2f]. *)
Definition fixed2 (x : GoFloat.float64) : string :=
  match x with
  | S754_nan => "NaN"
  | S754_infinity s => if s then "-Inf" else "+Inf"
  | S754_zero s => if s then "-0.00" else "0.00"
  | S754_finite s m e =>
      let hundredths :=
        if 0 <=? e then Zpos m * 100 * 2 ^ e else roundHalfEven (Zpos m * 100) (2 ^ (- e)) in
      (if s then "-" else "") +:+ decimal (hundredths / 100) +:+ "." +:+ twoDigits (hundredths mod 100)
  end.

(** [err.Error()] *)
Definition Error (e : error) : string :=
  match e with
  | errorString msg => msg
  | wrapError msg _ => msg
  end.

Definition render (verb : ascii) (a : fmtArg) : string :=
  match a with
  | argString s => if Ascii.eqb verb "q" then dq +:+ s +:+ dq else s
  | argInt n => decimal n
  | argFloat x => fixed2 x
  | argError e => Error e
  end.

Definition isFlag (c : ascii) : bool :=
  let b := byte c in
  (b =? 46) || ((48 <=? b) && (b <=? 57)).

Fixpoint sprintfFrom (inVerb : bool) (format : string) (args : list fmtArg) : string :=
  match format with
  | EmptyString => EmptyString
  | String c rest =>
      if inVerb then
        if Ascii.eqb c "%" then String "%" (sprintfFrom false rest args)
        else if isFlag c then sprintfFrom true rest args
        else match args with
             | a :: args' => render c a +:+ sprintfFrom false rest args'
             | [] => "%!" +:+ String c "(MISSING)" +:+ sprintfFrom false rest args
             end
      else if Ascii.eqb c "%" then sprintfFrom true rest args
      else String c (sprintfFrom false rest args)
  end.

Definition refSprintf (format : string) (args : list fmtArg) : string :=
  sprintfFrom false format args.

Fixpoint hasControl (s : string) : bool :=
  match s with
  | EmptyString => false
  | String c s' => (byte c <? 32) || (byte c =? 127) || hasControl s'
  end.

Definition refNewRequest (method url : string) : Request + error :=
  if hasControl url
  then inr (errorString "net/url: invalid control character in URL")
  else inl {| Method := method; URL := url |}.

(** [Some rest] when [s] is [p] followed by [rest]. *)
Fixpoint stripPrefix (p s : string) : option string :=
  match p, s with
  | EmptyString, _ => Some s
  | String a p', String b s' => if Ascii.eqb a b then stripPrefix p' s' else None
  | String _ _, EmptyString => None
  end.

(** [Some text] when [s] is [text] (without quote or backslash) followed by
    a quote and a closing brace. *)
Fixpoint stringLiteralEnd (s : string) : option string :=
  match s with
  | EmptyString => None
  | String c s' =>
      if Ascii.eqb c "034" then (if String.eqb s' "}" then Some EmptyString else None)
      else if Ascii.eqb c "092" then None
      else match stringLiteralEnd s' with
           | Some t => Some (String c t)
           | None => None
           end
  end.

Definition refJsonDecode (body : string) : (bool * string) + error :=
  let okTrue := "{" +:+ dq +:+ "ok" +:+ dq +:+ ":true" in
  let okFalse := "{" +:+ dq +:+ "ok" +:+ dq +:+ ":false" in
  let descr := "," +:+ dq +:+ "description" +:+ dq +:+ ":" +:+ dq in
  let tail (ok : bool) (rest : string) : (bool * string) + error :=
    if String.eqb rest "}" then inl (ok, EmptyString)
    else match stripPrefix descr rest with
         | Some lit =>
             match stringLiteralEnd lit with
             | Some text => inl (ok, text)
             | None => inr (errorString "invalid character")
             end
         | None => inr (errorString "invalid character")
         end in
  if String.eqb body "{}" then inl (false, EmptyString)
  else match stripPrefix okTrue body with
       | Some rest => tail true rest
       | None =>
           match stripPrefix okFalse body with
           | Some rest => tail false rest
           | None => inr (errorString "invalid character")
           end
       end.

Definition runtime : GoRuntime :=
  {| ToLower := refToLower;
     Fields := refFields;
     EqualFold := refEqualFold;
     Sprintf := refSprintf;
     NewRequest := refNewRequest;
     jsonDecode := refJsonDecode |}.

Definition refClassify (c : NaiveBayes.classifier) (tokens : list string)
  : string * GoFloat.float64 * bool :=
  (EmptyString, GoFloat.zero, false).

Definition helpers : LibHelpers :=
  {| cleanEmoji := fun s => s;
     countEmoji := fun _ => 0;
     classify := refClassify |}.

End Ref.

(** ** Concrete detectors and collaborators for the examples *)

Module Fixtures.
Import GoInt.

(** A configuration with no similarity threshold and no probability gate. *)
Definition cfg (minMsgLen maxAllowedEmoji : Z) (casAPI : string) (firstMessageOnly : bool)
    (firstMessagesCount : Z) (client : option Iface.HTTPClient) (veto : bool) : Config :=
  {| SimilarityThreshold := GoFloat.zero;
     MinMsgLen := minMsgLen;
     MaxAllowedEmoji := maxAllowedEmoji;
     CasAPI := casAPI;
     FirstMessageOnly := firstMessageOnly;
     FirstMessagesCount := firstMessagesCount;
     HTTPClient := client;
     MinSpamProbability := GoFloat.zero;
     OpenAIVeto := veto |}.

(** First message only, messages under 50 runes are too short, no emoji
    check, no CAS. *)
Definition shortGate : Detector := NewDetector (cfg 50 (-1) "" true 0 None false).

(** First message only, every check but the counter switched off. *)
Definition plain : Detector := NewDetector (cfg 0 (-1) "" true 0 None false).

(** The first [MaxInt64] messages of a user are checked. *)
Definition maxWindow : Detector := NewDetector (cfg 0 (-1) "" true MaxInt64 None false).

(** An LLM that finds every message ham. *)
Definition hamLLM : Iface.openAIChecker :=
  {| Iface.check := fun _ =>
       (false, {| Name := "openai"; Spam := false; Details := "not spam" |}) |}.

(** An LLM that finds every message spam. *)
Definition spamLLM : Iface.openAIChecker :=
  {| Iface.check := fun _ =>
       (true, {| Name := "openai"; Spam := true; Details := "spam" |}) |}.

Definition withLLM : Detector := WithOpenAIChecker plain hamLLM.

(** CAS configured, and no HTTP client given. *)
Definition casNoClient : Detector :=
  NewDetector (cfg 0 (-1) "https://api.cas.chat" true 0 None false).

(** An HTTP client whose every response is the given body. *)
Definition stubClient (body : string) : Iface.HTTPClient :=
  {| Iface.Do := fun _ => inl {| Body := body |} |}.

(** An HTTP client whose every request fails. *)
Definition downClient : Iface.HTTPClient :=
  {| Iface.Do := fun _ => inr (errorString "connection refused") |}.

Definition casWith (client : Iface.HTTPClient) : Detector :=
  NewDetector (cfg 0 (-1) "https://api.cas.chat" true 0 (Some client) false).

(** The body [{"ok":true,"description":"Spammer."}]. *)
Definition spammerBody : string :=
  "{" +:+ Ref.dq +:+ "ok" +:+ Ref.dq +:+ ":true," +:+ Ref.dq +:+ "description" +:+ Ref.dq
      +:+ ":" +:+ Ref.dq +:+ "Spammer." +:+ Ref.dq +:+ "}".

(** Sample updaters: one that stores every message, one that always fails. *)
Definition goodUpdater : Iface.SampleUpdater := {| Iface.Append := fun _ => None |}.
Definition badUpdater : Iface.SampleUpdater :=
  {| Iface.Append := fun _ => Some (errorString "disk full") |}.

(** A user approved by hand, sending to the detector with the length gate. *)
Definition approvedShortGate : Detector := AddApprovedUsers shortGate ["7"].

(** What [Check shortGate "hello" "7"] returns: ham through the length gate. *)
Definition shortGateHam : CheckReturn :=
  {| ret_spam := false; ret_cr := [msgLengthResult]; ret_by := [byMsgLength];
     ret_detector := shortGate |}.

(** What [Check plain "hello there" "7"] returns: ham at the end of the
    pipeline, the counter of the user raised. *)
Definition plainHam : CheckReturn :=
  {| ret_spam := false; ret_cr := []; ret_by := [];
     ret_detector := withApprovedUsers plain (<["7" := 1]> (approvedUsers plain)) |}.

(** The threshold 0.5. *)
Definition half : GoFloat.float64 := GoFloat.div (GoFloat.ofInt 1) (GoFloat.ofInt 2).

Definition cfgSimilarity (threshold : GoFloat.float64) : Config :=
  {| SimilarityThreshold := threshold;
     MinMsgLen := 0;
     MaxAllowedEmoji := -1;
     CasAPI := EmptyString;
     FirstMessageOnly := true;
     FirstMessagesCount := 0;
     HTTPClient := None;
     MinSpamProbability := GoFloat.zero;
     OpenAIVeto := false |}.

Definition noLines : Reader := {| scanned := []; scanErr := None |}.

(** Two spam samples, read without error. *)
Definition spamFile : Reader :=
  {| scanned := ["win free prize"; "cheap pills online"]; scanErr := None |}.

(** A reader that fails after its first line. *)
Definition brokenFile : Reader :=
  {| scanned := ["win free prize"]; scanErr := Some (errorString "unexpected EOF") |}.

(** A detector with the two spam samples loaded and the threshold 0.5. *)
Definition withSamples : Detector :=
  (LoadSamples (rt:=Ref.runtime) (lh:=Ref.helpers)
     (NewDetector (cfgSimilarity half)) noLines [spamFile] []).2.

Definition sampleWin : gmap string Z := {["win" := 1; "free" := 1; "prize" := 1]}.
Definition samplePills : gmap string Z := {["cheap" := 1; "pills" := 1; "online" := 1]}.

(** One token, once. *)
Definition oneToken : gmap string Z := {["win" := 1]}.

(** A detector with the stop phrase "buy now" loaded. *)
Definition withStopPhrase : Detector :=
  (LoadStopWords (rt:=Ref.runtime)
     (NewDetector (cfg 0 (-1) EmptyString false 0 None false))
     [{| scanned := ["Buy Now"]; scanErr := None |}]).2.

(** Spam updaters attached to [plain]. *)
Definition failingUpdate : Detector := WithSpamUpdater plain (Some badUpdater).
Definition storingUpdate : Detector := WithSpamUpdater plain (Some goodUpdater).

(** The body [{"ok":false,"description":""}]. *)
Definition unknownBody : string :=
  "{" +:+ Ref.dq +:+ "ok" +:+ Ref.dq +:+ ":false," +:+ Ref.dq +:+ "description" +:+ Ref.dq
      +:+ ":" +:+ Ref.dq +:+ Ref.dq +:+ "}".

(** Veto mode: the stop phrase is loaded and the LLM finds every message ham. *)
Definition vetoed : Detector :=
  WithOpenAIChecker
    (LoadStopWords (rt:=Ref.runtime)
       (NewDetector (cfg 0 (-1) EmptyString true 0 None true))
       [{| scanned := ["buy now"]; scanErr := None |}]).2
    hamLLM.

End Fixtures.

(** ** Proof steps used more than once *)

(** Case analysis on every comparison of exponents and mantissas in sight. *)
Ltac cmp_cases :=
  repeat match goal with
         | |- context [Z.compare ?a ?b] => destruct (Z.compare_spec a b)
         | H : context [Z.compare ?a ?b] |- _ => destruct (Z.compare_spec a b)
         | |- context [Pos.compare_cont Eq ?a ?b] =>
             change (Pos.compare_cont Eq a b) with (Pos.compare a b);
             destruct (Pos.compare_spec a b)
         | H : context [Pos.compare_cont Eq ?a ?b] |- _ =>
             change (Pos.compare_cont Eq a b) with (Pos.compare a b) in H;
             destruct (Pos.compare_spec a b)
         end.

(** Two results of one call are the same result. *)
Ltac same_call :=
  repeat match goal with
         | H : ?call = _, H' : ?call = _ |- _ => rewrite H in H'; simplify_eq
         end.

(** ** Sequences of calls *)

Section Calls.
Context {rt : GoRuntime} {lh : LibHelpers}.
Import GoInt GoStrings.

(** A call of an exported method of the detector that may change it. *)
Inductive call : Type :=
| callCheck (msg userID : string)
| callReset
| callAddApprovedUsers (ids : list string)
| callRemoveApprovedUsers (ids : list string)
| callLoadApprovedUsers (r : Reader)
| callLoadSamples (exclReader : Reader) (spamReaders hamReaders : list Reader)
| callLoadStopWords (readers : list Reader)
| callUpdateSpam (msg : string)
| callUpdateHam (msg : string)
| callWithOpenAIChecker (checker : Iface.openAIChecker)
| callWithSpamUpdater (s : option Iface.SampleUpdater)
| callWithHamUpdater (s : option Iface.SampleUpdater).

(** The detector after one call (the values the call returns are dropped). *)
Definition afterCall (d : Detector) (c : call) : outcome Detector :=
  match c with
  | callCheck msg userID =>
      match Check d msg userID with
      | Returns r => Returns (ret_detector r)
      | Panics why => Panics why
      end
  | callReset => Returns (Reset d)
  | callAddApprovedUsers ids => Returns (AddApprovedUsers d ids)
  | callRemoveApprovedUsers ids => Returns (RemoveApprovedUsers d ids)
  | callLoadApprovedUsers r => Returns (LoadApprovedUsers d r).2
  | callLoadSamples exclReader spamReaders hamReaders =>
      Returns (LoadSamples d exclReader spamReaders hamReaders).2
  | callLoadStopWords readers => Returns (LoadStopWords d readers).2
  | callUpdateSpam msg => Returns (UpdateSpam d msg).2
  | callUpdateHam msg => Returns (UpdateHam d msg).2
  | callWithOpenAIChecker checker => Returns (WithOpenAIChecker d checker)
  | callWithSpamUpdater s => Returns (WithSpamUpdater d s)
  | callWithHamUpdater s => Returns (WithHamUpdater d s)
  end.

(** The detector after a sequence of calls, one after the other. *)
Fixpoint afterCalls (d : Detector) (calls : list call) : outcome Detector :=
  match calls with
  | [] => Returns d
  | c :: calls' =>
      match afterCall d c with
      | Returns d' => afterCalls d' calls'
      | Panics why => Panics why
      end
  end.

(** The messages of one user checked one after the other: what each call
    returned, and the detector at the end. *)
Fixpoint checkEach (d : Detector) (msgs : list string) (userID : string)
  : outcome (list CheckReturn * Detector) :=
  match msgs with
  | [] => Returns ([], d)
  | msg :: msgs' =>
      match Check d msg userID with
      | Panics why => Panics why
      | Returns r =>
          match checkEach (ret_detector r) msgs' userID with
          | Panics why => Panics why
          | Returns (rs, d') => Returns (r :: rs, d')
          end
      end
  end.

(** A call of Check that went through the whole pipeline and found ham. *)
Definition hamAtTheEnd (r : CheckReturn) : bool :=
  negb (ret_spam r)
  && negb (bool_decide (byPreApproved ∈ ret_by r))
  && negb (bool_decide (byMsgLength ∈ ret_by r)).

(** The order of the pipeline of Check. *)
Definition pipelineOrder : list producer :=
  [byPreApproved; byStopWord; byEmoji; byMsgLength; bySimilarity; byClassifier; byCas; byOpenAI].

(** The name of the result of each place of Check but the LLM, whose
    result is named by the checker. *)
Definition nameOf (p : producer) : string :=
  match p with
  | byPreApproved => "pre-approved"
  | byStopWord => "stopword"
  | byEmoji => "emoji"
  | byMsgLength => "message length"
  | bySimilarity => "similarity"
  | byClassifier => "classifier"
  | byCas => "cas"
  | byOpenAI => "openai"
  end.

(** tokenize, the token a field is counted under. *)
Definition tokenOf (field : string) : string :=
  ToLower (ToLower (Trim (cleanEmoji field) ".,!?-:;()#")).

(** tokenize, whether a field is counted: it is no excluded token and its
    cleaned form has three runes or more. *)
Definition counted (d : Detector) (field : string) : bool :=
  negb (isExcludedToken d field)
  && negb (runeCount (ToLower (Trim (cleanEmoji field) ".,!?-:;()#")) <? 3).

(** The first and the last byte of a string. *)
Definition firstByteOf (s : string) : option ascii :=
  match s with
  | EmptyString => None
  | String c _ => Some c
  end.

Fixpoint lastByteOf (s : string) : option ascii :=
  match s with
  | EmptyString => None
  | String c s' =>
      match lastByteOf s' with
      | None => Some c
      | Some c' => Some c'
      end
  end.

(** The blanks tokenChan trims off every token. *)
Definition blanks : string :=
  String " " (String "010" (String "013" (String "009" EmptyString))).

(** The loop of cosineSimilarity over the entries of [a], taken in the
    order of the list [entries]. *)
Definition cosineLoop (b : gmap string Z) (entries : list (string * Z)) : Z * Z :=
  fold_left
    (fun '(dotProduct, normA) '(key, val) =>
       (wrap64 (dotProduct + wrap64 (val * at_ b key)),
        wrap64 (normA + wrap64 (val * val))))
    entries (0, 0).

(** cosineSimilarity with the two maps iterated in the orders [entriesA]
    and [entriesB]: Go leaves the order of [range] over a map open. *)
Definition cosineSimilarityIn (entriesA entriesB : list (string * Z)) (b : gmap string Z)
  : GoFloat.float64 :=
  if Nat.eqb (length entriesA) 0 || Nat.eqb (length entriesB) 0 then GoFloat.zero
  else
    let '(dotProduct, normA) := cosineLoop b entriesA in
    let normB :=
      fold_left (fun normB '(_, val) => wrap64 (normB + wrap64 (val * val))) entriesB 0 in
    if (normA =? 0) || (normB =? 0) then GoFloat.zero
    else GoFloat.div (GoFloat.ofInt dotProduct)
           (GoFloat.mul (GoFloat.Sqrt (GoFloat.ofInt normA)) (GoFloat.Sqrt (GoFloat.ofInt normB))).

End Calls.

(** ** The application: package main *)

(** The options of the command line that reach the detector (the struct
    [options] of main.go, the other groups left out). *)
Module Opts.





End Opts.

(** [lib.OpenAIConfig], as main.go fills it. *)
Record OpenAIConfig : Type := mkOpenAIConfig {
  SystemPrompt : string;
  Model : string;
  MaxTokensResponse : Z;
  MaxTokensRequest : Z;
  MaxSymbolsRequest : Z;
}.

(** What makeDetector takes from other packages. *)
Class AppRuntime : Type := {
  (** [&http.Client{Timeout: timeout}] *)
  newHTTPClient : Z -> Iface.HTTPClient;
  (** the checker the detector makes of [openai.NewClient(token)] and the
      configuration *)
  newOpenAIChecker : string -> OpenAIConfig -> Iface.openAIChecker;
  (** [bot.NewSampleUpdater(fileName)] *)
  NewSampleUpdater : string -> Iface.SampleUpdater;
  (** [filepath.Join(dir, file)] *)
  Join : string -> string -> string;
}.


Section App.
Context {rt : GoRuntime} {lh : LibHelpers} {app : AppRuntime}.
Import GoInt GoStrings.


(** autoSaveApprovedUsers, one tick of the ticker: [stored] is what
    [store.Store] answers at this tick if it is called; the calls of Store
    made so far are kept with their answers. *)
Definition autoSaveTick (st : Z * list (list string * option error))
    (tick : Detector * option error) : Z * list (list string * option error) :=
  let '(lastCount, stores) := st in
  let '(detector, stored) := tick in
  let ids := ApprovedUsers detector in
  if len ids =? lastCount then (lastCount, stores)
  else
    match stored with
    | Some err => (lastCount, stores ++ [(ids, Some err)])
    | None => (len ids, stores ++ [(ids, None)])
    end.

(** autoSaveApprovedUsers over the ticks that come before the context is
    done: each tick finds the detector as the other goroutines left it. *)
Definition autoSaveApprovedUsers (ticks : list (Detector * option error))
  : Z * list (list string * option error) :=
  fold_left autoSaveTick ticks (0, []).

(** The ids of the last call of Store that succeeded, none if there is
    no such call. *)
Definition stored (c : list string * option error) : bool :=
  match c.2 with
  | None => true
  | Some _ => false
  end.

Definition lastStored (stores : list (list string * option error)) : list string :=
  match last (List.filter stored stores) with
  | Some c => c.1
  | None => []
  end.

End App.

(** ** The mock of events.SpamWeb *)

Module Mocks.

Record SpamWebMock : Type := mkSpamWebMock {
  UnbanURLFunc : option (Z -> string -> string);
  calls_UnbanURL : list (Z * string);
}.

(** UnbanURL calls UnbanURLFunc. *)
Definition UnbanURL (mock : SpamWebMock) (userID : Z) (msg : string)
  : outcome (string * SpamWebMock) :=
  match UnbanURLFunc mock with
  | None => Panics "SpamWebMock.UnbanURLFunc: method is nil but SpamWeb.UnbanURL was just called"
  | Some f =>
      let callInfo := (userID, msg) in
      Returns (f userID msg,
               {| UnbanURLFunc := UnbanURLFunc mock;
                  calls_UnbanURL := calls_UnbanURL mock ++ [callInfo] |})
  end.

(** UnbanURLCalls gets all the calls that were made to UnbanURL. *)
Definition UnbanURLCalls (mock : SpamWebMock) : list (Z * string) := calls_UnbanURL mock.

(** ResetUnbanURLCalls reset all the calls that were made to UnbanURL. *)
Definition ResetUnbanURLCalls (mock : SpamWebMock) : SpamWebMock :=
  {| UnbanURLFunc := UnbanURLFunc mock; calls_UnbanURL := [] |}.

(** ResetCalls reset all the calls that were made to all mocked methods. *)
Definition ResetCalls (mock : SpamWebMock) : SpamWebMock :=
  {| UnbanURLFunc := UnbanURLFunc mock; calls_UnbanURL := [] |}.

(** The calls of UnbanURL with the arguments [args], one after the other:
    the strings returned and the mock afterwards. *)
Fixpoint UnbanURLs (mock : SpamWebMock) (args : list (Z * string))
  : outcome (list string * SpamWebMock) :=
  match args with
  | [] => Returns ([], mock)
  | (userID, msg) :: args' =>
      match UnbanURL mock userID msg with
      | Panics why => Panics why
      | Returns (s, mock') =>
          match UnbanURLs mock' args' with
          | Panics why => Panics why
          | Returns (ss, mock'') => Returns (s :: ss, mock'')
          end
      end
  end.

End Mocks.

(** ** More concrete detectors for the examples *)

Module MoreFixtures.
Import GoInt Fixtures.

(** The first two messages of a user are checked after the first one. *)
Definition windowTwo : Detector := NewDetector (cfg 0 (-1) "" true 2 None false).


(** A window below 0. *)
Definition negativeWindow : Config := cfg 0 (-1) "" true (-1) None false.

(** Neither FirstMessageOnly nor FirstMessagesCount. *)
Definition everyMessage : Detector := NewDetector (cfg 0 (-1) "" false 0 None false).


(** A mock that answers with the message it is given. *)
Definition echoMock : Mocks.SpamWebMock :=
  {| Mocks.UnbanURLFunc := Some (fun _ msg => msg); Mocks.calls_UnbanURL := [] |}.

End MoreFixtures.

(** * Properties *)

(** ** Integers *)

Section IntFacts.
Import GoInt.

Lemma wrap64_id (z : Z) : inInt64 z -> wrap64 z = z.
Proof.
  unfold inInt64, wrap64, MinInt64, MaxInt64. intros Hz.
  rewrite Z.mod_small by lia. lia.
Qed.

Lemma wrap64_range (z : Z) : inInt64 (wrap64 z).
Proof.
  unfold inInt64, wrap64, MinInt64, MaxInt64.
  pose proof (Z.mod_pos_bound (z + 2 ^ 63) (2 ^ 64) ltac:(lia)). lia.
Qed.

Lemma wrap64_max_succ : wrap64 (MaxInt64 + 1) = MinInt64.
Proof. reflexivity. Qed.

(** Wrapping an operand first changes nothing: [wrap64] is reduction
    modulo [2 ^ 64] onto the signed range. *)
Lemma wrap64_add_l (x y : Z) : wrap64 (wrap64 x + y) = wrap64 (x + y).
Proof.
  unfold wrap64.
  replace ((x + 2 ^ 63) mod 2 ^ 64 - 2 ^ 63 + y + 2 ^ 63)
    with ((x + 2 ^ 63) mod 2 ^ 64 + y) by lia.
  rewrite Zplus_mod_idemp_l. f_equal. f_equal. lia.
Qed.

Lemma wrap64_add_r (x y : Z) : wrap64 (x + wrap64 y) = wrap64 (x + y).
Proof. rewrite (Z.add_comm x (wrap64 y)), wrap64_add_l. f_equal. lia. Qed.

Lemma wrap64_idem (x : Z) : wrap64 (wrap64 x) = wrap64 x.
Proof. apply wrap64_id, wrap64_range. Qed.

End IntFacts.

(** ** Comparisons of float64 values *)

Section FloatFacts.
Import GoFloat.

Lemma SFcompare_None x y : SFcompare x y = None <-> isNaN x = true \/ isNaN y = true.
Proof.
  destruct x as [[]|[]| |[] ? ?], y as [[]|[]| |[] ? ?]; cbn; 
    split; intros H; try discriminate; try tauto; destruct H; discriminate.
Qed.

Lemma SFcompare_antisym x y : SFcompare y x = option_map CompOpp (SFcompare x y).
Proof.
  destruct x as [[]|[]| |[] m1 e1], y as [[]|[]| |[] m2 e2]; cbn; try reflexivity.
  all: rewrite (Z.compare_antisym e2 e1); destruct (e2 ?= e1); cbn; try reflexivity.
  all: rewrite (Pos.compare_cont_antisym m1 m2 Eq); cbn; rewrite ?CompOpp_involutive;
    reflexivity.
Qed.

Lemma SFcompare_trans x y z c1 c2 :
  SFcompare x y = Some c1 -> SFcompare y z = Some c2 ->
  c1 <> Gt -> c2 <> Gt ->
  SFcompare x z = Some (match c1, c2 with Eq, Eq => Eq | _, _ => Lt end).
Proof.
  destruct x as [[]|[]| |[] m1 e1], y as [[]|[]| |[] m2 e2], z as [[]|[]| |[] m3 e3];
    cbn; intros H1 H2 Hc1 Hc2; try discriminate;
    injection H1 as <-; injection H2 as <-; try congruence; try reflexivity.
  all: cmp_cases; cbn in *; try congruence; try lia; subst; try lia.
Qed.

Lemma SFcompare_refl x : isNaN x = false -> SFcompare x x = Some Eq.
Proof.
  destruct x as [[]|[]| |[] m e]; cbn; intros H; try discriminate; try reflexivity.
  all: rewrite Z.compare_refl.
  all: change (Pos.compare_cont Eq m m) with (Pos.compare m m); by rewrite Pos.compare_refl.
Qed.

Lemma f64_gt_true_notNaN x y : gt x y = true -> isNaN x = false /\ isNaN y = false.
Proof.
  unfold gt, SFltb. destruct (SFcompare y x) as [c|] eqn:Hc; [|discriminate].
  intros _. split.
  - destruct (isNaN x) eqn:Hx; [|reflexivity].
    assert (SFcompare y x = None) by (apply SFcompare_None; auto). congruence.
  - destruct (isNaN y) eqn:Hy; [|reflexivity].
    assert (SFcompare y x = None) by (apply SFcompare_None; auto). congruence.
Qed.

Lemma f64_le_gt_false x y : le x y = true -> gt x y = false.
Proof.
  unfold le, gt, SFleb, SFltb. rewrite (SFcompare_antisym x y).
  destruct (SFcompare x y) as [[]|]; cbn; congruence.
Qed.

Lemma f64_gt_le x y : gt y x = true -> le x y = true.
Proof. unfold le, gt, SFleb, SFltb. destruct (SFcompare x y) as [[]|]; congruence. Qed.

Lemma f64_le_refl x : isNaN x = false -> le x x = true.
Proof. intros H. unfold le, SFleb. by rewrite SFcompare_refl. Qed.

Lemma f64_le_trans x y z : le x y = true -> le y z = true -> le x z = true.
Proof.
  unfold le, SFleb.
  destruct (SFcompare x y) as [c1|] eqn:H1; [|discriminate].
  destruct (SFcompare y z) as [c2|] eqn:H2; [|destruct c1; discriminate].
  intros Hc1 Hc2.
  rewrite (SFcompare_trans x y z c1 c2 H1 H2) by (destruct c1, c2; congruence).
  destruct c1, c2; congruence.
Qed.

(** Not greater than a number means: NaN, or less or equal. *)
Lemma f64_not_gt_le x y : isNaN y = false -> gt x y = false -> isNaN x = true \/ le x y = true.
Proof.
  intros Hy. unfold gt, le, SFltb, SFleb. rewrite (SFcompare_antisym x y).
  destruct (SFcompare x y) as [c|] eqn:Hc.
  - destruct c; cbn; auto; discriminate.
  - apply SFcompare_None in Hc as [Hx|Hy']; [auto|congruence].
Qed.

Lemma f64_gt_NaN_l x y : isNaN x = true -> gt x y = false.
Proof.
  intros Hx. unfold gt, SFltb.
  assert (SFcompare y x = None) as -> by (apply SFcompare_None; auto). reflexivity.
Qed.


Lemma f64_mul_comm (x y : float64) : mul x y = mul y x.
Proof.
  unfold mul.
  destruct x as [sx|sx| |sx mx ex], y as [sy|sy| |sy my ey]; cbn;
    rewrite ?(xorb_comm sx sy); try reflexivity.
  by rewrite (Pos.mul_comm mx my), (Z.add_comm ex ey).
Qed.

(** The running maximum of isSpamSimilarityHigh, started at a number: it
    is a number, no similarity is greater, and it is the start value or one
    of the similarities. *)
Lemma nextMax_cases m s : nextMax m s = m \/ nextMax m s = s.
Proof. unfold nextMax. destruct (gt s m); auto. Qed.

Lemma runningMax_spec (sims : list float64) (m0 : float64) :
  isNaN m0 = false ->
  isNaN (fold_left nextMax sims m0) = false /\
  le m0 (fold_left nextMax sims m0) = true /\
  (forall s, s ∈ sims -> gt s (fold_left nextMax sims m0) = false) /\
  (fold_left nextMax sims m0 = m0 \/ fold_left nextMax sims m0 ∈ sims).
Proof.
  revert m0. induction sims as [|s sims IH]; intros m0 Hm0; cbn [fold_left].
  - split; [exact Hm0|]. split; [by apply f64_le_refl|]. split; [|by left].
    intros s Hs. by apply elem_of_nil in Hs.
  - assert (Hm1 : isNaN (nextMax m0 s) = false /\ le m0 (nextMax m0 s) = true /\
                  gt s (nextMax m0 s) = false).
    { unfold nextMax. destruct (gt s m0) eqn:Hgt.
      - destruct (f64_gt_true_notNaN _ _ Hgt) as [Hs _].
        split; [exact Hs|]. split; [by apply f64_gt_le|]. apply f64_le_gt_false. by apply f64_le_refl.
      - split; [exact Hm0|]. split; [by apply f64_le_refl|]. exact Hgt. }
    destruct Hm1 as (Hnan & Hle & Hs).
    destruct (IH (nextMax m0 s) Hnan) as (HM & HleM & Hall & Hin).
    split; [exact HM|]. split; [by apply (f64_le_trans _ (nextMax m0 s))|]. split.
    + intros s' [->|Hs']%elem_of_cons; [|by apply Hall].
      destruct (f64_not_gt_le _ _ Hnan Hs) as [Hx|Hx]; [by apply f64_gt_NaN_l|].
      apply f64_le_gt_false. by apply (f64_le_trans _ (nextMax m0 s)).
    + destruct Hin as [->|Hin].
      * destruct (nextMax_cases m0 s) as [->| ->]; [by left|right; constructor].
      * right. by constructor.
Qed.

End FloatFacts.

(** ** Sums over token-frequency maps, and the cosine similarity *)

Section CosineFacts.
Import GoInt GoFloat.

Lemma sumOver_empty h : sumOver h ∅ = 0.
Proof. unfold sumOver. apply map_fold_empty. Qed.

Lemma sumOver_insert h (m : gmap string Z) i x :
  m !! i = None -> sumOver h (<[i:=x]> m) = sumOver h m + h i x.
Proof.
  intros Hi. unfold sumOver. rewrite map_fold_insert_L; [reflexivity| |exact Hi].
  intros. lia.
Qed.

Lemma sumOver_ext h1 h2 (m : gmap string Z) :
  (forall k v, m !! k = Some v -> h1 k v = h2 k v) -> sumOver h1 m = sumOver h2 m.
Proof.
  induction m as [|i x m Hi IH] using map_ind; intros Hext.
  - by rewrite !sumOver_empty.
  - rewrite !sumOver_insert by assumption.
    rewrite IH, (Hext i x); [reflexivity|apply lookup_insert_eq|].
    intros k v Hk. apply Hext. rewrite lookup_insert_ne; [exact Hk|]. congruence.
Qed.

Lemma sumOver_plus h1 h2 (m : gmap string Z) :
  sumOver (fun k v => h1 k v + h2 k v) m = sumOver h1 m + sumOver h2 m.
Proof.
  induction m as [|i x m Hi IH] using map_ind.
  - by rewrite !sumOver_empty.
  - rewrite !sumOver_insert by assumption. lia.
Qed.

Lemma sumOver_zero (m : gmap string Z) : sumOver (fun _ _ => 0) m = 0.
Proof.
  induction m as [|i x m Hi IH] using map_ind.
  - by rewrite !sumOver_empty.
  - rewrite !sumOver_insert by assumption. lia.
Qed.

Lemma sumOver_pick (m : gmap string Z) i x :
  sumOver (fun k v => if decide (k = i) then v * x else 0) m = at_ m i * x.
Proof.
  induction m as [|j y m Hj IH] using map_ind.
  - rewrite sumOver_empty. unfold at_. rewrite lookup_empty. reflexivity.
  - rewrite sumOver_insert by assumption. rewrite IH. unfold at_.
    destruct (decide (j = i)) as [->|Hne].
    + rewrite lookup_insert_eq, Hj. cbn. lia.
    + rewrite lookup_insert_ne by assumption. lia.
Qed.

Lemma sumOver_dot_sym (a b : gmap string Z) :
  sumOver (fun k v => v * at_ b k) a = sumOver (fun k v => v * at_ a k) b.
Proof.
  induction a as [|i x a Hi IH] using map_ind.
  - rewrite sumOver_empty.
    rewrite (sumOver_ext _ (fun _ _ => 0)); [by rewrite sumOver_zero|].
    intros k v _. unfold at_. rewrite lookup_empty. cbn. lia.
  - rewrite sumOver_insert by assumption. rewrite IH.
    rewrite (sumOver_ext (fun k v => v * at_ (<[i:=x]> a) k)
               (fun k v => v * at_ a k + (if decide (k = i) then v * x else 0))).
    + rewrite sumOver_plus, sumOver_pick. lia.
    + intros k v _. unfold at_. destruct (decide (k = i)) as [->|Hne].
      * rewrite lookup_insert_eq, Hi. cbn. ring.
      * rewrite lookup_insert_ne by congruence. lia.
Qed.

Lemma wrap64_add3 (y a b : Z) :
  wrap64 (wrap64 (y + wrap64 a) + wrap64 b) = wrap64 (y + a + b).
Proof.
  rewrite wrap64_add_l, wrap64_add_r.
  replace (y + wrap64 a + b) with (y + b + wrap64 a) by lia.
  rewrite wrap64_add_r. apply (f_equal wrap64). lia.
Qed.

Lemma wrapped_sum h (m : gmap string Z) :
  map_fold (fun k v acc => wrap64 (acc + wrap64 (h k v))) 0 m = wrap64 (sumOver h m).
Proof.
  induction m as [|i x m Hi IH] using map_ind.
  - rewrite sumOver_empty. by rewrite map_fold_empty.
  - rewrite sumOver_insert by assumption.
    rewrite map_fold_insert_L; [|intros|exact Hi].
    + rewrite IH. by rewrite wrap64_add_l, wrap64_add_r.
    + rewrite !wrap64_add3. apply (f_equal wrap64). lia.
Qed.

Lemma dotProductOf_sym (a b : gmap string Z) : dotProductOf a b = dotProductOf b a.
Proof.
  unfold dotProductOf.
  rewrite (wrapped_sum (fun k v => v * at_ b k)), (wrapped_sum (fun k v => v * at_ a k)).
  by rewrite sumOver_dot_sym.
Qed.

Lemma dotProductOf_self (a : gmap string Z) : dotProductOf a a = sumOfSquares a.
Proof.
  unfold dotProductOf, sumOfSquares.
  rewrite (wrapped_sum (fun k v => v * at_ a k)), (wrapped_sum (fun k v => v * v)).
  f_equal. apply sumOver_ext. intros k v Hk. unfold at_. by rewrite Hk.
Qed.

Lemma map_fold_pair {B C : Type} (f : string -> Z -> B -> B) (g : string -> Z -> C -> C)
    (b : B) (c : C) (m : gmap string Z) :
  map_fold (fun key val '(x, y) => (f key val x, g key val y)) (b, c) m
  = (map_fold f b m, map_fold g c m).
Proof.
  rewrite !map_fold_foldr.
  induction (map_to_list m) as [|[k v] l IH]; cbn; [reflexivity|].
  rewrite IH. reflexivity.
Qed.

Lemma cosineSimilarity_sums (a b : gmap string Z) :
  cosineSimilarity a b =
    if Nat.eqb (size a) 0 || Nat.eqb (size b) 0 then zero
    else if (sumOfSquares a =? 0) || (sumOfSquares b =? 0) then zero
    else div (ofInt (dotProductOf a b))
           (mul (Sqrt (ofInt (sumOfSquares a))) (Sqrt (ofInt (sumOfSquares b)))).
Proof.
  unfold cosineSimilarity.
  rewrite (map_fold_pair (fun key val dotProduct => wrap64 (dotProduct + wrap64 (val * at_ b key)))
             (fun _ val normA => wrap64 (normA + wrap64 (val * val)))).
  reflexivity.
Qed.

Lemma cosineSimilarity_sym (a b : gmap string Z) : cosineSimilarity a b = cosineSimilarity b a.
Proof.
  rewrite !cosineSimilarity_sums.
  rewrite (orb_comm (Nat.eqb (size a) 0)), (orb_comm (sumOfSquares a =? 0)).
  by rewrite dotProductOf_sym, f64_mul_comm.
Qed.

Lemma cosineSimilarity_empty_r (a : gmap string Z) : cosineSimilarity a ∅ = zero.
Proof. unfold cosineSimilarity. rewrite map_size_empty. cbn. by rewrite orb_true_r. Qed.

Lemma cosineSimilarity_empty_l (b : gmap string Z) : cosineSimilarity ∅ b = zero.
Proof. unfold cosineSimilarity. rewrite map_size_empty. reflexivity. Qed.

(** C9 (as amended): the cosine similarity is symmetric; it is 0 when
    either map is empty; and for a non-empty map [a] whose sum of squares
    [N] (in int arithmetic) is not 0, cos(a,a) is the float64 quotient
    float64(N) / (sqrt(float64(N)) * sqrt(float64(N))), each operation
    rounded: a value that is not always exactly 1. *)
Theorem C9_cosine_laws (a b : gmap string Z) :
  cosineSimilarity a b = cosineSimilarity b a /\
  cosineSimilarity a ∅ = zero /\
  cosineSimilarity ∅ b = zero /\
  sumOfSquares a = wrap64 (sumOver (fun _ val => val * val) a) /\
  (a <> ∅ -> sumOfSquares a <> 0 ->
     cosineSimilarity a a =
       div (ofInt (sumOfSquares a))
         (mul (Sqrt (ofInt (sumOfSquares a))) (Sqrt (ofInt (sumOfSquares a))))) /\
  (a <> ∅ -> sumOfSquares a = 0 -> cosineSimilarity a a = zero).
Proof.
  split; [apply cosineSimilarity_sym|].
  split; [apply cosineSimilarity_empty_r|].
  split; [apply cosineSimilarity_empty_l|].
  split; [apply (wrapped_sum (fun _ val => val * val))|].
  assert (Hsize : a <> ∅ -> Nat.eqb (size a) 0 = false).
  { intros Ha. apply Nat.eqb_neq. intros Hs. by apply map_size_empty_iff in Hs. }
  split; intros Ha Hn; rewrite cosineSimilarity_sums, (Hsize Ha), dotProductOf_self; cbn [orb].
  - apply Z.eqb_neq in Hn. by rewrite Hn.
  - by rewrite Hn.
Qed.

End CosineFacts.

(** ** The check pipeline *)

Section CheckFacts.
Context {rt : GoRuntime} {lh : LibHelpers}.
Import GoInt GoStrings.

Lemma isSpamDetected_app (l1 l2 : list CheckResult) :
  isSpamDetected (l1 ++ l2) = isSpamDetected l1 || isSpamDetected l2.
Proof. unfold isSpamDetected. apply existsb_app. Qed.

Lemma isSpamDetected_true (l : list CheckResult) :
  isSpamDetected l = true <-> exists x, x ∈ l /\ Spam x = true.
Proof.
  unfold isSpamDetected. rewrite existsb_exists.
  split; intros (x & Hx & Hs); exists x; split; auto; by apply list_elem_of_In.
Qed.

(** The results before the length gate: the stop-word check if stop words
    are loaded, then the emoji check if it is switched on. *)
Lemma checkLocal_results (d : Detector) (msg : string) :
  checkLocal d msg =
    ((if 0 <? len (stopWords d) then [isStopWord d msg] else [])
       ++ (if 0 <=? MaxAllowedEmoji (config d) then [isManyEmojis d msg] else []),
     (if 0 <? len (stopWords d) then [byStopWord] else [])
       ++ (if 0 <=? MaxAllowedEmoji (config d) then [byEmoji] else [])).
Proof.
  unfold checkLocal, collect.
  destruct (0 <? len (stopWords d)), (0 <=? MaxAllowedEmoji (config d)); reflexivity.
Qed.

Lemma checkLocal_producers (d : Detector) (msg : string) (p : producer) :
  p ∈ (checkLocal d msg).2 -> p = byStopWord \/ p = byEmoji.
Proof.
  rewrite checkLocal_results. cbn [snd].
  destruct (0 <? len (stopWords d)), (0 <=? MaxAllowedEmoji (config d));
    cbn; rewrite ?elem_of_cons, ?elem_of_nil; tauto.
Qed.

(** The results after the length gate, when the CAS check does not panic. *)
Lemma checkCorpus_results (d : Detector) (msg userID : string) (acc acc' : collected) :
  checkCorpus d msg userID acc = Returns acc' ->
  exists cas : list CheckResult,
    (if isEmpty (CasAPI (config d)) then cas = []
     else exists r, isCasSpam d userID = Returns r /\ cas = [r]) /\
    acc'.1 = acc.1
      ++ (if GoFloat.gt (SimilarityThreshold (config d)) GoFloat.zero
             && (0 <? len (tokenizedSpam d))
          then [isSpamSimilarityHigh d msg] else [])
      ++ (if 0 <? NaiveBayes.nAllDocument (classifier d) then [isSpamClassified d msg] else [])
      ++ cas /\
    acc'.2 = acc.2
      ++ (if GoFloat.gt (SimilarityThreshold (config d)) GoFloat.zero
             && (0 <? len (tokenizedSpam d))
          then [bySimilarity] else [])
      ++ (if 0 <? NaiveBayes.nAllDocument (classifier d) then [byClassifier] else [])
      ++ (if isEmpty (CasAPI (config d)) then [] else [byCas]).
Proof.
  unfold checkCorpus, collect. destruct acc as [cr by_].
  destruct (GoFloat.gt _ _ && _), (0 <? NaiveBayes.nAllDocument _),
    (isEmpty (CasAPI (config d))); cbn [negb fst snd].
  all: try (intros [= <-]; exists []; cbn [fst snd];
            rewrite <- ?app_assoc, ?app_nil_r; done).
  all: destruct (isCasSpam d userID) as [r|] eqn:Hcas; [|intros [=]].
  all: intros [= <-]; exists [r]; cbn [fst snd]; rewrite <- ?app_assoc; eauto.
Qed.

Lemma checkCorpus_producers (d : Detector) (msg userID : string) (acc acc' : collected)
    (p : producer) :
  checkCorpus d msg userID acc = Returns acc' ->
  p ∈ acc'.2 -> p ∈ acc.2 \/ p = bySimilarity \/ p = byClassifier \/ p = byCas.
Proof.
  intros H. destruct (checkCorpus_results _ _ _ _ _ H) as (cas & _ & _ & ->).
  rewrite !elem_of_app.
  destruct (GoFloat.gt _ _ && _), (0 <? NaiveBayes.nAllDocument _),
    (isEmpty (CasAPI (config d)));
    rewrite ?elem_of_cons, ?elem_of_nil; tauto.
Qed.

End CheckFacts.

(** ** Approved users *)

Section ApprovedUsersFacts.
Context {rt : GoRuntime} {lh : LibHelpers}.
Import GoInt GoStrings.

Lemma at_Some (m : gmap string Z) (k : string) (v : Z) : m !! k = Some v -> at_ m k = v.
Proof. unfold at_. intros ->. reflexivity. Qed.

Lemma at_None (m : gmap string Z) (k : string) : m !! k = None -> at_ m k = 0.
Proof. unfold at_. intros ->. reflexivity. Qed.

Lemma AddApprovedUsers_config (d : Detector) (ids : list string) :
  config (AddApprovedUsers d ids) = config d.
Proof.
  unfold AddApprovedUsers. revert d.
  induction ids as [|id ids IH]; intros d; simpl; [reflexivity|].
  rewrite IH. reflexivity.
Qed.

Lemma AddApprovedUsers_not_listed (d : Detector) (ids : list string) (u : string) :
  u ∉ ids -> approvedUsers (AddApprovedUsers d ids) !! u = approvedUsers d !! u.
Proof.
  unfold AddApprovedUsers. revert d.
  induction ids as [|id ids IH]; intros d Hu; simpl; [reflexivity|].
  apply not_elem_of_cons in Hu as [Hne Hu].
  rewrite IH by assumption. simpl. by rewrite lookup_insert_ne.
Qed.

Lemma AddApprovedUsers_listed (d : Detector) (ids : list string) (u : string) :
  u ∈ ids ->
  approvedUsers (AddApprovedUsers d ids) !! u
    = Some (wrap64 (FirstMessagesCount (config d) + 1)).
Proof.
  revert d. induction ids as [|id ids IH]; intros d Hu; [by apply elem_of_nil in Hu|].
  destruct (decide (u ∈ ids)) as [Hin|Hout].
  - change (AddApprovedUsers d (id :: ids)) with
      (AddApprovedUsers
         (withApprovedUsers d
            (<[id := wrap64 (FirstMessagesCount (config d) + 1)]> (approvedUsers d))) ids).
    rewrite IH by assumption. reflexivity.
  - apply elem_of_cons in Hu as [->|Hin]; [|contradiction].
    change (AddApprovedUsers d (id :: ids)) with
      (AddApprovedUsers
         (withApprovedUsers d
            (<[id := wrap64 (FirstMessagesCount (config d) + 1)]> (approvedUsers d))) ids).
    rewrite AddApprovedUsers_not_listed by assumption. simpl.
    apply lookup_insert_eq.
Qed.

(** C3 (as amended): if FirstMessageOnly is set and FirstMessagesCount is
    at least 0 and below the largest int, then after AddApprovedUsers with
    the user among the ids, the next Check for that user and any message
    returns spam=false with the single result "pre-approved", runs no other
    check and leaves the detector as it is. *)
Theorem C3_pre_approved_after_add (d : Detector) (ids : list string) (msg u : string) :
  FirstMessageOnly (config d) = true ->
  0 <= FirstMessagesCount (config d) < MaxInt64 ->
  u ∈ ids ->
  Check (AddApprovedUsers d ids) msg u =
    Returns {| ret_spam := false;
               ret_cr := [{| Name := "pre-approved"; Spam := false;
                             Details := "user already approved" |}];
               ret_by := [byPreApproved];
               ret_detector := AddApprovedUsers d ids |}.
Proof.
  intros Hfmo Hcount Hu. unfold Check, preApproved.
  rewrite AddApprovedUsers_config, Hfmo.
  rewrite (at_Some _ _ _ (AddApprovedUsers_listed d ids u Hu)).
  cbn [andb].
  rewrite wrap64_id by (unfold inInt64, MinInt64, MaxInt64 in *; lia).
  replace (FirstMessagesCount (config d) <? FirstMessagesCount (config d) + 1)
    with true by (symmetry; apply Z.ltb_lt; lia).
  reflexivity.
Qed.

(** C4 (as amended): when the pre-approval shortcut does not fire and the
    message has fewer than MinMsgLen runes, Check returns the results of the
    stop-word check (if stop words are loaded) and of the emoji check (if
    switched on), then the result "message length"; no similarity,
    classifier, CAS or LLM result is produced; the verdict is spam iff one
    of the earlier results is spam; the detector is unchanged. *)
Theorem C4_length_gate (d : Detector) (msg u : string) :
  preApproved d u = false ->
  runeCount msg < MinMsgLen (config d) ->
  exists r,
    Check d msg u = Returns r /\
    ret_cr r =
      ((if 0 <? len (stopWords d) then [isStopWord d msg] else [])
         ++ (if 0 <=? MaxAllowedEmoji (config d) then [isManyEmojis d msg] else []))
      ++ [{| Name := "message length"; Spam := false; Details := "too short" |}] /\
    ret_by r =
      ((if 0 <? len (stopWords d) then [byStopWord] else [])
         ++ (if 0 <=? MaxAllowedEmoji (config d) then [byEmoji] else []))
      ++ [byMsgLength] /\
    (forall p, p ∈ ret_by r ->
       p <> bySimilarity /\ p <> byClassifier /\ p <> byCas /\ p <> byOpenAI) /\
    (ret_spam r = true <->
       exists x, x ∈ (if 0 <? len (stopWords d) then [isStopWord d msg] else [])
                       ++ (if 0 <=? MaxAllowedEmoji (config d) then [isManyEmojis d msg] else [])
                 /\ Spam x = true) /\
    ret_detector r = d.
Proof.
  intros Hpre Hshort. unfold Check. rewrite Hpre.
  replace (tooShort d msg) with true by (symmetry; apply Z.ltb_lt; exact Hshort).
  rewrite checkLocal_results. unfold collect. cbn [fst snd].
  set (local := (if 0 <? len (stopWords d) then [isStopWord d msg] else [])
                  ++ (if 0 <=? MaxAllowedEmoji (config d) then [isManyEmojis d msg] else [])).
  set (by_ := (if 0 <? len (stopWords d) then [byStopWord] else [])
                ++ (if 0 <=? MaxAllowedEmoji (config d) then [byEmoji] else [])).
  assert (Hby : forall p, p ∈ by_ ++ [byMsgLength] ->
            p <> bySimilarity /\ p <> byClassifier /\ p <> byCas /\ p <> byOpenAI).
  { intros p. subst by_.
    destruct (0 <? len (stopWords d)), (0 <=? MaxAllowedEmoji (config d)); cbn;
      rewrite ?elem_of_cons, ?elem_of_nil; intros H; repeat split; intros ->;
      repeat (destruct H as [H|H]; try discriminate H); done. }
  assert (Hspam : isSpamDetected (local ++ [msgLengthResult]) = isSpamDetected local).
  { rewrite isSpamDetected_app. cbn. by rewrite orb_false_r. }
  rewrite Hspam.
  destruct (isSpamDetected local) eqn:Hdet; eexists; (split; [reflexivity|]);
    cbn [ret_cr ret_by ret_spam ret_detector];
    (split; [reflexivity|]); (split; [reflexivity|]); (split; [exact Hby|]);
    (split; [|reflexivity]).
  - split; [intros _; by apply isSpamDetected_true | reflexivity].
  - split; [discriminate|]. intros Hex. apply isSpamDetected_true in Hex. congruence.
Qed.

(** C1 (as amended): with FirstMessageOnly set or FirstMessagesCount > 0, a
    call of Check that returns spam leaves the detector (so approvedUsers)
    unchanged; a call that returns ham at the end of the pipeline sets
    approvedUsers[u] to its old value plus 1 in int arithmetic (exactly plus
    1 below the largest int) and changes no other entry; a call that
    returns ham through the pre-approval shortcut or through the length gate
    leaves the detector unchanged. *)
Theorem C1_counter_discipline (d : Detector) (msg u : string) (r : CheckReturn) :
  firstMessages d = true ->
  Check d msg u = Returns r ->
  (ret_spam r = true -> ret_detector r = d) /\
  (ret_spam r = false -> preApproved d u = false -> tooShort d msg = false ->
     ret_detector r =
       withApprovedUsers d
         (<[u := wrap64 (at_ (approvedUsers d) u + 1)]> (approvedUsers d)) /\
     (MinInt64 <= at_ (approvedUsers d) u < MaxInt64 ->
        at_ (approvedUsers (ret_detector r)) u = at_ (approvedUsers d) u + 1) /\
     (forall v, v <> u ->
        approvedUsers (ret_detector r) !! v = approvedUsers d !! v)) /\
  (ret_spam r = false -> preApproved d u = true \/ tooShort d msg = true ->
     ret_detector r = d).
Proof.
  intros Hfm. unfold Check.
  destruct (preApproved d u) eqn:Hpre.
  { intros [= <-]. cbn. repeat split; auto; discriminate. }
  destruct (tooShort d msg) eqn:Hshort.
  { destruct (isSpamDetected _); intros [= <-]; cbn; repeat split; auto; discriminate. }
  destruct (checkCorpus d msg u (checkLocal d msg)) as [acc|]; [|discriminate].
  destruct (checkOpenAI d msg acc) as [spamDetected acc'].
  rewrite Hfm.
  destruct spamDetected; intros [= <-]; cbn [ret_spam ret_detector].
  - split; [reflexivity|]. split; [discriminate|]. reflexivity.
  - split; [discriminate|]. split; [|intros _ [?|?]; discriminate].
    intros _ _ _. split; [reflexivity|]. cbn [withApprovedUsers approvedUsers]. split.
    + intros Hrange. rewrite (at_Some _ _ _ (lookup_insert_eq _ _ _)).
      apply wrap64_id. unfold inInt64, MinInt64, MaxInt64 in *. lia.
    + intros v Hv. by rewrite lookup_insert_ne.
Qed.

End ApprovedUsersFacts.

(** ** The producers of the results, and the LLM gate *)

Section PipelineFacts.
Context {rt : GoRuntime} {lh : LibHelpers}.
Import GoInt GoStrings.

Lemma isEmpty_true (s : string) : isEmpty s = true <-> s = EmptyString.
Proof. destruct s; cbn; split; intros; congruence. Qed.

Lemma isEmpty_false (s : string) : isEmpty s = false <-> s <> EmptyString.
Proof. destruct s; cbn; split; intros; congruence. Qed.

(** The CAS check returns as soon as an HTTP client is there. *)
Lemma isCasSpam_returns (d : Detector) (msgID : string) :
  HTTPClient (config d) <> None -> exists r, isCasSpam d msgID = Returns r.
Proof.
  intros Hclient. unfold isCasSpam.
  destruct (ParseInt msgID); [|eauto].
  destruct (NewRequest _ _) as [req|err]; [|eauto].
  destruct (HTTPClient (config d)) as [client|]; [|contradiction].
  destruct (Iface.Do client req) as [resp|err]; [|eauto].
  destruct (jsonDecode (Body resp)) as [[ok description]|err]; [|eauto].
  destruct ok; eauto.
Qed.

Lemma checkLocal_producedBy (d : Detector) (msg userID : string) :
  Forall2 (producedBy d msg userID) (checkLocal d msg).2 (checkLocal d msg).1.
Proof.
  rewrite checkLocal_results. cbn [fst snd].
  apply Forall2_app.
  - destruct (0 <? len (stopWords d)); repeat constructor.
  - destruct (0 <=? MaxAllowedEmoji (config d)); repeat constructor.
Qed.

Lemma checkCorpus_producedBy (d : Detector) (msg userID : string) (acc acc' : collected) :
  Forall2 (producedBy d msg userID) acc.2 acc.1 ->
  checkCorpus d msg userID acc = Returns acc' ->
  Forall2 (producedBy d msg userID) acc'.2 acc'.1.
Proof.
  intros Hacc H.
  destruct (checkCorpus_results _ _ _ _ _ H) as (cas & Hcas & -> & ->).
  apply Forall2_app; [exact Hacc|].
  apply Forall2_app; [destruct (GoFloat.gt _ _ && _); repeat constructor|].
  apply Forall2_app; [destruct (0 <? NaiveBayes.nAllDocument _); repeat constructor|].
  destruct (isEmpty (CasAPI (config d))).
  - subst cas. constructor.
  - destruct Hcas as (r & Hr & ->). repeat constructor. exact Hr.
Qed.

(** What the aggregation step of Check does. *)
Lemma checkOpenAI_spec (d : Detector) (msg : string) (acc : collected) :
  checkOpenAI d msg acc =
    match openaiChecker d with
    | Some checker =>
        if firstMessages d
           && (negb (isSpamDetected acc.1) && negb (OpenAIVeto (config d))
               || isSpamDetected acc.1 && OpenAIVeto (config d))
        then ((Iface.check checker msg).1,
              (acc.1 ++ [(Iface.check checker msg).2], acc.2 ++ [byOpenAI]))
        else (isSpamDetected acc.1, acc)
    | None => (isSpamDetected acc.1, acc)
    end.
Proof.
  unfold checkOpenAI, collect.
  destruct (openaiChecker d) as [checker|]; [|reflexivity].
  destruct (firstMessages d); [|reflexivity]. cbn [andb].
  destruct (_ || _); [|reflexivity].
  destruct (Iface.check checker msg). reflexivity.
Qed.

Lemma checkOpenAI_producedBy (d : Detector) (msg userID : string) (acc : collected) :
  Forall2 (producedBy d msg userID) acc.2 acc.1 ->
  Forall2 (producedBy d msg userID) (checkOpenAI d msg acc).2.2 (checkOpenAI d msg acc).2.1.
Proof.
  intros Hacc. rewrite checkOpenAI_spec.
  destruct (openaiChecker d) as [checker|] eqn:Hchecker; [|exact Hacc].
  destruct (firstMessages d && _); [|exact Hacc]. cbn [fst snd].
  apply Forall2_app; [exact Hacc|]. repeat constructor. cbn. eauto.
Qed.

(** Every result of the list Check returns was put there by the producer
    recorded beside it. *)
Lemma Check_producedBy (d : Detector) (msg userID : string) (r : CheckReturn) :
  Check d msg userID = Returns r ->
  Forall2 (producedBy d msg userID) (ret_by r) (ret_cr r).
Proof.
  unfold Check.
  destruct (preApproved d userID).
  { intros [= <-]. repeat constructor. }
  destruct (tooShort d msg).
  { pose proof (checkLocal_producedBy d msg userID) as Hlocal.
    assert (Forall2 (producedBy d msg userID)
              (collect (checkLocal d msg) byMsgLength msgLengthResult).2
              (collect (checkLocal d msg) byMsgLength msgLengthResult).1) as Hgate.
    { unfold collect. cbn [fst snd]. apply Forall2_app; [exact Hlocal|]. repeat constructor. }
    destruct (isSpamDetected _); intros [= <-]; exact Hgate. }
  destruct (checkCorpus d msg userID (checkLocal d msg)) as [acc|] eqn:Hcorpus; [|discriminate].
  pose proof (checkOpenAI_producedBy d msg userID acc
                (checkCorpus_producedBy _ _ _ _ _ (checkLocal_producedBy d msg userID) Hcorpus))
    as Hllm.
  destruct (checkOpenAI d msg acc) as [spamDetected acc'].
  destruct spamDetected; intros [= <-]; exact Hllm.
Qed.

(** C5: in a call of Check that reaches the aggregation step (no
    pre-approval, no length gate, the checks before it returned [acc]), the
    LLM is consulted iff an LLM checker is attached, FirstMessageOnly or
    FirstMessagesCount > 0 holds, and either the accumulated verdict is ham
    and OpenAIVeto is false or it is spam and OpenAIVeto is true; when
    consulted, its result is appended and its verdict is the verdict of
    Check; when not, the accumulated verdict is. *)
Theorem C5_llm_gating (d : Detector) (msg u : string) (acc : collected) :
  preApproved d u = false ->
  tooShort d msg = false ->
  checkCorpus d msg u (checkLocal d msg) = Returns acc ->
  exists r,
    Check d msg u = Returns r /\
    (byOpenAI ∈ ret_by r <->
       openaiChecker d <> None /\
       (FirstMessageOnly (config d) = true \/ 0 < FirstMessagesCount (config d)) /\
       (isSpamDetected acc.1 = false /\ OpenAIVeto (config d) = false \/
        isSpamDetected acc.1 = true /\ OpenAIVeto (config d) = true)) /\
    (byOpenAI ∈ ret_by r ->
       exists checker,
         openaiChecker d = Some checker /\
         ret_spam r = (Iface.check checker msg).1 /\
         ret_cr r = acc.1 ++ [(Iface.check checker msg).2] /\
         ret_by r = acc.2 ++ [byOpenAI]) /\
    (byOpenAI ∉ ret_by r ->
       ret_spam r = isSpamDetected acc.1 /\ ret_cr r = acc.1 /\ ret_by r = acc.2).
Proof.
  intros Hpre Hshort Hcorpus.
  assert (Hacc : byOpenAI ∉ acc.2).
  { intros Hin.
    destruct (checkCorpus_producers _ _ _ _ _ _ Hcorpus Hin) as [Hl|[?|[?|?]]];
      try discriminate.
    destruct (checkLocal_producers _ _ _ Hl); discriminate. }
  assert (Hgate :
    firstMessages d
      && (negb (isSpamDetected acc.1) && negb (OpenAIVeto (config d))
          || isSpamDetected acc.1 && OpenAIVeto (config d)) = true <->
    (FirstMessageOnly (config d) = true \/ 0 < FirstMessagesCount (config d)) /\
    (isSpamDetected acc.1 = false /\ OpenAIVeto (config d) = false \/
     isSpamDetected acc.1 = true /\ OpenAIVeto (config d) = true)).
  { unfold firstMessages.
    rewrite andb_true_iff, !orb_true_iff, !andb_true_iff, !negb_true_iff, Z.ltb_lt.
    tauto. }
  unfold Check. rewrite Hpre, Hshort, Hcorpus, checkOpenAI_spec.
  destruct (openaiChecker d) as [checker|] eqn:Hchecker.
  - destruct (firstMessages d && _) eqn:Hcond.
    + assert (Hin : byOpenAI ∈ acc.2 ++ [byOpenAI]) by (apply elem_of_app; right; constructor).
      destruct ((Iface.check checker msg).1) eqn:Hverdict; eexists; (split; [reflexivity|]);
        cbn [ret_spam ret_cr ret_by fst snd].
      all: split; [split; [intros _; split; [discriminate|by apply Hgate] | intros _; exact Hin]|].
      all: split; [intros _; exists checker; rewrite Hverdict; done | intros Hout; contradiction].
    + destruct (isSpamDetected acc.1) eqn:Hdet; eexists; (split; [reflexivity|]);
        cbn [ret_spam ret_cr ret_by fst snd].
      all: split; [split; [intros Hin; contradiction|]|].
      all: try (intros (_ & H); apply Hgate in H; congruence).
      all: split; [intros Hin; contradiction | intros _; done].
  - destruct (isSpamDetected acc.1) eqn:Hdet; eexists; (split; [reflexivity|]);
      cbn [ret_spam ret_cr ret_by fst snd].
    all: split; [split; [intros Hin; contradiction | intros (H & _); contradiction]|].
    all: split; [intros Hin; contradiction | intros _; done].
Qed.

(** C2 (as amended): a Check right after Reset, with FirstMessagesCount at
    least 0 and an HTTP client when CasAPI is set, returns a list whose
    results were produced only by the emoji check, the length gate, the CAS
    check (when CasAPI is set) and the LLM check (when an LLM checker is
    attached): no stop-word, similarity or classifier result and no
    pre-approval. *)
Theorem C2_check_after_reset (d : Detector) (msg u : string) :
  0 <= FirstMessagesCount (config d) ->
  (CasAPI (config d) <> EmptyString -> HTTPClient (config d) <> None) ->
  exists r,
    Check (Reset d) msg u = Returns r /\
    Forall2 (producedBy (Reset d) msg u) (ret_by r) (ret_cr r) /\
    (forall p, p ∈ ret_by r ->
       p = byEmoji \/ p = byMsgLength \/
       (p = byCas /\ CasAPI (config d) <> EmptyString) \/
       (p = byOpenAI /\ openaiChecker d <> None)).
Proof.
  intros Hcount Hclient.
  assert (Hpre : preApproved (Reset d) u = false).
  { unfold preApproved. cbn [Reset config approvedUsers].
    rewrite (at_None ∅ u) by apply lookup_empty.
    replace (FirstMessagesCount (config d) <? 0) with false
      by (symmetry; apply Z.ltb_ge; lia).
    apply andb_false_r. }
  assert (Hlocal : forall p, p ∈ (checkLocal (Reset d) msg).2 -> p = byEmoji).
  { intros p. rewrite checkLocal_results. cbn [snd Reset stopWords].
    change (0 <? len []) with false. cbn iota.
    destruct (0 <=? MaxAllowedEmoji _); cbn; rewrite ?elem_of_cons, ?elem_of_nil; tauto. }
  assert (Hcorpus : exists acc,
            checkCorpus (Reset d) msg u (checkLocal (Reset d) msg) = Returns acc /\
            forall p, p ∈ acc.2 -> p = byEmoji \/ (p = byCas /\ CasAPI (config d) <> EmptyString)).
  { unfold checkCorpus. cbn [Reset tokenizedSpam classifier config].
    change (0 <? len []) with false.
    rewrite andb_false_r. cbn [NaiveBayes.reset NaiveBayes.newClassifier NaiveBayes.nAllDocument].
    change (0 <? 0) with false. cbn iota.
    destruct (isEmpty (CasAPI (config d))) eqn:Hcas; cbn [negb].
    - eexists; split; [reflexivity|]. intros p Hp. left. by apply Hlocal.
    - apply isEmpty_false in Hcas.
      destruct (isCasSpam_returns (Reset d) u (Hclient Hcas)) as [x Hx].
      change (config (Reset d)) with (config d) in Hx. unfold isCasSpam in Hx |- *.
      cbn [Reset config] in Hx |- *. rewrite Hx.
      eexists; split; [reflexivity|]. unfold collect. cbn [snd].
      intros p [Hp| ->%list_elem_of_singleton]%elem_of_app; [left; by apply Hlocal | right; done]. }
  destruct Hcorpus as (acc & Hacc & Hby).
  destruct (Check (Reset d) msg u) as [r|why] eqn:Hcheck.
  - exists r. split; [reflexivity|]. split; [by apply Check_producedBy|].
    revert Hcheck. unfold Check. rewrite Hpre.
    destruct (tooShort (Reset d) msg).
    { assert (forall p, p ∈ (collect (checkLocal (Reset d) msg) byMsgLength msgLengthResult).2 ->
                p = byEmoji \/ p = byMsgLength \/
                (p = byCas /\ CasAPI (config d) <> EmptyString) \/
                (p = byOpenAI /\ openaiChecker d <> None)) as Hgate.
      { unfold collect. cbn [snd].
        intros p [Hp| ->%list_elem_of_singleton]%elem_of_app; [left; by apply Hlocal | tauto]. }
      destruct (isSpamDetected _); intros [= <-]; exact Hgate. }
    rewrite Hacc, checkOpenAI_spec. cbn [Reset openaiChecker].
    assert (forall p, p ∈ acc.2 ->
              p = byEmoji \/ p = byMsgLength \/
              (p = byCas /\ CasAPI (config d) <> EmptyString) \/
              (p = byOpenAI /\ openaiChecker d <> None)) as Hacc'.
    { intros p Hp. destruct (Hby p Hp); tauto. }
    destruct (openaiChecker d) as [checker|] eqn:Hchecker.
    + destruct (firstMessages _ && _).
      * destruct ((Iface.check checker msg).1); intros [= <-]; cbn [ret_by fst snd];
          intros p [Hp| ->%list_elem_of_singleton]%elem_of_app; auto;
          right; right; right; split; congruence.
      * destruct (isSpamDetected acc.1); intros [= <-]; exact Hacc'.
    + destruct (isSpamDetected acc.1); intros [= <-]; exact Hacc'.
  - exfalso. revert Hcheck. unfold Check. rewrite Hpre.
    destruct (tooShort (Reset d) msg).
    { destruct (isSpamDetected _); discriminate. }
    rewrite Hacc. destruct (checkOpenAI _ _ _) as [[] ?]; discriminate.
Qed.

End PipelineFacts.

(** ** The reputation check *)

Section CasFacts.
Context {rt : GoRuntime} {lh : LibHelpers}.
Import GoInt GoStrings.

(** A user id that is no int64 needs no request and no client. *)
Lemma isCasSpam_invalid_id (d : Detector) (msgID : string) :
  ParseInt msgID = None ->
  isCasSpam d msgID =
    Returns {| Name := "cas"; Spam := false;
               Details := Sprintf "invalid user id %q" [argString msgID] |}.
Proof. intros H. unfold isCasSpam. rewrite H. reflexivity. Qed.

(** What ParseInt accepts is an int64. *)
Lemma parseDigits_nonneg (s : string) (acc n : Z) :
  0 <= acc -> parseDigits acc s = Some n -> 0 <= n.
Proof.
  revert acc. induction s as [|c s IH]; intros acc Hacc; cbn.
  - intros [= <-]. exact Hacc.
  - unfold digit. destruct (_ && _) eqn:Hd; [|discriminate].
    apply andb_true_iff in Hd as [H1%Z.leb_le H2%Z.leb_le].
    apply IH. lia.
Qed.

Lemma ParseInt_range (s : string) (n : Z) : ParseInt s = Some n -> inInt64 n.
Proof.
  unfold ParseInt, ParseUint, inInt64, MinInt64, MaxInt64.
  destruct s as [|c s]; [discriminate|].
  destruct (if Ascii.eqb c "+" then _ else _) as [neg digits].
  destruct (isEmpty digits); [discriminate|].
  destruct (parseDigits 0 digits) as [un|] eqn:Hun; [|discriminate].
  apply parseDigits_nonneg in Hun; [|lia].
  destruct neg; cbn [negb andb].
  - destruct (2 ^ 63 <? un) eqn:Hlt; [discriminate|]. apply Z.ltb_ge in Hlt.
    intros [= <-]. lia.
  - destruct (2 ^ 63 <=? un) eqn:Hle; [discriminate|]. apply Z.leb_gt in Hle.
    intros [= <-]. lia.
Qed.

(** C6 (as amended): when an HTTP client is set, the reputation check
    always returns a result named "cas" and never panics: for a user id that
    does not parse as an int64, spam=false with the "invalid user id"
    detail; when the request cannot be made, cannot be sent or its response
    cannot be decoded, spam=false with a detail naming the URL and the
    error; on a decoded response, spam is the value of ok, the details are
    the description lowercased and without one trailing period, and for ham
    an empty description reads "not found". *)
Theorem C6_cas_check_returns (d : Detector) (msgID : string) (client : Iface.HTTPClient) :
  HTTPClient (config d) = Some client ->
  exists r,
    isCasSpam d msgID = Returns r /\
    Name r = "cas" /\
    (ParseInt msgID = None ->
       Spam r = false /\ Details r = Sprintf "invalid user id %q" [argString msgID]) /\
    (forall n reqURL,
       ParseInt msgID = Some n ->
       reqURL = Sprintf "%s/check?user_id=%s" [argString (CasAPI (config d)); argString msgID] ->
       (forall err,
          NewRequest "GET" reqURL = inr err ->
          Spam r = false /\
          Details r = Sprintf "failed to make request %s: %v" [argString reqURL; argError err]) /\
       (forall req err,
          NewRequest "GET" reqURL = inl req ->
          Iface.Do client req = inr err ->
          Spam r = false /\
          Details r = Sprintf "ffailed to send request %s: %v" [argString reqURL; argError err]) /\
       (forall req resp err,
          NewRequest "GET" reqURL = inl req ->
          Iface.Do client req = inl resp ->
          jsonDecode (Body resp) = inr err ->
          Spam r = false /\
          Details r = Sprintf "failed to parse response from %s: %v"
                        [argString reqURL; argError err]) /\
       (forall req resp ok description,
          NewRequest "GET" reqURL = inl req ->
          Iface.Do client req = inl resp ->
          jsonDecode (Body resp) = inl (ok, description) ->
          Spam r = ok /\
          Details r =
            if ok then TrimSuffix (ToLower description) "."
            else if isEmpty (TrimSuffix (ToLower description) ".") then "not found"
                 else TrimSuffix (ToLower description) ".")).
Proof.
  intros Hclient. unfold isCasSpam. rewrite Hclient.
  destruct (ParseInt msgID) as [n|].
  2: { eexists. split; [reflexivity|]. split; [reflexivity|]. split; [done|]. discriminate. }
  set (url := Sprintf "%s/check?user_id=%s" _).
  destruct (NewRequest "GET" url) as [req|err] eqn:Hreq.
  2: { eexists. split; [reflexivity|]. split; [reflexivity|]. split; [discriminate|].
       intros n' reqURL _ ->. fold url. rewrite Hreq.
       repeat split; intros; cbn; congruence. }
  destruct (Iface.Do client req) as [resp|err] eqn:Hdo.
  2: { eexists. split; [reflexivity|]. split; [reflexivity|]. split; [discriminate|].
       intros n' reqURL _ ->. fold url. rewrite Hreq.
       repeat split; intros; cbn; congruence. }
  destruct (jsonDecode (Body resp)) as [[ok description]|err] eqn:Hjson.
  2: { eexists. split; [reflexivity|]. split; [reflexivity|]. split; [discriminate|].
       intros n' reqURL _ ->. fold url. rewrite Hreq.
       repeat split; intros; cbn; congruence. }
  destruct ok; eexists; (split; [reflexivity|]); (split; [reflexivity|]);
    (split; [discriminate|]); intros n' reqURL _ ->; fold url; rewrite Hreq;
    repeat split; intros; simplify_eq; same_call; reflexivity.
Qed.

End CasFacts.

(** ** Updating the samples *)

Section UpdateFacts.
Context {rt : GoRuntime} {lh : LibHelpers}.
Import GoInt GoStrings.

Lemma fold_left_snoc_map {A B : Type} (f : A -> B) (l : list A) (acc : list B) :
  fold_left (fun acc x => acc ++ [f x]) l acc = acc ++ List.map f l.
Proof.
  revert acc. induction l as [|x l IH]; intros acc; cbn.
  - by rewrite app_nil_r.
  - rewrite IH, <- app_assoc. reflexivity.
Qed.

Lemma updateSample_spec (d : Detector) (msg sc : string) (upd : option Iface.SampleUpdater) :
  updateSample d msg upd sc =
    match upd with
    | None => (None, d)
    | Some updater =>
        match Iface.Append updater msg with
        | Some err =>
            (Some (wrapError (Sprintf "can't update %s samples: %w" [argString sc; argError err])
                     err), d)
        | None =>
            (None, withClassifier d (NaiveBayes.learn (classifier d) (sampleDocuments d msg sc)))
        end
    end.
Proof.
  unfold updateSample, sampleDocuments.
  destruct upd as [updater|]; [|reflexivity].
  destruct (Iface.Append updater msg); [reflexivity|].
  by rewrite fold_left_snoc_map.
Qed.

Lemma updateSample_classifier_changed (d : Detector) (msg sc : string)
    (upd : option Iface.SampleUpdater) :
  classifier (updateSample d msg upd sc).2 <> classifier d ->
  exists updater, upd = Some updater /\ Iface.Append updater msg = None.
Proof.
  rewrite updateSample_spec.
  destruct upd as [updater|]; [|intros H; by destruct H].
  destruct (Iface.Append updater msg) eqn:Happend; [intros H; by destruct H|].
  intros _. eauto.
Qed.

(** C7: UpdateSpam and UpdateHam return nil and leave the detector as it is
    when the updater is unset; when Append returns an error they return an
    error that wraps it and leave the detector, so the classifier,
    completely unchanged; when Append succeeds they return nil and the
    classifier has learned the documents of the message, and nothing else of
    the detector changes; so the classifier changes only after a successful
    Append. *)
Theorem C7_update_samples (d : Detector) (msg : string) :
  (spamSamplesUpd d = None -> UpdateSpam d msg = (None, d)) /\
  (hamSamplesUpd d = None -> UpdateHam d msg = (None, d)) /\
  (forall updater err,
     spamSamplesUpd d = Some updater -> Iface.Append updater msg = Some err ->
     exists e, UpdateSpam d msg = (Some e, d) /\ Unwrap e = Some err) /\
  (forall updater err,
     hamSamplesUpd d = Some updater -> Iface.Append updater msg = Some err ->
     exists e, UpdateHam d msg = (Some e, d) /\ Unwrap e = Some err) /\
  (forall updater,
     spamSamplesUpd d = Some updater -> Iface.Append updater msg = None ->
     UpdateSpam d msg =
       (None, withClassifier d (NaiveBayes.learn (classifier d) (sampleDocuments d msg "spam")))) /\
  (forall updater,
     hamSamplesUpd d = Some updater -> Iface.Append updater msg = None ->
     UpdateHam d msg =
       (None, withClassifier d (NaiveBayes.learn (classifier d) (sampleDocuments d msg "ham")))) /\
  (classifier (UpdateSpam d msg).2 <> classifier d ->
     exists updater, spamSamplesUpd d = Some updater /\ Iface.Append updater msg = None) /\
  (classifier (UpdateHam d msg).2 <> classifier d ->
     exists updater, hamSamplesUpd d = Some updater /\ Iface.Append updater msg = None).
Proof.
  unfold UpdateSpam, UpdateHam. rewrite !updateSample_spec.
  repeat split.
  - by intros ->.
  - by intros ->.
  - intros updater err -> ->. eexists. split; reflexivity.
  - intros updater err -> ->. eexists. split; reflexivity.
  - by intros updater -> ->.
  - by intros updater -> ->.
  - rewrite <- updateSample_spec. apply updateSample_classifier_changed.
  - rewrite <- updateSample_spec. apply updateSample_classifier_changed.
Qed.

End UpdateFacts.

(** ** Loading samples and stop words *)

Section LoadFacts.
Context {rt : GoRuntime} {lh : LibHelpers}.
Import GoInt GoStrings.

(** tokenize reads the excluded tokens of the detector and nothing else. *)
Lemma tokenize_excluded (d d' : Detector) (inp : string) :
  excludedTokens d = excludedTokens d' -> tokenize d inp = tokenize d' inp.
Proof.
  intros Hex. unfold tokenize. generalize (∅ : gmap string Z).
  induction (Fields inp) as [|token l IH]; intros m; cbn; [reflexivity|].
  rewrite IH. f_equal. unfold tokenizeStep, isExcludedToken. by rewrite Hex.
Qed.

Lemma load_excluded_loop (l : list string) (d : Detector) :
  fold_left (fun d t => withExcludedTokens d (excludedTokens d ++ [ToLower t])) l d
  = withExcludedTokens d (excludedTokens d ++ List.map ToLower l).
Proof.
  revert d. induction l as [|t l IH]; intros d; cbn.
  - rewrite app_nil_r. by destruct d.
  - rewrite IH. cbn. by rewrite <- app_assoc.
Qed.

Lemma load_stopwords_loop (l : list string) (d : Detector) :
  fold_left (fun d t => withStopWords d (stopWords d ++ [ToLower t])) l d
  = withStopWords d (stopWords d ++ List.map ToLower l).
Proof.
  revert d. induction l as [|t l IH]; intros d; cbn.
  - rewrite app_nil_r. by destruct d.
  - rewrite IH. cbn. by rewrite <- app_assoc.
Qed.

Lemma load_spam_loop (l : list string) (d : Detector) (docs : list document) (n : Z) :
  exists n',
    fold_left loadSpamStep l (d, docs, n)
    = (withTokenizedSpam d (tokenizedSpam d ++ List.map (tokenize d) l),
       docs ++ List.map (fun token => sampleDocument "spam" (tokenize d token)) l,
       n').
Proof.
  revert d docs n. induction l as [|t l IH]; intros d docs n.
  - exists n. cbn. rewrite !app_nil_r. by destruct d.
  - destruct (IH (withTokenizedSpam d (tokenizedSpam d ++ [tokenize d t]))
                 (docs ++ [sampleDocument "spam" (tokenize d t)]) (wrap64 (n + 1)))
      as (n' & Hn').
    exists n'. cbn [List.map fold_left]. unfold loadSpamStep at 2. rewrite Hn'.
    cbn [withTokenizedSpam tokenizedSpam]. rewrite <- !app_assoc. cbn [app].
    replace (List.map (tokenize (withTokenizedSpam d (tokenizedSpam d ++ [tokenize d t]))) l)
      with (List.map (tokenize d) l)
      by (apply List.map_ext; intros a; by apply tokenize_excluded).
    replace (List.map (fun token => sampleDocument "spam"
               (tokenize (withTokenizedSpam d (tokenizedSpam d ++ [tokenize d t])) token)) l)
      with (List.map (fun token => sampleDocument "spam" (tokenize d token)) l)
      by (apply List.map_ext; intros a; f_equal; by apply tokenize_excluded).
    reflexivity.
Qed.

Lemma load_ham_loop (l : list string) (d : Detector) (docs : list document) (n : Z) :
  exists n',
    fold_left (loadHamStep d) l (docs, n)
    = (docs ++ List.map (fun token => sampleDocument "ham" (tokenize d token)) l, n').
Proof.
  revert docs n. induction l as [|t l IH]; intros docs n.
  - exists n. cbn. by rewrite app_nil_r.
  - destruct (IH (docs ++ [sampleDocument "ham" (tokenize d t)]) (wrap64 (n + 1))) as (n' & Hn').
    exists n'. cbn [List.map fold_left]. unfold loadHamStep at 2. rewrite Hn'.
    by rewrite <- app_assoc.
Qed.

(** C10: for every input, read errors included, LoadSamples and
    LoadStopWords return a nil error; LoadSamples leaves the stop words and
    the approved users (and the configuration and the collaborators) as
    they are, and what it stores as excluded tokens, spam samples and
    classifier comes from the readers alone, not from what was stored before. *)
Theorem C10_load_samples_frame (d : Detector) (exclReader : Reader)
    (spamReaders hamReaders readers : list Reader) :
  (LoadSamples d exclReader spamReaders hamReaders).1.2 = None /\
  (LoadStopWords d readers).1.2 = None /\
  stopWords (LoadSamples d exclReader spamReaders hamReaders).2 = stopWords d /\
  approvedUsers (LoadSamples d exclReader spamReaders hamReaders).2 = approvedUsers d /\
  config (LoadSamples d exclReader spamReaders hamReaders).2 = config d /\
  excludedTokens (LoadSamples d exclReader spamReaders hamReaders).2
    = List.map ToLower (tokenChan [exclReader]) /\
  tokenizedSpam (LoadSamples d exclReader spamReaders hamReaders).2
    = List.map (tokenize (LoadSamples d exclReader spamReaders hamReaders).2)
        (tokenChan spamReaders) /\
  classifier (LoadSamples d exclReader spamReaders hamReaders).2
    = NaiveBayes.learn NaiveBayes.newClassifier
        (List.map
           (fun token =>
              sampleDocument "spam"
                (tokenize (LoadSamples d exclReader spamReaders hamReaders).2 token))
           (tokenChan spamReaders)
         ++ List.map
              (fun token =>
                 sampleDocument "ham"
                   (tokenize (LoadSamples d exclReader spamReaders hamReaders).2 token))
              (tokenChan hamReaders)).
Proof.
  unfold LoadSamples, LoadStopWords.
  rewrite load_excluded_loop, load_stopwords_loop.
  set (d1 := withExcludedTokens _ _).
  destruct (load_spam_loop (tokenChan spamReaders) d1 [] 0) as (n1 & ->).
  set (d2 := withTokenizedSpam d1 _).
  destruct (load_ham_loop (tokenChan hamReaders) d2
              ([] ++ List.map (fun token => sampleDocument "spam" (tokenize d1 token))
                       (tokenChan spamReaders)) 0) as (n2 & ->).
  cbn [fst snd withClassifier stopWords approvedUsers config excludedTokens tokenizedSpam
         classifier].
  subst d2 d1.
  cbn [fst snd withClassifier withTokenizedSpam withExcludedTokens stopWords approvedUsers
         config excludedTokens tokenizedSpam classifier app NaiveBayes.reset].
  repeat split.
Qed.

End LoadFacts.

(** ** The similarity check *)

Section SimilarityFacts.
Context {rt : GoRuntime} {lh : LibHelpers}.
Import GoInt GoFloat GoStrings.

Lemma similarityLoop_no_hit (d : Detector) (q : gmap string Z) (samples : list (gmap string Z))
    (m0 : float64) :
  Forall (fun x => ge (cosineSimilarity q x) (SimilarityThreshold (config d)) = false) samples ->
  similarityLoop d q samples m0 =
    similarityResult d false (fold_left nextMax (List.map (cosineSimilarity q) samples) m0).
Proof.
  intros H. revert m0. induction H as [|x l Hx Hl IH]; intros m0; cbn; [reflexivity|].
  rewrite Hx. apply IH.
Qed.

Lemma similarityLoop_hit (d : Detector) (q : gmap string Z) (pre post : list (gmap string Z))
    (s : gmap string Z) (m0 : float64) :
  Forall (fun x => ge (cosineSimilarity q x) (SimilarityThreshold (config d)) = false) pre ->
  ge (cosineSimilarity q s) (SimilarityThreshold (config d)) = true ->
  similarityLoop d q (pre ++ s :: post) m0 =
    similarityResult d true (fold_left nextMax (List.map (cosineSimilarity q) (pre ++ [s])) m0).
Proof.
  intros H Hs. revert m0. induction H as [|x l Hx Hl IH]; intros m0; cbn.
  - rewrite Hs. reflexivity.
  - rewrite Hx. apply IH.
Qed.

(** The three ways Check returns, with the producers of its list. *)
Lemma Check_cases (d : Detector) (msg userID : string) (r : CheckReturn) :
  Check d msg userID = Returns r ->
  (preApproved d userID = true /\ ret_by r = [byPreApproved]) \/
  (preApproved d userID = false /\ tooShort d msg = true /\
   ret_by r = (checkLocal d msg).2 ++ [byMsgLength]) \/
  (preApproved d userID = false /\ tooShort d msg = false /\
   exists acc,
     checkCorpus d msg userID (checkLocal d msg) = Returns acc /\
     (ret_by r = acc.2 \/ ret_by r = acc.2 ++ [byOpenAI])).
Proof.
  unfold Check.
  destruct (preApproved d userID); [intros [= <-]; by left|].
  destruct (tooShort d msg).
  { right; left. destruct (isSpamDetected _); injection H as <-; done. }
  destruct (checkCorpus d msg userID (checkLocal d msg)) as [acc|] eqn:Hcorpus; [|discriminate].
  rewrite checkOpenAI_spec. intros H. right; right. split; [done|]. split; [done|].
  exists acc. split; [reflexivity|].
  destruct (openaiChecker d) as [checker|].
  - destruct (firstMessages d && _).
    + destruct ((Iface.check checker msg).1); injection H as <-; by right.
    + destruct (isSpamDetected acc.1); injection H as <-; by left.
  - destruct (isSpamDetected acc.1); injection H as <-; by left.
Qed.

(** C8: isSpamSimilarityHigh returns spam=true at the first stored sample
    whose cosine similarity with the tokenized message is >= the threshold,
    with a result fixed by the samples up to that one (the later ones are
    not examined); when no sample reaches the threshold it returns
    spam=false with the details "max/threshold" in the format %0.2f, max
    being the running maximum: no sample has a greater similarity, it
    is the similarity of a sample or the start value 0.0, and it equals the
    similarity of a sample as soon as one similarity is >= 0.0. In Check the
    similarity result is produced after the length gate iff the threshold is
    > 0 and a sample is loaded, and never when the threshold is <= 0 or no
    sample is loaded. *)
Theorem C8_similarity_check (d : Detector) (msg : string) :
  (forall pre s post,
     tokenizedSpam d = pre ++ s :: post ->
     Forall (fun x => ge (cosineSimilarity (tokenize d msg) x)
                        (SimilarityThreshold (config d)) = false) pre ->
     ge (cosineSimilarity (tokenize d msg) s) (SimilarityThreshold (config d)) = true ->
     isSpamSimilarityHigh d msg =
       {| Name := "similarity"; Spam := true;
          Details :=
            Sprintf "%0.2f/%0.2f"
              [argFloat (fold_left nextMax
                           (List.map (cosineSimilarity (tokenize d msg)) (pre ++ [s])) zero);
               argFloat (SimilarityThreshold (config d))] |}) /\
  (Forall (fun x => ge (cosineSimilarity (tokenize d msg) x)
                      (SimilarityThreshold (config d)) = false) (tokenizedSpam d) ->
   exists maxSimilarity,
     isSpamSimilarityHigh d msg =
       {| Name := "similarity"; Spam := false;
          Details :=
            Sprintf "%0.2f/%0.2f"
              [argFloat maxSimilarity; argFloat (SimilarityThreshold (config d))] |} /\
     (forall x, x ∈ tokenizedSpam d ->
        gt (cosineSimilarity (tokenize d msg) x) maxSimilarity = false) /\
     (maxSimilarity = zero \/
      exists x, x ∈ tokenizedSpam d /\ maxSimilarity = cosineSimilarity (tokenize d msg) x) /\
     ((exists x, x ∈ tokenizedSpam d /\ ge (cosineSimilarity (tokenize d msg) x) zero = true) ->
      exists x, x ∈ tokenizedSpam d /\
                eq maxSimilarity (cosineSimilarity (tokenize d msg) x) = true)) /\
  (forall userID acc acc',
     checkCorpus d msg userID acc = Returns acc' ->
     bySimilarity ∉ acc.2 ->
     (bySimilarity ∈ acc'.2 <->
        gt (SimilarityThreshold (config d)) zero = true /\ tokenizedSpam d <> []) /\
     (bySimilarity ∈ acc'.2 -> isSpamSimilarityHigh d msg ∈ acc'.1)) /\
  (forall userID r,
     le (SimilarityThreshold (config d)) zero = true \/ tokenizedSpam d = [] ->
     Check d msg userID = Returns r ->
     bySimilarity ∉ ret_by r).
Proof.
  assert (Hgate : gt (SimilarityThreshold (config d)) zero && (0 <? len (tokenizedSpam d)) = true
                  <-> gt (SimilarityThreshold (config d)) zero = true /\ tokenizedSpam d <> []).
  { rewrite andb_true_iff, Z.ltb_lt. unfold len.
    destruct (tokenizedSpam d); cbn [length]; split; intros [? ?]; split; auto; try lia; done. }
  assert (Hcorpus : forall userID acc acc',
            checkCorpus d msg userID acc = Returns acc' ->
            bySimilarity ∉ acc.2 ->
            (bySimilarity ∈ acc'.2 <->
               gt (SimilarityThreshold (config d)) zero = true /\ tokenizedSpam d <> []) /\
            (bySimilarity ∈ acc'.2 -> isSpamSimilarityHigh d msg ∈ acc'.1)).
  { intros userID acc acc' Hrun Hacc.
    destruct (checkCorpus_results _ _ _ _ _ Hrun) as (cas & _ & -> & ->).
    rewrite <- Hgate.
    destruct (gt _ _ && _).
    - split; [split; [done|]|]; intros _; rewrite !elem_of_app; right; left; constructor.
    - assert (bySimilarity ∉ acc.2 ++ [] ++
                (if 0 <? NaiveBayes.nAllDocument (classifier d) then [byClassifier] else []) ++
                (if isEmpty (CasAPI (config d)) then [] else [byCas])) as Hout.
      { rewrite !elem_of_app.
        destruct (0 <? NaiveBayes.nAllDocument _), (isEmpty (CasAPI (config d)));
          rewrite ?elem_of_cons, ?elem_of_nil; intros [?|[?|[?|?]]]; try done;
          repeat match goal with H : _ \/ _ |- _ => destruct H end; done. }
      split; [split; [done|discriminate]|done]. }
  split; [|split; [|split; [exact Hcorpus|]]].
  - intros pre s post Hsamples Hpre Hs. unfold isSpamSimilarityHigh.
    rewrite Hsamples. by apply similarityLoop_hit.
  - intros Hnone. unfold isSpamSimilarityHigh.
    rewrite similarityLoop_no_hit by exact Hnone.
    set (sims := List.map (cosineSimilarity (tokenize d msg)) (tokenizedSpam d)).
    destruct (runningMax_spec sims zero eq_refl) as (Hnan & _ & Hall & Hin).
    exists (fold_left nextMax sims zero). split; [reflexivity|].
    assert (Hmem : forall y, y ∈ sims <->
              exists x, x ∈ tokenizedSpam d /\ y = cosineSimilarity (tokenize d msg) x).
    { intros y. subst sims. rewrite list_elem_of_In, in_map_iff.
      split; intros (x & H1 & H2); exists x; rewrite ?list_elem_of_In in *; auto. }
    split; [|split].
    + intros x Hx. apply Hall. apply Hmem. eauto.
    + destruct Hin as [->|Hin]; [by left|right]. by apply Hmem.
    + intros (x & Hx & Hge).
      destruct Hin as [Hzero|Hin].
      * exists x. split; [exact Hx|]. rewrite Hzero.
        assert (gt (cosineSimilarity (tokenize d msg) x) zero = false) as Hgt.
        { rewrite <- Hzero. apply Hall. apply Hmem. eauto. }
        revert Hge Hgt. unfold ge, gt, eq, SFleb, SFltb, SFeqb.
        destruct (SFcompare zero _) as [[]|]; congruence.
      * apply Hmem in Hin as (y & Hy & Heq). exists y. split; [exact Hy|].
        rewrite <- Heq. unfold eq, SFeqb. by rewrite SFcompare_refl.
  - intros userID r Hskip Hcheck Hin.
    assert (gt (SimilarityThreshold (config d)) zero = true /\ tokenizedSpam d <> [] -> False)
      as Hoff.
    { intros [Hgt Hne]. destruct Hskip as [Hle|Hnil]; [|contradiction].
      apply f64_le_gt_false in Hle. congruence. }
    assert (Hlocal : bySimilarity ∉ (checkLocal d msg).2).
    { intros H. destruct (checkLocal_producers _ _ _ H); discriminate. }
    destruct (Check_cases _ _ _ _ Hcheck) as [(_ & Hby)|[(_ & _ & Hby)|(_ & _ & acc & Hrun & Hby)]].
    + rewrite Hby in Hin. apply list_elem_of_singleton in Hin. discriminate.
    + rewrite Hby in Hin. apply elem_of_app in Hin as [Hin|Hin]; [contradiction|].
      apply list_elem_of_singleton in Hin. discriminate.
    + destruct (Hcorpus userID _ _ Hrun Hlocal) as [Hiff _].
      destruct Hby as [Hby|Hby]; rewrite Hby in Hin.
      * apply Hoff. by apply Hiff.
      * apply elem_of_app in Hin as [Hin|Hin]; [apply Hoff; by apply Hiff|].
        apply list_elem_of_singleton in Hin. discriminate.
Qed.

End SimilarityFacts.

(** ** Runs that do not depend on the runtime

    The inputs at which the stated properties fail never reach a function
    of [GoRuntime] or [LibHelpers] whose result would matter: the runs below
    hold on every runtime. *)

Section AnyRuntime.
Context {rt : GoRuntime} {lh : LibHelpers}.
Import GoInt GoStrings Fixtures.

(** A short message is ham through the length gate, the counters untouched. *)
Lemma length_gate_ham_any_runtime : Check shortGate "hello" "7" = Returns shortGateHam.
Proof. reflexivity. Qed.

(** For an approved user the length gate is never reached. *)
Lemma pre_approved_short_any_runtime :
  Check approvedShortGate "hello" "7"
  = Returns {| ret_spam := false; ret_cr := [preApprovedResult]; ret_by := [byPreApproved];
               ret_detector := approvedShortGate |}.
Proof. reflexivity. Qed.

(** With the window at the largest int, the count stored by
    AddApprovedUsers is the smallest int and the user is checked. *)
Lemma wrapped_window_any_runtime :
  at_ (approvedUsers (AddApprovedUsers maxWindow ["7"])) "7" = MinInt64 /\
  exists r,
    Check (AddApprovedUsers maxWindow ["7"]) "hello" "7" = Returns r /\
    ret_cr r = [] /\ ret_by r = [].
Proof. split; [reflexivity|]. eexists. split; [reflexivity|]. split; reflexivity. Qed.

(** After Reset the attached LLM is consulted. *)
Lemma llm_after_reset_any_runtime :
  exists r,
    Check (Reset withLLM) "hello" "7" = Returns r /\
    ret_by r = [byOpenAI] /\
    ret_cr r = [{| Name := "openai"; Spam := false; Details := "not spam" |}].
Proof. eexists. split; [reflexivity|]. split; reflexivity. Qed.

(** Without an HTTP client the reputation check panics as soon as the user
    id is an int64 and the request can be made. *)
Lemma isCasSpam_without_client (d : Detector) (msgID : string) (n : Z) (req : Request) :
  HTTPClient (config d) = None ->
  ParseInt msgID = Some n ->
  NewRequest "GET"
    (Sprintf "%s/check?user_id=%s" [argString (CasAPI (config d)); argString msgID]) = inl req ->
  isCasSpam d msgID = Panics "invalid memory address or nil pointer dereference".
Proof. intros Hclient Hid Hreq. unfold isCasSpam. by rewrite Hid, Hreq, Hclient. Qed.

(** So does Check, when it gets as far as the reputation check. *)
Lemma Check_without_client (d : Detector) (msg userID : string) (n : Z) (req : Request) :
  preApproved d userID = false ->
  tooShort d msg = false ->
  CasAPI (config d) <> EmptyString ->
  HTTPClient (config d) = None ->
  ParseInt userID = Some n ->
  NewRequest "GET"
    (Sprintf "%s/check?user_id=%s" [argString (CasAPI (config d)); argString userID]) = inl req ->
  Check d msg userID = Panics "invalid memory address or nil pointer dereference".
Proof.
  intros Hpre Hshort Hcas Hclient Hid Hreq. unfold Check, checkCorpus.
  rewrite Hpre, Hshort, (isCasSpam_without_client d userID n req Hclient Hid Hreq).
  apply isEmpty_false in Hcas. by rewrite Hcas.
Qed.

End AnyRuntime.

(** * More properties of the detector *)

(** ** The detector from call to call *)

Section DetectorStates.
Context {rt : GoRuntime} {lh : LibHelpers}.
Import GoInt GoStrings.

Lemma withApprovedUsers_same (d : Detector) : withApprovedUsers d (approvedUsers d) = d.
Proof. by destruct d. Qed.

(** What Check does to the detector: nothing, or one more ham for the user. *)
Lemma Check_detector (d : Detector) (msg userID : string) (r : CheckReturn) :
  Check d msg userID = Returns r ->
  (ret_detector r = d /\
   (ret_spam r = true \/ preApproved d userID = true \/ tooShort d msg = true
    \/ firstMessages d = false)) \/
  (ret_spam r = false /\ preApproved d userID = false /\ tooShort d msg = false /\
   firstMessages d = true /\
   ret_detector r =
     withApprovedUsers d
       (<[userID := wrap64 (at_ (approvedUsers d) userID + 1)]> (approvedUsers d))).
Proof.
  unfold Check.
  destruct (preApproved d userID) eqn:Hpre.
  { intros [= <-]. left. cbn. auto. }
  destruct (tooShort d msg) eqn:Hshort.
  { destruct (isSpamDetected _); intros [= <-]; left; cbn; auto. }
  destruct (checkCorpus d msg userID (checkLocal d msg)) as [acc|]; [|discriminate].
  destruct (checkOpenAI d msg acc) as [spamDetected acc'].
  destruct spamDetected; [intros [= <-]; left; cbn; auto|].
  destruct (firstMessages d) eqn:Hfm; intros [= <-]; cbn.
  - right. auto.
  - left. auto.
Qed.


(** Which calls of Check are ham at the end of the pipeline. *)
Lemma hamAtTheEnd_spec (d : Detector) (msg userID : string) (r : CheckReturn) :
  Check d msg userID = Returns r ->
  hamAtTheEnd r = true <->
  ret_spam r = false /\ preApproved d userID = false /\ tooShort d msg = false.
Proof.
  intros H. unfold hamAtTheEnd.
  rewrite !andb_true_iff, !negb_true_iff, !bool_decide_eq_false.
  destruct (Check_cases _ _ _ _ H)
    as [[Hpre ->]|[(Hpre & Hshort & ->)|(Hpre & Hshort & acc & Hacc & Hby)]].
  - rewrite Hpre. split; [intros [[_ Hno] _]; destruct Hno; by left|intros (_ & [=] & _)].
  - rewrite Hshort. split; [|intros (_ & _ & [=])].
    intros [_ Hno]; destruct Hno. apply elem_of_app. right. by left.
  - split; [intros [[-> _] _]; done|]. intros (-> & _ & _).
    assert (forall p, p ∈ acc.2 ->
                      p = byStopWord \/ p = byEmoji \/ p = bySimilarity \/ p = byClassifier
                      \/ p = byCas) as Hin.
    { intros p Hp. destruct (checkCorpus_producers _ _ _ _ _ p Hacc Hp) as [Hl|Hc]; [|tauto].
      destruct (checkLocal_producers _ _ _ Hl); tauto. }
    assert (forall p, p ∈ ret_by r ->
                      p = byStopWord \/ p = byEmoji \/ p = bySimilarity \/ p = byClassifier
                      \/ p = byCas \/ p = byOpenAI) as Hin'.
    { intros p. destruct Hby as [-> | ->]; [intros Hp; specialize (Hin p Hp); tauto|].
      rewrite elem_of_app, list_elem_of_singleton. intros [Hp| ->]; [|tauto].
      specialize (Hin p Hp); tauto. }
    split; [split; [reflexivity|]|]; intros Hp; specialize (Hin' _ Hp);
      repeat (destruct Hin' as [Hin'|Hin']; [discriminate|]); discriminate.
Qed.

Lemma RemoveApprovedUsers_config (d : Detector) (ids : list string) :
  config (RemoveApprovedUsers d ids) = config d.
Proof.
  unfold RemoveApprovedUsers. revert d.
  induction ids as [|id ids IH]; intros d; simpl; [reflexivity|].
  rewrite IH. reflexivity.
Qed.

Lemma RemoveApprovedUsers_lookup (d : Detector) (ids : list string) (u : string) :
  approvedUsers (RemoveApprovedUsers d ids) !! u
  = if bool_decide (u ∈ ids) then None else approvedUsers d !! u.
Proof.
  unfold RemoveApprovedUsers. revert d.
  induction ids as [|id ids IH]; intros d; cbn [fold_left].
  { rewrite bool_decide_eq_false_2; [reflexivity|apply not_elem_of_nil]. }
  rewrite IH. cbn [approvedUsers withApprovedUsers].
  destruct (decide (u ∈ ids)) as [Hin|Hout].
  - rewrite !bool_decide_eq_true_2; [reflexivity|by right|assumption].
  - rewrite (bool_decide_eq_false_2 (u ∈ ids)) by assumption.
    destruct (decide (u = id)) as [->|Hne].
    + rewrite lookup_delete_eq, bool_decide_eq_true_2; [reflexivity|by left].
    + rewrite lookup_delete_ne by congruence.
      rewrite bool_decide_eq_false_2; [reflexivity|].
      rewrite elem_of_cons. tauto.
Qed.

Lemma AddApprovedUsers_lookup (d : Detector) (ids : list string) (u : string) :
  approvedUsers (AddApprovedUsers d ids) !! u
  = if bool_decide (u ∈ ids) then Some (wrap64 (FirstMessagesCount (config d) + 1))
    else approvedUsers d !! u.
Proof.
  destruct (decide (u ∈ ids)) as [Hin|Hout].
  - rewrite bool_decide_eq_true_2 by assumption. by apply AddApprovedUsers_listed.
  - rewrite bool_decide_eq_false_2 by assumption. by apply AddApprovedUsers_not_listed.
Qed.

Lemma AddApprovedUsers_frame (d : Detector) (ids : list string) :
  AddApprovedUsers d ids = withApprovedUsers d (approvedUsers (AddApprovedUsers d ids)).
Proof.
  unfold AddApprovedUsers. revert d.
  induction ids as [|id ids IH]; intros d; simpl; [by destruct d|].
  rewrite IH at 1. reflexivity.
Qed.

Lemma RemoveApprovedUsers_frame (d : Detector) (ids : list string) :
  RemoveApprovedUsers d ids = withApprovedUsers d (approvedUsers (RemoveApprovedUsers d ids)).
Proof.
  unfold RemoveApprovedUsers. revert d.
  induction ids as [|id ids IH]; intros d; simpl; [by destruct d|].
  rewrite IH at 1. reflexivity.
Qed.

(** The loop of LoadApprovedUsers. *)
Lemma load_users_loop (v : Z) (l : list string) (m : gmap string Z) (count : Z) :
  wrap64 count = count ->
  exists m',
    fold_left
      (fun '(m, count) userID =>
         if isEmpty userID then (m, count)
         else (<[userID := v]> m, wrap64 (count + 1)))
      l (m, count)
    = (m', wrap64 (count + len (List.filter (fun s => negb (isEmpty s)) l))) /\
    forall u, m' !! u
              = if bool_decide (u ∈ List.filter (fun s => negb (isEmpty s)) l) then Some v
                else m !! u.
Proof.
  revert m count. induction l as [|a l IH]; intros m count Hcount.
  { exists m. cbn. rewrite Z.add_0_r, Hcount. split; [reflexivity|]. intros u.
    rewrite bool_decide_eq_false_2; [reflexivity|apply not_elem_of_nil]. }
  cbn [fold_left List.filter]. destruct (isEmpty a) eqn:Ha; cbn [negb].
  { apply IH, Hcount. }
  destruct (IH (<[a := v]> m) (wrap64 (count + 1)) (wrap64_idem _)) as (m' & -> & Hm').
  exists m'. split.
  - f_equal. rewrite wrap64_add_l. apply (f_equal wrap64).
    unfold len. cbn [length]. lia.
  - intros u. rewrite Hm'.
    destruct (decide (u ∈ List.filter (fun s => negb (isEmpty s)) l)) as [Hin|Hout].
    + rewrite !bool_decide_eq_true_2; [reflexivity|by right|assumption].
    + rewrite (bool_decide_eq_false_2 _ Hout).
      destruct (decide (u = a)) as [->|Hne].
      * rewrite lookup_insert_eq, bool_decide_eq_true_2; [reflexivity|by left].
      * rewrite lookup_insert_ne by congruence.
        rewrite bool_decide_eq_false_2; [reflexivity|].
        rewrite elem_of_cons. tauto.
Qed.

(** What LoadSamples, LoadStopWords and updateSample leave alone. *)
Lemma LoadSamples_keeps (d : Detector) (exclReader : Reader)
    (spamReaders hamReaders : list Reader) :
  config (LoadSamples d exclReader spamReaders hamReaders).2 = config d /\
  approvedUsers (LoadSamples d exclReader spamReaders hamReaders).2 = approvedUsers d.
Proof.
  unfold LoadSamples. rewrite load_excluded_loop.
  set (d1 := withExcludedTokens _ _).
  destruct (load_spam_loop (tokenChan spamReaders) d1 [] 0) as (n1 & ->).
  set (d2 := withTokenizedSpam d1 _).
  destruct (load_ham_loop (tokenChan hamReaders) d2
              ([] ++ List.map (fun token => sampleDocument "spam" (tokenize d1 token))
                       (tokenChan spamReaders)) 0) as (n2 & ->).
  split; reflexivity.
Qed.

Lemma LoadStopWords_keeps (d : Detector) (readers : list Reader) :
  config (LoadStopWords d readers).2 = config d /\
  approvedUsers (LoadStopWords d readers).2 = approvedUsers d.
Proof. unfold LoadStopWords. rewrite load_stopwords_loop. split; reflexivity. Qed.

Lemma updateSample_keeps (d : Detector) (msg sc : string) (upd : option Iface.SampleUpdater) :
  withClassifier (updateSample d msg upd sc).2 (classifier d) = d.
Proof.
  rewrite updateSample_spec.
  destruct upd as [updater|]; [destruct (Iface.Append updater msg)|]; by destruct d.
Qed.

Lemma updateSample_config (d : Detector) (msg sc : string) (upd : option Iface.SampleUpdater) :
  config (updateSample d msg upd sc).2 = config d /\
  approvedUsers (updateSample d msg upd sc).2 = approvedUsers d.
Proof.
  rewrite updateSample_spec.
  destruct upd as [updater|]; [destruct (Iface.Append updater msg)|]; split; reflexivity.
Qed.

Lemma window_keeps (c0 : Config) (d d1 : Detector) :
  config d1 = config d ->
  approvedUsers d1 = approvedUsers d ->
  config d = c0 ->
  (forall u n, approvedUsers d !! u = Some n -> 1 <= n <= FirstMessagesCount c0 + 1) ->
  config d1 = c0 /\
  (forall u n, approvedUsers d1 !! u = Some n -> 1 <= n <= FirstMessagesCount c0 + 1).
Proof. intros -> -> Hc Hw. auto. Qed.

(** One call keeps the configuration, and the counters within the window. *)
Lemma afterCall_window (c0 : Config) (d d' : Detector) (c : call) :
  0 <= FirstMessagesCount c0 < MaxInt64 ->
  (0 < FirstMessagesCount c0 -> FirstMessageOnly c0 = true) ->
  config d = c0 ->
  (forall u n, approvedUsers d !! u = Some n -> 1 <= n <= FirstMessagesCount c0 + 1) ->
  afterCall d c = Returns d' ->
  config d' = c0 /\
  (forall u n, approvedUsers d' !! u = Some n -> 1 <= n <= FirstMessagesCount c0 + 1).
Proof.
  intros Hrange Hforced Hconfig Hwithin.
  destruct c; cbn [afterCall].
  - destruct (Check d msg userID) as [r|] eqn:HC; [|discriminate]. intros [= <-].
    destruct (Check_detector _ _ _ _ HC) as [[-> _]|(_ & Hpre & _ & Hfm & ->)]; [auto|].
    split; [exact Hconfig|]. cbn [approvedUsers withApprovedUsers].
    unfold firstMessages in Hfm. unfold preApproved in Hpre. rewrite Hconfig in Hfm, Hpre.
    assert (FirstMessageOnly c0 = true) as Hfmo.
    { destruct (FirstMessageOnly c0); [reflexivity|]. cbn in Hfm.
      apply Hforced. by apply Z.ltb_lt. }
    rewrite Hfmo in Hpre. cbn [andb] in Hpre. apply Z.ltb_ge in Hpre.
    assert (0 <= at_ (approvedUsers d) userID) as Hnonneg.
    { unfold at_. destruct (approvedUsers d !! userID) as [n|] eqn:Hn; cbn; [|lia].
      specialize (Hwithin _ _ Hn). lia. }
    intros u n. destruct (decide (u = userID)) as [->|Hne].
    + rewrite lookup_insert_eq. intros [= <-].
      rewrite wrap64_id by (unfold inInt64, MinInt64, MaxInt64 in *; lia). lia.
    + rewrite lookup_insert_ne by congruence. apply Hwithin.
  - intros [= <-]. split; [exact Hconfig|]. cbn. intros u n. by rewrite lookup_empty.
  - intros [= <-]. rewrite AddApprovedUsers_config. split; [exact Hconfig|].
    intros u n. rewrite AddApprovedUsers_lookup, Hconfig.
    destruct (bool_decide (u ∈ ids)); [|apply Hwithin].
    intros [= <-]. rewrite wrap64_id by (unfold inInt64, MinInt64, MaxInt64 in *; lia). lia.
  - intros [= <-]. rewrite RemoveApprovedUsers_config. split; [exact Hconfig|].
    intros u n. rewrite RemoveApprovedUsers_lookup.
    destruct (bool_decide (u ∈ ids)); [discriminate|apply Hwithin].
  - intros [= <-]. unfold LoadApprovedUsers.
    destruct (load_users_loop (wrap64 (FirstMessagesCount (config d) + 1)) (scanned r) ∅ 0 eq_refl)
      as (m' & -> & Hm').
    cbn [snd config approvedUsers withApprovedUsers]. split; [exact Hconfig|].
    intros u n. rewrite Hm', Hconfig, lookup_empty.
    destruct (bool_decide _); [|discriminate].
    intros [= <-]. rewrite wrap64_id by (unfold inInt64, MinInt64, MaxInt64 in *; lia). lia.
  - intros [= <-]. apply (window_keeps c0 d); auto; apply LoadSamples_keeps.
  - intros [= <-]. apply (window_keeps c0 d); auto; apply LoadStopWords_keeps.
  - intros [= <-]. apply (window_keeps c0 d); auto; apply updateSample_config.
  - intros [= <-]. apply (window_keeps c0 d); auto; apply updateSample_config.
  - intros [= <-]. auto.
  - intros [= <-]. auto.
  - intros [= <-]. auto.
Qed.

(** X1: for a window 0 <= FirstMessagesCount < MaxInt64, in every state
    reached from NewDetector by calls of the exported methods the
    configuration is the one NewDetector stored (none of the methods writes
    it), FirstMessagesCount > 0 goes with FirstMessageOnly, and every
    counter of approvedUsers lies between 1 and FirstMessagesCount + 1: the
    counter of a user stops at the value that approves them, so the
    increment of Check never wraps around. *)
Theorem counters_stay_within_window (p : Config) (calls : list call) (d : Detector) :
  0 <= FirstMessagesCount p < MaxInt64 ->
  afterCalls (NewDetector p) calls = Returns d ->
  config d = config (NewDetector p) /\
  FirstMessagesCount (config d) = FirstMessagesCount p /\
  (0 < FirstMessagesCount (config d) -> FirstMessageOnly (config d) = true) /\
  (forall u n, approvedUsers d !! u = Some n -> 1 <= n <= FirstMessagesCount p + 1).
Proof.
  intros Hrange.
  assert (FirstMessagesCount (config (NewDetector p)) = FirstMessagesCount p) as Hfmc.
  { cbn. by destruct (0 <? FirstMessagesCount p). }
  assert (0 < FirstMessagesCount (config (NewDetector p)) ->
          FirstMessageOnly (config (NewDetector p)) = true) as Hforced.
  { cbn. destruct (0 <? FirstMessagesCount p) eqn:Hpos; [reflexivity|].
    apply Z.ltb_ge in Hpos. lia. }
  assert (forall d0,
             config d0 = config (NewDetector p) ->
             (forall u n, approvedUsers d0 !! u = Some n -> 1 <= n <= FirstMessagesCount p + 1) ->
             afterCalls d0 calls = Returns d ->
             config d = config (NewDetector p) /\
             (forall u n, approvedUsers d !! u = Some n -> 1 <= n <= FirstMessagesCount p + 1))
    as Hloop.
  { induction calls as [|c calls IH]; intros d0 Hc Hw; cbn [afterCalls].
    - intros [= <-]. auto.
    - destruct (afterCall d0 c) as [d1|] eqn:Hstep; [|discriminate].
      rewrite <- Hfmc in Hw, Hrange.
      destruct (afterCall_window _ _ _ _ Hrange Hforced Hc Hw Hstep) as [Hc1 Hw1].
      rewrite Hfmc in Hw1. apply IH; assumption. }
  intros Hrun.
  destruct (Hloop (NewDetector p) eq_refl) as [Hc Hw]; [|exact Hrun|].
  { intros u n. cbn. by rewrite lookup_empty. }
  rewrite Hc. auto.
Qed.

(** X2: a call of Check changes nothing of the detector but the counter of
    the user it is called for: the other counters, the samples, the stop
    words, the classifier and the collaborators stay; no user who is
    pre-approved loses the approval; without FirstMessageOnly and with no
    FirstMessagesCount > 0 the detector is left as it is. *)
Theorem Check_writes_one_counter (d : Detector) (msg userID : string) (r : CheckReturn) :
  Check d msg userID = Returns r ->
  withApprovedUsers (ret_detector r) (approvedUsers d) = d /\
  (forall v, v <> userID -> approvedUsers (ret_detector r) !! v = approvedUsers d !! v) /\
  (forall v, preApproved d v = true -> preApproved (ret_detector r) v = true) /\
  (firstMessages d = false -> ret_detector r = d).
Proof.
  intros H.
  destruct (Check_detector _ _ _ _ H) as [[-> _]|(_ & Hpre & _ & Hfm & ->)].
  { split; [apply withApprovedUsers_same|]. auto. }
  split; [by destruct d|]. split; [|split].
  - intros v Hv. cbn. by rewrite lookup_insert_ne.
  - intros v Hv. destruct (decide (v = userID)) as [->|Hne]; [congruence|].
    unfold preApproved, at_ in *. cbn [config approvedUsers withApprovedUsers].
    by rewrite lookup_insert_ne.
  - congruence.
Qed.






(** X4: the messages of one user checked one after the other, with
    FirstMessageOnly set and FirstMessagesCount below the largest int: the
    counter of the user goes up by exactly the number of calls that went
    through the whole pipeline and found ham, and by nothing else (a spam
    verdict, the length gate and the pre-approval leave it); the user is
    pre-approved afterwards iff the counter has passed FirstMessagesCount,
    so a user without a counter is checked until FirstMessagesCount + 1 of
    their messages were found ham; the configuration is kept. *)
Theorem approval_counts_the_hams (d d' : Detector) (msgs : list string) (userID : string)
    (rs : list CheckReturn) :
  FirstMessageOnly (config d) = true ->
  FirstMessagesCount (config d) < MaxInt64 ->
  MinInt64 <= at_ (approvedUsers d) userID ->
  checkEach d msgs userID = Returns (rs, d') ->
  config d' = config d /\
  length rs = length msgs /\
  at_ (approvedUsers d') userID
    = at_ (approvedUsers d) userID + len (List.filter hamAtTheEnd rs) /\
  preApproved d' userID
    = (FirstMessagesCount (config d)
         <? (at_ (approvedUsers d) userID + len (List.filter hamAtTheEnd rs))).
Proof.
  intros Hfmo Hfmc Hmin Hrun.
  assert (config d' = config d /\ length rs = length msgs /\
          at_ (approvedUsers d') userID
            = at_ (approvedUsers d) userID + len (List.filter hamAtTheEnd rs)) as (Hc & Hl & Hn).
  { revert d rs Hfmo Hfmc Hmin Hrun.
    induction msgs as [|msg msgs IH]; intros d rs Hfmo Hfmc Hmin; cbn [checkEach].
    { intros [= <- <-]. cbn. split; [reflexivity|]. split; [reflexivity|]. unfold len. cbn. lia. }
    destruct (Check d msg userID) as [r|] eqn:HC; [|discriminate].
    destruct (checkEach (ret_detector r) msgs userID) as [[rs' d1]|] eqn:Hrest; [|discriminate].
    intros [= <- <-].
    pose proof (hamAtTheEnd_spec _ _ _ _ HC) as Hham.
    destruct (Check_detector _ _ _ _ HC) as [[Hd Hwhy]|(Hspam & Hpre & Hshort & Hfm & Hd)].
    - rewrite Hd in Hrest.
      destruct (IH d rs' Hfmo Hfmc Hmin Hrest) as (Hc & Hl & Hn).
      split; [exact Hc|]. split; [cbn; by rewrite Hl|].
      cbn [List.filter].
      destruct (hamAtTheEnd r) eqn:Hr; [|exact Hn].
      destruct Hham as [Hham _]. destruct (Hham eq_refl) as (Hs & Hp & Hsh).
      unfold firstMessages in Hwhy. rewrite Hfmo in Hwhy. cbn in Hwhy.
      destruct Hwhy as [?|[?|[?|?]]]; congruence.
    - assert (hamAtTheEnd r = true) as Hr by (apply Hham; auto).
      unfold preApproved in Hpre. rewrite Hfmo in Hpre. cbn [andb] in Hpre.
      apply Z.ltb_ge in Hpre.
      assert (wrap64 (at_ (approvedUsers d) userID + 1) = at_ (approvedUsers d) userID + 1)
        as Hwrap by (apply wrap64_id; unfold inInt64, MinInt64, MaxInt64 in *; lia).
      rewrite Hd in Hrest.
      assert (at_ (approvedUsers
                     (withApprovedUsers d
                        (<[userID := wrap64 (at_ (approvedUsers d) userID + 1)]>
                           (approvedUsers d)))) userID
              = at_ (approvedUsers d) userID + 1) as Hnext.
      { cbn [approvedUsers withApprovedUsers].
        by rewrite (at_Some _ _ _ (lookup_insert_eq _ _ _)). }
      destruct (IH (withApprovedUsers d
                      (<[userID := wrap64 (at_ (approvedUsers d) userID + 1)]>
                         (approvedUsers d))) rs' Hfmo Hfmc) as (Hc & Hl & Hn);
        [rewrite Hnext; lia|exact Hrest|].
      split; [exact Hc|]. split; [cbn; by rewrite Hl|].
      cbn [List.filter]. rewrite Hr, Hn, Hnext.
      unfold len. cbn [length]. lia. }
  split; [exact Hc|]. split; [exact Hl|]. split; [exact Hn|].
  unfold preApproved. by rewrite Hc, Hfmo, Hn.
Qed.

(** X5: RemoveApprovedUsers takes the listed users out of approvedUsers and
    leaves every other counter and the configuration; with
    FirstMessagesCount >= 0 a removed user is no longer pre-approved, so
    their next message is checked, and ApprovedUsers does not list them.
    Removing a user who is not there changes nothing. *)
Theorem RemoveApprovedUsers_forgets (d : Detector) (ids : list string) (u : string) :
  0 <= FirstMessagesCount (config d) ->
  u ∈ ids ->
  approvedUsers (RemoveApprovedUsers d ids) !! u = None /\
  preApproved (RemoveApprovedUsers d ids) u = false /\
  (u ∉ ApprovedUsers (RemoveApprovedUsers d ids)) /\
  config (RemoveApprovedUsers d ids) = config d /\
  (forall v, v ∉ ids ->
             approvedUsers (RemoveApprovedUsers d ids) !! v = approvedUsers d !! v) /\
  (forall v, approvedUsers d !! v = None ->
             RemoveApprovedUsers d [v] = d).
Proof.
  intros Hfmc Hu.
  assert (approvedUsers (RemoveApprovedUsers d ids) !! u = None) as Hnone.
  { rewrite RemoveApprovedUsers_lookup. by rewrite bool_decide_eq_true_2. }
  split; [exact Hnone|]. split; [|split; [|split; [|split]]].
  - unfold preApproved. rewrite (at_None _ _ Hnone), RemoveApprovedUsers_config.
    replace (FirstMessagesCount (config d) <? 0) with false by (symmetry; apply Z.ltb_ge; lia).
    apply andb_false_r.
  - unfold ApprovedUsers, keys. rewrite list_elem_of_fmap.
    intros ([k v] & -> & Hin). apply elem_of_map_to_list in Hin. cbn in Hnone. congruence.
  - apply RemoveApprovedUsers_config.
  - intros v Hv. rewrite RemoveApprovedUsers_lookup. by rewrite bool_decide_eq_false_2.
  - intros v Hv. cbn. rewrite delete_id by exact Hv. apply withApprovedUsers_same.
Qed.

(** X6: ApprovedUsers returns every user id that has a counter, each one
    once - also the users still inside the observation window: after a call
    of Check that went through the pipeline and found ham (with
    FirstMessageOnly or FirstMessagesCount > 0) the user is on the list,
    whether or not that call made them pre-approved. *)
Theorem ApprovedUsers_lists_every_counter (d : Detector) :
  NoDup (ApprovedUsers d) /\
  (forall u, u ∈ ApprovedUsers d <-> approvedUsers d !! u <> None) /\
  (forall msg u r,
      Check d msg u = Returns r ->
      firstMessages d = true ->
      hamAtTheEnd r = true ->
      u ∈ ApprovedUsers (ret_detector r)).
Proof.
  assert (forall d0 u, u ∈ ApprovedUsers d0 <-> approvedUsers d0 !! u <> None) as Hkeys.
  { intros d0 u. unfold ApprovedUsers, keys. rewrite list_elem_of_fmap. split.
    - intros ([k v] & -> & Hin). apply elem_of_map_to_list in Hin. cbn. congruence.
    - destruct (approvedUsers d0 !! u) as [v|] eqn:Hv; [intros _|congruence].
      exists (u, v). split; [reflexivity|]. by apply elem_of_map_to_list. }
  split; [apply NoDup_fst_map_to_list|]. split; [apply Hkeys|].
  intros msg u r HC Hfm Hham.
  apply (hamAtTheEnd_spec _ _ _ _ HC) in Hham as (Hspam & Hpre & Hshort).
  destruct (Check_detector _ _ _ _ HC) as [[_ Hwhy]|(_ & _ & _ & _ & ->)].
  { destruct Hwhy as [?|[?|[?|?]]]; congruence. }
  apply Hkeys. cbn. by rewrite lookup_insert_eq.
Qed.

(** X7: LoadApprovedUsers replaces approvedUsers: afterwards exactly the
    non-empty lines of the reader have a counter, each FirstMessagesCount + 1
    in int arithmetic, and the users approved before are gone; the count it
    returns is the number of non-empty lines, a repeated id counting every
    time; the error it returns is the error of the scanner, the lines read
    before the error being loaded all the same; nothing else of the
    detector changes. *)
Theorem LoadApprovedUsers_replaces (d : Detector) (r : Reader) :
  (LoadApprovedUsers d r).1.1
    = wrap64 (len (List.filter (fun s => negb (isEmpty s)) (scanned r))) /\
  (LoadApprovedUsers d r).1.2 = scanErr r /\
  withApprovedUsers (LoadApprovedUsers d r).2 (approvedUsers d) = d /\
  (forall u,
      approvedUsers (LoadApprovedUsers d r).2 !! u
      = if bool_decide (u ∈ scanned r /\ u <> EmptyString)
        then Some (wrap64 (FirstMessagesCount (config d) + 1)) else None).
Proof.
  unfold LoadApprovedUsers.
  destruct (load_users_loop (wrap64 (FirstMessagesCount (config d) + 1)) (scanned r) ∅ 0 eq_refl)
    as (m' & -> & Hm').
  cbn [fst snd]. split; [by rewrite Z.add_0_l|]. split; [reflexivity|].
  split; [by destruct d|].
  intros u. cbn [approvedUsers withApprovedUsers]. rewrite Hm', lookup_empty.
  apply (f_equal (fun b : bool => if b then _ else _)).
  apply bool_decide_ext.
  rewrite list_elem_of_In, filter_In, <- list_elem_of_In, negb_true_iff, isEmpty_false.
  reflexivity.
Qed.


End DetectorStates.

(** ** The list of results and the verdict *)

Section PipelineShape.
Context {rt : GoRuntime} {lh : LibHelpers}.
Import GoInt GoStrings.

Lemma corpus_producers (d : Detector) (msg userID : string) (acc : collected) (p : producer) :
  checkCorpus d msg userID (checkLocal d msg) = Returns acc ->
  p ∈ acc.2 ->
  p = byStopWord \/ p = byEmoji \/ p = bySimilarity \/ p = byClassifier \/ p = byCas.
Proof.
  intros Hacc Hp. destruct (checkCorpus_producers _ _ _ _ _ p Hacc Hp) as [Hl|Hc]; [|tauto].
  destruct (checkLocal_producers _ _ _ Hl); tauto.
Qed.

(** The verdict of Check and its list. *)
Lemma Check_verdict (d : Detector) (msg userID : string) (r : CheckReturn) :
  Check d msg userID = Returns r ->
  ((byOpenAI ∉ ret_by r) /\ ret_spam r = isSpamDetected (ret_cr r)) \/
  (exists checker acc,
      openaiChecker d = Some checker /\ firstMessages d = true /\
      preApproved d userID = false /\ tooShort d msg = false /\
      ret_spam r = (Iface.check checker msg).1 /\
      ret_cr r = acc.1 ++ [(Iface.check checker msg).2] /\
      ret_by r = acc.2 ++ [byOpenAI] /\
      (byOpenAI ∉ acc.2) /\
      (isSpamDetected acc.1 = OpenAIVeto (config d))).
Proof.
  unfold Check.
  destruct (preApproved d userID) eqn:Hpre.
  { intros [= <-]. left. cbn. split; [|reflexivity].
    rewrite list_elem_of_singleton. discriminate. }
  destruct (tooShort d msg) eqn:Hshort.
  { assert (byOpenAI ∉ (collect (checkLocal d msg) byMsgLength msgLengthResult).2) as Hno.
    { unfold collect. cbn [snd]. rewrite elem_of_app, list_elem_of_singleton.
      intros [Hl|?]; [|discriminate]. destruct (checkLocal_producers _ _ _ Hl); discriminate. }
    destruct (isSpamDetected _) eqn:Hany; intros [= <-]; left; cbn [ret_by ret_spam ret_cr];
      auto. }
  destruct (checkCorpus d msg userID (checkLocal d msg)) as [acc|] eqn:Hcorpus; [|discriminate].
  assert (byOpenAI ∉ acc.2) as Hno.
  { intros Hp. destruct (corpus_producers _ _ _ _ _ Hcorpus Hp) as [?|[?|[?|[?|?]]]];
      discriminate. }
  rewrite checkOpenAI_spec.
  destruct (openaiChecker d) as [checker|].
  - destruct (firstMessages d) eqn:Hfm; cbn [andb].
    + destruct (negb (isSpamDetected acc.1) && negb (OpenAIVeto (config d))
                || isSpamDetected acc.1 && OpenAIVeto (config d)) eqn:Hgate.
      * intros H. right. exists checker, acc.
        assert (isSpamDetected acc.1 = OpenAIVeto (config d)) as Hveto.
        { destruct (isSpamDetected acc.1), (OpenAIVeto (config d)); cbn in Hgate; congruence. }
        destruct ((Iface.check checker msg).1) eqn:Hllm; injection H as <-;
          cbn [ret_spam ret_cr ret_by fst snd]; rewrite ?Hfm; auto 10.
      * destruct (isSpamDetected acc.1) eqn:Hany; intros [= <-]; left;
          cbn [ret_by ret_spam ret_cr]; auto.
    + destruct (isSpamDetected acc.1) eqn:Hany; intros [= <-]; left;
        cbn [ret_by ret_spam ret_cr]; auto.
  - destruct (isSpamDetected acc.1) eqn:Hany; intros [= <-]; left;
      cbn [ret_by ret_spam ret_cr]; auto.
Qed.

(** X9: whenever Check does not consult the LLM - always when none is
    attached - its verdict is spam iff some result on the list it returns is
    spam, on each of its three ways out; with every check switched off the
    list can be empty and the verdict is ham. When the LLM is consulted its
    answer is the verdict and its result is the last of the list, and the
    verdict can then be ham although a result on the list is spam (veto) or
    spam although none of the other results is. *)
Theorem verdict_is_some_spam_result (d : Detector) (msg userID : string) (r : CheckReturn) :
  Check d msg userID = Returns r ->
  (byOpenAI ∉ ret_by r -> ret_spam r = true <-> exists x, x ∈ ret_cr r /\ Spam x = true) /\
  (openaiChecker d = None -> byOpenAI ∉ ret_by r) /\
  (ret_cr r = [] -> ret_spam r = false) /\
  (byOpenAI ∈ ret_by r ->
   exists checker,
     openaiChecker d = Some checker /\
     ret_spam r = (Iface.check checker msg).1 /\
     last (ret_cr r) = Some (Iface.check checker msg).2 /\
     (isSpamDetected (removelast (ret_cr r)) = OpenAIVeto (config d))).
Proof.
  intros H.
  destruct (Check_verdict _ _ _ _ H)
    as [[Hno Hany]|(checker & acc & Hc & Hfm & Hpre & Hshort & Hs & Hcr & Hby & Hno & Hveto)].
  - split; [intros _; rewrite Hany; apply isSpamDetected_true|].
    split; [auto|]. split; [intros Hnil; by rewrite Hany, Hnil|]. contradiction.
  - split; [intros Hout; destruct Hout; rewrite Hby, elem_of_app, list_elem_of_singleton; auto|].
    split; [congruence|]. split; [rewrite Hcr; by destruct acc.1|].
    intros _. exists checker. rewrite Hcr, last_snoc, removelast_last. auto.
Qed.

Lemma similarityLoop_name (d : Detector) (q : gmap string Z) (samples : list (gmap string Z))
    (m0 : GoFloat.float64) :
  Name (similarityLoop d q samples m0) = "similarity".
Proof.
  revert m0. induction samples as [|x l IH]; intros m0; cbn; [reflexivity|].
  destruct (GoFloat.ge _ _); [reflexivity|apply IH].
Qed.

Lemma producedBy_name (d : Detector) (msg userID : string) (p : producer) (x : CheckResult) :
  producedBy d msg userID p x -> p <> byOpenAI -> Name x = nameOf p.
Proof.
  destruct p; cbn [producedBy nameOf]; try (intros -> _; reflexivity).
  - intros -> _. unfold isStopWord. by destruct (List.find _ _).
  - intros -> _. apply similarityLoop_name.
  - intros -> _. unfold isSpamClassified. by destruct (classify _ _) as [[class prob] certain].
  - intros Hcas _. unfold isCasSpam in Hcas.
    destruct (ParseInt userID); [|by injection Hcas as <-].
    destruct (NewRequest _ _) as [req|err]; [|by injection Hcas as <-].
    destruct (HTTPClient (config d)) as [client|]; [|discriminate].
    destruct (Iface.Do client req) as [resp|err]; [|by injection Hcas as <-].
    destruct (jsonDecode (Body resp)) as [[ok description]|err]; [|by injection Hcas as <-].
    destruct ok; by injection Hcas as <-.
  - intros _ Hne. by destruct Hne.
Qed.

(** X10: the results Check returns come in the order of the pipeline -
    pre-approved, stopword, emoji, message length, similarity, classifier,
    cas, and the LLM last - each place at most once; and every result but
    the LLM's carries the name of its place. *)
Theorem results_follow_the_pipeline (d : Detector) (msg userID : string) (r : CheckReturn) :
  Check d msg userID = Returns r ->
  sublist (ret_by r) pipelineOrder /\
  length (ret_cr r) = length (ret_by r) /\
  Forall2 (fun p x => p <> byOpenAI -> Name x = nameOf p) (ret_by r) (ret_cr r).
Proof.
  intros H. pose proof (Check_producedBy _ _ _ _ H) as Hprod.
  split; [|split].
  - destruct (Check_cases _ _ _ _ H)
      as [[_ ->]|[(_ & _ & ->)|(_ & _ & acc & Hacc & Hby)]].
    + unfold pipelineOrder. repeat constructor.
    + rewrite checkLocal_results. cbn [snd]. unfold pipelineOrder.
      destruct (0 <? len (stopWords d)), (0 <=? MaxAllowedEmoji (config d));
        cbn [app]; repeat constructor.
    + destruct (checkCorpus_results _ _ _ _ _ Hacc) as (cas & _ & _ & Hacc2).
      rewrite checkLocal_results in Hacc2. cbn [snd] in Hacc2. unfold pipelineOrder.
      destruct Hby as [-> | ->]; rewrite Hacc2;
        destruct (0 <? len (stopWords d)), (0 <=? MaxAllowedEmoji (config d)),
          (GoFloat.gt _ _ && _), (0 <? NaiveBayes.nAllDocument _),
          (isEmpty (CasAPI (config d))); cbn [app]; repeat constructor.
  - symmetry. by eapply Forall2_length.
  - eapply Forall2_impl; [exact Hprod|]. intros p x. apply producedBy_name.
Qed.

Lemma similarityLoop_ext (d d' : Detector) (q : gmap string Z) (samples : list (gmap string Z))
    (m0 : GoFloat.float64) :
  config d = config d' -> similarityLoop d q samples m0 = similarityLoop d' q samples m0.
Proof.
  intros Hc. revert m0. induction samples as [|x l IH]; intros m0; cbn.
  - unfold similarityResult. by rewrite Hc.
  - rewrite Hc, IH. unfold similarityResult. by rewrite Hc.
Qed.

Lemma isSpamSimilarityHigh_ext (d d' : Detector) (msg : string) :
  config d = config d' ->
  excludedTokens d = excludedTokens d' ->
  tokenizedSpam d = tokenizedSpam d' ->
  isSpamSimilarityHigh d msg = isSpamSimilarityHigh d' msg.
Proof.
  intros Hc He Hs. unfold isSpamSimilarityHigh.
  rewrite (tokenize_excluded d d' msg He), Hs. by apply similarityLoop_ext.
Qed.

Lemma checkCorpus_approved (d : Detector) (m : gmap string Z) (msg userID : string)
    (acc : collected) :
  checkCorpus (withApprovedUsers d m) msg userID acc = checkCorpus d msg userID acc.
Proof.
  unfold checkCorpus.
  by rewrite (isSpamSimilarityHigh_ext (withApprovedUsers d m) d msg eq_refl eq_refl eq_refl).
Qed.

(** Without FirstMessageOnly and with no FirstMessagesCount > 0. *)
Lemma Check_without_window (d : Detector) (msg userID : string) (r : CheckReturn) :
  FirstMessageOnly (config d) = false ->
  FirstMessagesCount (config d) <= 0 ->
  Check d msg userID = Returns r ->
  ret_detector r = d /\ (byPreApproved ∉ ret_by r) /\ (byOpenAI ∉ ret_by r).
Proof.
  intros Hfmo Hfmc H.
  assert (firstMessages d = false) as Hfm.
  { unfold firstMessages. rewrite Hfmo. cbn. apply Z.ltb_ge. lia. }
  assert (preApproved d userID = false) as Hpre.
  { unfold preApproved. by rewrite Hfmo. }
  split; [|split].
  - destruct (Check_detector _ _ _ _ H) as [[Hd _]|(_ & _ & _ & Hfm' & _)];
      [exact Hd|congruence].
  - destruct (Check_cases _ _ _ _ H)
      as [[Hp _]|[(_ & _ & ->)|(_ & _ & acc & Hacc & Hby)]].
    + congruence.
    + rewrite elem_of_app, list_elem_of_singleton.
      intros [Hl|?]; [|discriminate]. destruct (checkLocal_producers _ _ _ Hl); discriminate.
    + assert (byPreApproved ∉ acc.2) as Hno.
      { intros Hp. destruct (corpus_producers _ _ _ _ _ Hacc Hp) as [?|[?|[?|[?|?]]]];
          discriminate. }
      destruct Hby as [-> | ->]; [exact Hno|].
      rewrite elem_of_app, list_elem_of_singleton. intros [?|?]; [auto|discriminate].
  - destruct (Check_verdict _ _ _ _ H) as [[Hno _]|(? & ? & _ & Hfm' & _)];
      [exact Hno|congruence].
Qed.

(** X11: with FirstMessageOnly off and FirstMessagesCount <= 0 (what
    paranoid mode sets) the list of approved users plays no role: Check
    never answers pre-approved, never consults the LLM, leaves the detector
    as it is, and returns for a user added with AddApprovedUsers the same
    verdict and the same results as without. *)
Theorem approvals_ignored_without_window (d : Detector) (ids : list string)
    (msg userID : string) :
  FirstMessageOnly (config d) = false ->
  FirstMessagesCount (config d) <= 0 ->
  (forall r, Check d msg userID = Returns r ->
             ret_detector r = d /\ (byPreApproved ∉ ret_by r) /\ (byOpenAI ∉ ret_by r)) /\
  Check (AddApprovedUsers d ids) msg userID
  = match Check d msg userID with
    | Returns r =>
        Returns {| ret_spam := ret_spam r; ret_cr := ret_cr r; ret_by := ret_by r;
                   ret_detector := AddApprovedUsers d ids |}
    | Panics why => Panics why
    end.
Proof.
  intros Hfmo Hfmc.
  assert (firstMessages d = false) as Hfm.
  { unfold firstMessages. rewrite Hfmo. cbn. apply Z.ltb_ge. lia. }
  assert (forall m, preApproved (withApprovedUsers d m) userID = false) as Hpre.
  { intros m. unfold preApproved. cbn [config withApprovedUsers]. by rewrite Hfmo. }
  split; [intros r; by apply Check_without_window|].
  - rewrite (AddApprovedUsers_frame d ids).
    generalize (approvedUsers (AddApprovedUsers d ids)). intros m.
    pose proof (Hpre (approvedUsers d)) as Hpre0. rewrite withApprovedUsers_same in Hpre0.
    unfold Check. rewrite Hpre, Hpre0.
    change (checkLocal (withApprovedUsers d m) msg) with (checkLocal d msg).
    change (tooShort (withApprovedUsers d m) msg) with (tooShort d msg).
    destruct (tooShort d msg).
    { destruct (isSpamDetected _); reflexivity. }
    rewrite checkCorpus_approved.
    destruct (checkCorpus d msg userID (checkLocal d msg)) as [acc|]; [|reflexivity].
    change (checkOpenAI (withApprovedUsers d m) msg acc) with (checkOpenAI d msg acc).
    destruct (checkOpenAI d msg acc) as [spamDetected acc'].
    change (firstMessages (withApprovedUsers d m)) with (firstMessages d).
    rewrite Hfm. destruct spamDetected; reflexivity.
Qed.

End PipelineShape.

(** ** Tokens *)

Section TokenFacts.
Context {rt : GoRuntime} {lh : LibHelpers}.
Import GoInt GoStrings.

Lemma lastByteOf_None (s : string) : lastByteOf s = None <-> s = EmptyString.
Proof.
  destruct s as [|a s]; cbn; [done|].
  destruct (lastByteOf s); split; intros; discriminate.
Qed.

Lemma TrimRight_last (s c : string) (b : ascii) :
  lastByteOf (TrimRight s c) = Some b -> inCutset b c = false.
Proof.
  induction s as [|a s IH]; cbn [TrimRight]; [discriminate|]. cbv zeta.
  destruct (isEmpty (TrimRight s c)) eqn:He; cbn [andb].
  - apply isEmpty_true in He. rewrite He.
    destruct (inCutset a c) eqn:Ha; cbn; [discriminate|]. by intros [= <-].
  - cbn [lastByteOf]. destruct (lastByteOf (TrimRight s c)) eqn:Hl.
    + intros [= <-]. by apply IH.
    + apply lastByteOf_None in Hl. apply isEmpty_false in He. contradiction.
Qed.

Lemma TrimLeft_first (s c : string) (a : ascii) :
  firstByteOf (TrimLeft s c) = Some a -> inCutset a c = false.
Proof.
  induction s as [|x s IH]; cbn [TrimLeft]; [discriminate|].
  destruct (inCutset x c) eqn:Hx; [exact IH|]. cbn. by intros [= <-].
Qed.

Lemma TrimLeft_last (s c : string) (b : ascii) :
  lastByteOf (TrimLeft s c) = Some b -> lastByteOf s = Some b.
Proof.
  induction s as [|x s IH]; cbn [TrimLeft]; [discriminate|].
  destruct (inCutset x c); [|done].
  intros H. cbn. by rewrite (IH H).
Qed.

(** What Trim leaves, when it leaves something, starts and ends outside
    the cutset. *)
Lemma Trim_ends (s c : string) :
  Trim s c <> EmptyString ->
  exists a b,
    firstByteOf (Trim s c) = Some a /\ lastByteOf (Trim s c) = Some b /\
    inCutset a c = false /\ inCutset b c = false.
Proof.
  intros Hne.
  destruct (Trim s c) as [|a t] eqn:Ht; [contradiction|].
  destruct (lastByteOf (String a t)) as [b|] eqn:Hb;
    [|apply lastByteOf_None in Hb; discriminate].
  exists a, b. split; [reflexivity|]. split; [reflexivity|].
  unfold Trim in Ht. split.
  - apply (TrimLeft_first (TrimRight s c)). by rewrite Ht.
  - apply (TrimRight_last s). apply (TrimLeft_last _ c). by rewrite Ht.
Qed.

Lemma Contains_byte_cons (a x : ascii) (s : string) :
  Contains (String a s) (String x EmptyString)
  = Ascii.eqb x a || Contains s (String x EmptyString).
Proof.
  cbn [Contains String.prefix]. f_equal.
  destruct (ascii_dec x a) as [->|Hne].
  - rewrite Ascii.eqb_refl. by destruct s.
  - symmetry. by apply Ascii.eqb_neq.
Qed.

Lemma Split_no_sep (s : string) (sep : ascii) :
  Forall (fun t => Contains t (String sep EmptyString) = false) (Split s sep).
Proof.
  induction s as [|c s IH]; cbn [Split]; [by repeat constructor|].
  destruct (Ascii.eqb c sep) eqn:Hc; [by constructor|].
  destruct (Split s sep) as [|h t].
  { constructor; [|constructor]. by rewrite Contains_byte_cons, Ascii.eqb_sym, Hc. }
  inversion IH as [|? ? Hh Ht]; subst. constructor; [|exact Ht].
  rewrite Contains_byte_cons, Hh, Ascii.eqb_sym, Hc. reflexivity.
Qed.

Lemma TrimLeft_no_byte (s c : string) (x : ascii) :
  Contains s (String x EmptyString) = false ->
  Contains (TrimLeft s c) (String x EmptyString) = false.
Proof.
  induction s as [|a s IH]; [done|]. cbn [TrimLeft].
  destruct (inCutset a c); [|done].
  rewrite Contains_byte_cons. intros [_ H]%orb_false_iff. by apply IH.
Qed.

Lemma TrimRight_no_byte (s c : string) (x : ascii) :
  Contains s (String x EmptyString) = false ->
  Contains (TrimRight s c) (String x EmptyString) = false.
Proof.
  induction s as [|a s IH]; [done|]. cbn [TrimRight]. cbv zeta.
  rewrite Contains_byte_cons. intros [Ha H]%orb_false_iff.
  destruct (isEmpty (TrimRight s c) && inCutset a c); [reflexivity|].
  rewrite Contains_byte_cons, Ha. by apply IH.
Qed.

(** X12: every token tokenChan delivers is non-empty and starts and ends
    with a byte that is no blank (space, newline, carriage return, tab); a
    token of a line that holds a comma and starts with a double quote holds
    no comma and neither starts nor ends with a double quote; any other line
    gives at most one token, the line without the blanks around it, commas
    and quotes kept. *)
Theorem tokenChan_tokens_are_trimmed (readers : list Reader) (t : string) :
  t ∈ tokenChan readers ->
  exists reader line a b,
    reader ∈ readers /\ line ∈ scanned reader /\
    firstByteOf t = Some a /\ lastByteOf t = Some b /\
    inCutset a blanks = false /\ inCutset b blanks = false /\
    (if Contains line "," && HasPrefix line (String "034" EmptyString)
     then Contains t "," = false /\ a <> "034"%char /\ b <> "034"%char
     else t = Trim line blanks /\ lineTokens line = [t]).
Proof.
  unfold tokenChan. rewrite list_elem_of_In, in_flat_map.
  intros (reader & Hreader & Hin). apply in_flat_map in Hin as (line & Hline & Ht).
  exists reader, line. apply list_elem_of_In in Hreader, Hline.
  unfold lineTokens in *.
  destruct (Contains line "," && HasPrefix line (String "034" EmptyString)).
  - apply filter_In in Ht as [Ht Hne]. apply in_map_iff in Ht as (piece & <- & Hpiece).
    apply negb_true_iff, isEmpty_false in Hne.
    destruct (Trim_ends _ _ Hne) as (a & b & Ha & Hb & Hac & Hbc).
    exists a, b. split; [exact Hreader|]. split; [exact Hline|].
    split; [exact Ha|]. split; [exact Hb|].
    cbn [inCutset] in Hac, Hbc.
    apply orb_false_iff in Hac as [Ha1 [Ha2 Ha3]%orb_false_iff].
    apply orb_false_iff in Hbc as [Hb1 [Hb2 Hb3]%orb_false_iff].
    split; [unfold blanks; cbn [inCutset]; by rewrite Ha1, Ha3|].
    split; [unfold blanks; cbn [inCutset]; by rewrite Hb1, Hb3|].
    split; [|split].
    + apply TrimLeft_no_byte, TrimRight_no_byte.
      pose proof (Split_no_sep line ",") as Hall. rewrite List.Forall_forall in Hall.
      by apply Hall.
    + intros ->. by rewrite Ascii.eqb_refl in Ha2.
    + intros ->. by rewrite Ascii.eqb_refl in Hb2.
  - fold blanks in Ht |- *.
    destruct (isEmpty (Trim line blanks)) eqn:He; [by destruct Ht|].
    destruct Ht as [<-|[]]. apply isEmpty_false in He.
    destruct (Trim_ends _ _ He) as (a & b & Ha & Hb & Hac & Hbc).
    exists a, b. auto 10.
Qed.

(** One round of the loop of tokenize. *)
Lemma tokenizeStep_counted (d : Detector) (m : gmap string Z) (f : string) :
  tokenizeStep d m f
  = if counted d f then <[tokenOf f := wrap64 (at_ m (tokenOf f) + 1)]> m else m.
Proof.
  unfold tokenizeStep, counted, tokenOf.
  destruct (isExcludedToken d f); [reflexivity|].
  by destruct (runeCount _ <? 3).
Qed.

(** The loop of tokenize. *)
Lemma tokenize_loop (d : Detector) (l : list string) (m : gmap string Z) (k : string) :
  fold_left (tokenizeStep d) l m !! k
  = if len (List.filter (fun f => counted d f && String.eqb (tokenOf f) k) l) =? 0
    then m !! k
    else Some (wrap64 (at_ m k
                       + len (List.filter (fun f => counted d f && String.eqb (tokenOf f) k) l))).
Proof.
  revert m. induction l as [|f l IH]; intros m; [reflexivity|].
  cbn [fold_left List.filter]. rewrite IH. clear IH.
  rewrite tokenizeStep_counted.
  set (F := List.filter (fun f => counted d f && String.eqb (tokenOf f) k) l).
  assert (0 <= len F) as HF by (unfold len; lia).
  destruct (counted d f); cbn [andb]; [|reflexivity].
  destruct (String.eqb (tokenOf f) k) eqn:Hk.
  - apply String.eqb_eq in Hk. subst k.
    replace (len (f :: F)) with (1 + len F) by (unfold len; cbn [length]; lia).
    replace (1 + len F =? 0) with false by (symmetry; apply Z.eqb_neq; lia).
    rewrite (at_Some _ _ _ (lookup_insert_eq _ _ _)), lookup_insert_eq.
    destruct (len F =? 0) eqn:H0.
    + apply Z.eqb_eq in H0. rewrite H0. reflexivity.
    + rewrite wrap64_add_l. f_equal. apply (f_equal wrap64). lia.
  - apply String.eqb_neq in Hk.
    unfold at_. by rewrite lookup_insert_ne.
Qed.

(** X13: tokenize counts the fields of the input: the frequency of a token
    is the number of fields that are no excluded token, keep three runes or
    more after cleaning, and clean to that token, in int arithmetic; a token
    no field cleans to is missing from the map. So an input without such a
    field - empty, or short or excluded words only - gives the empty map,
    and while the fields are no more than the largest int every frequency
    is at least 1 and at most the number of fields. *)
Theorem tokenize_counts_fields (d : Detector) (inp k : string) :
  tokenize d inp !! k
  = (if len (List.filter (fun f => counted d f && String.eqb (tokenOf f) k) (Fields inp)) =? 0
     then None
     else Some (wrap64 (len (List.filter (fun f => counted d f && String.eqb (tokenOf f) k)
                                  (Fields inp))))) /\
  (Forall (fun f => counted d f = false) (Fields inp) -> tokenize d inp = ∅) /\
  (len (Fields inp) <= MaxInt64 ->
   forall v, tokenize d inp !! k = Some v -> 1 <= v <= len (Fields inp)).
Proof.
  assert (tokenize d inp !! k
          = (if len (List.filter (fun f => counted d f && String.eqb (tokenOf f) k)
                       (Fields inp)) =? 0
             then None
             else Some (wrap64 (len (List.filter
                                       (fun f => counted d f && String.eqb (tokenOf f) k)
                                       (Fields inp)))))) as Hk.
  { unfold tokenize. rewrite tokenize_loop, lookup_empty.
    by rewrite (at_None _ _ (lookup_empty _)), Z.add_0_l. }
  split; [exact Hk|]. split.
  - clear Hk. intros Hnone. apply map_eq. intros k'. rewrite lookup_empty.
    unfold tokenize. rewrite tokenize_loop, lookup_empty.
    replace (List.filter (fun f => counted d f && String.eqb (tokenOf f) k') (Fields inp))
      with (@nil string); [reflexivity|].
    symmetry. induction Hnone as [|f l Hf Hl IH]; [reflexivity|].
    cbn [List.filter]. rewrite Hf. cbn [andb]. exact IH.
  - intros Hlen v. rewrite Hk.
    set (F := List.filter _ _).
    assert (0 <= len F <= len (Fields inp)) as HF.
    { unfold len. split; [lia|]. apply inj_le. apply List.filter_length_le. }
    destruct (len F =? 0) eqn:H0; [discriminate|]. apply Z.eqb_neq in H0.
    intros [= <-]. rewrite wrap64_id by (unfold inInt64, MinInt64, MaxInt64 in *; lia). lia.
Qed.

(** X14: after LoadStopWords the stop words are the tokens of the readers
    in lower case, the old ones gone, and the count it returns is their
    number; isStopWord then finds spam iff the message, in lower case and
    without emoji, contains the lower case of one of them, reports the
    first such stop word in its details, and "not found" otherwise. *)
Theorem LoadStopWords_then_isStopWord (d : Detector) (readers : list Reader) (msg : string) :
  stopWords (LoadStopWords d readers).2 = List.map ToLower (tokenChan readers) /\
  StopWords (LoadStopWords d readers).1.1 = len (tokenChan readers) /\
  (Spam (isStopWord (LoadStopWords d readers).2 msg) = true <->
   exists t, t ∈ tokenChan readers /\
             Contains (cleanEmoji (ToLower msg)) (ToLower (ToLower t)) = true) /\
  (Spam (isStopWord (LoadStopWords d readers).2 msg) = true ->
   exists pre t post,
     tokenChan readers = pre ++ t :: post /\
     Details (isStopWord (LoadStopWords d readers).2 msg) = ToLower t /\
     Contains (cleanEmoji (ToLower msg)) (ToLower (ToLower t)) = true /\
     Forall (fun t' => Contains (cleanEmoji (ToLower msg)) (ToLower (ToLower t')) = false) pre) /\
  (Spam (isStopWord (LoadStopWords d readers).2 msg) = false ->
   Details (isStopWord (LoadStopWords d readers).2 msg) = "not found").
Proof.
  assert (stopWords (LoadStopWords d readers).2 = List.map ToLower (tokenChan readers)) as Hw.
  { unfold LoadStopWords. rewrite load_stopwords_loop. reflexivity. }
  split; [exact Hw|]. split.
  { unfold LoadStopWords. rewrite load_stopwords_loop. cbn. unfold len.
    by rewrite length_map. }
  unfold isStopWord. rewrite Hw. generalize (tokenChan readers). intros l.
  set (hit := fun word => Contains (cleanEmoji (ToLower msg)) (ToLower word)).
  assert (forall l : list string,
             match List.find hit (List.map ToLower l) with
             | Some w =>
                 exists pre t post,
                   l = pre ++ t :: post /\ w = ToLower t /\ hit (ToLower t) = true /\
                   Forall (fun t' => hit (ToLower t') = false) pre
             | None => Forall (fun t' => hit (ToLower t') = false) l
             end) as Hfind.
  { clear. intros l. induction l as [|t l IH]; cbn [List.map List.find]; [constructor|].
    destruct (hit (ToLower t)) eqn:Ht.
    - exists [], t, l. repeat split; auto.
    - destruct (List.find hit (List.map ToLower l)) as [w|].
      + destruct IH as (pre & t0 & post & -> & -> & Hhit & Hpre).
        exists (t :: pre), t0, post. repeat split; auto.
      + by constructor. }
  specialize (Hfind l).
  destruct (List.find hit (List.map ToLower l)) as [w|]; cbn [Spam Details].
  - destruct Hfind as (pre & t & post & -> & -> & Hhit & Hpre).
    split; [|split; [|discriminate]].
    + split; [intros _|reflexivity]. exists t. split; [|exact Hhit].
      apply elem_of_app. right. by left.
    + intros _. exists pre, t, post. auto.
  - split; [|split; [discriminate|reflexivity]].
    split; [discriminate|]. intros (t & Hin & Hhit).
    rewrite List.Forall_forall in Hfind. apply list_elem_of_In in Hin.
    specialize (Hfind t Hin). unfold hit in Hfind. congruence.
Qed.

Lemma count_loop (l : list string) (n : Z) :
  wrap64 n = n -> fold_left (fun n (_ : string) => wrap64 (n + 1)) l n = wrap64 (n + len l).
Proof.
  revert n. induction l as [|x l IH]; intros n Hn; cbn [fold_left].
  - unfold len. cbn. by rewrite Z.add_0_r.
  - rewrite IH by apply wrap64_idem. rewrite wrap64_add_l. apply (f_equal wrap64).
    unfold len. cbn [length]. lia.
Qed.

Lemma load_spam_count (l : list string) (st : Detector * list document * Z) :
  (fold_left loadSpamStep l st).2 = fold_left (fun n (_ : string) => wrap64 (n + 1)) l st.2.
Proof.
  revert st. induction l as [|x l IH]; intros st; cbn [fold_left]; [reflexivity|].
  rewrite IH. by destruct st as [[d docs] n].
Qed.

Lemma load_ham_count (d : Detector) (l : list string) (st : list document * Z) :
  (fold_left (loadHamStep d) l st).2 = fold_left (fun n (_ : string) => wrap64 (n + 1)) l st.2.
Proof.
  revert st. induction l as [|x l IH]; intros st; cbn [fold_left]; [reflexivity|].
  rewrite IH. by destruct st as [docs n].
Qed.

(** X15: the counts LoadSamples returns are the numbers of tokens read:
    ExcludedTokens the tokens of the exclusion reader, SpamSamples and
    HamSamples the tokens of the spam and of the ham readers (in int
    arithmetic), StopWords 0; every spam token is stored as one sample, also
    one that tokenizes to the empty map, so SpamSamples is the number of
    stored samples. *)
Theorem LoadSamples_counts (d : Detector) (exclReader : Reader)
    (spamReaders hamReaders : list Reader) :
  (LoadSamples d exclReader spamReaders hamReaders).1.1
  = {| ExcludedTokens := len (tokenChan [exclReader]);
       SpamSamples := wrap64 (len (tokenChan spamReaders));
       HamSamples := wrap64 (len (tokenChan hamReaders));
       StopWords := 0 |} /\
  len (tokenizedSpam (LoadSamples d exclReader spamReaders hamReaders).2)
  = len (tokenChan spamReaders) /\
  len (excludedTokens (LoadSamples d exclReader spamReaders hamReaders).2)
  = len (tokenChan [exclReader]).
Proof.
  unfold LoadSamples. rewrite load_excluded_loop.
  set (d1 := withExcludedTokens _ _).
  pose proof (load_spam_count (tokenChan spamReaders) (d1, [], 0)) as Hn1.
  destruct (load_spam_loop (tokenChan spamReaders) d1 [] 0) as (n1 & Hspam).
  rewrite Hspam in Hn1 |- *. cbn [snd] in Hn1.
  rewrite count_loop in Hn1 by reflexivity. rewrite Z.add_0_l in Hn1.
  set (d2 := withTokenizedSpam d1 _).
  set (docs := [] ++ _).
  pose proof (load_ham_count d2 (tokenChan hamReaders) (docs, 0)) as Hn2.
  destruct (load_ham_loop (tokenChan hamReaders) d2 docs 0) as (n2 & Hham).
  rewrite Hham in Hn2 |- *. cbn [snd] in Hn2.
  rewrite count_loop in Hn2 by reflexivity. rewrite Z.add_0_l in Hn2.
  subst n1 n2. cbn [fst snd]. subst d2 d1.
  cbn [withClassifier withTokenizedSpam withExcludedTokens excludedTokens tokenizedSpam app].
  unfold len. rewrite !length_map. auto.
Qed.



End TokenFacts.

(** ** Edges of the checks *)

Section CheckEdges.
Context {rt : GoRuntime} {lh : LibHelpers}.
Import GoInt GoFloat GoStrings.

Lemma f64_zero_below (thr : float64) : gt thr zero = true -> ge zero thr = false.
Proof.
  unfold gt, ge, SFltb, SFleb, zero.
  destruct thr as [[]|[]| |[] m e]; cbn; congruence.
Qed.

Lemma tokenize_uncounted (d : Detector) (inp : string) :
  Forall (fun f => counted d f = false) (Fields inp) -> tokenize d inp = ∅.
Proof.
  unfold tokenize. generalize (∅ : gmap string Z).
  intros m. induction 1 as [|f l Hf Hl IH]; cbn [fold_left]; [reflexivity|].
  rewrite tokenizeStep_counted, Hf. exact IH.
Qed.

(** X17: with a threshold above 0, a message none of whose words is
    counted by tokenize (every word excluded, or shorter than three runes
    after cleaning) is never similar to a sample, and no message is similar
    to samples that are all empty: the cosine is 0.0 for each sample, the
    result is ham and its details give the maximum 0.0 beside the
    threshold. *)
Theorem no_tokens_no_similarity (d : Detector) (msg : string) :
  gt (SimilarityThreshold (config d)) zero = true ->
  Forall (fun f => counted d f = false) (Fields msg)
  \/ Forall (fun sample => sample = ∅) (tokenizedSpam d) ->
  isSpamSimilarityHigh d msg = similarityResult d false zero /\
  Spam (isSpamSimilarityHigh d msg) = false.
Proof.
  intros Hthr Hempty.
  assert (Forall (fun sample => cosineSimilarity (tokenize d msg) sample = zero)
            (tokenizedSpam d)) as Hcos.
  { destruct Hempty as [Hmsg|Hsamples].
    - rewrite (tokenize_uncounted d msg Hmsg). apply List.Forall_forall.
      intros sample _. apply cosineSimilarity_empty_l.
    - eapply List.Forall_impl; [|exact Hsamples].
      intros sample ->. apply cosineSimilarity_empty_r. }
  assert (isSpamSimilarityHigh d msg = similarityResult d false zero) as ->; [|by split].
  unfold isSpamSimilarityHigh. rewrite similarityLoop_no_hit.
  - f_equal. clear Hempty. induction Hcos as [|sample l Hs Hl IH]; [reflexivity|].
    cbn [List.map fold_left]. rewrite Hs. exact IH.
  - eapply List.Forall_impl; [|exact Hcos].
    intros sample ->. by apply f64_zero_below.
Qed.

Lemma runeCountFrom_bounds (s : string) (st : decoding) :
  match st with
  | Start => 0 <= runeCountFrom st s <= strlen s
  | Need _ seen _ _ => 0 <= seen -> 0 <= runeCountFrom st s <= 1 + seen + strlen s
  end.
Proof.
  assert (forall b, (firstByte b).1 = 1 /\ (firstByte b).2 = Start
                    \/ (firstByte b).1 = 0
                       /\ exists n lo hi, (firstByte b).2 = Need n 0 lo hi) as Hfirst.
  { intros b. unfold firstByte.
    repeat (match goal with |- context [if ?c then _ else _] => destruct c end);
      cbn; eauto 10. }
  revert st. induction s as [|c s IH]; intros st.
  { destruct st; cbn; unfold strlen; cbn; lia. }
  assert (strlen (String c s) = 1 + strlen s) as Hlen by (unfold strlen; cbn [String.length]; lia).
  assert (forall b, 0 <= (firstByte b).1 + runeCountFrom (firstByte b).2 s <= 1 + strlen s)
    as Hrestart.
  { intros b. destruct (Hfirst b) as [[-> ->]|[-> (n & lo & hi & ->)]].
    - specialize (IH Start). cbn in IH. lia.
    - specialize (IH (Need n 0 lo hi)). cbn beta iota in IH. lia. }
  destruct st as [|n seen lo hi]; cbn [runeCountFrom]; cbv zeta.
  - specialize (Hrestart (byte c)). destruct (firstByte (byte c)) as [k st']. cbn in Hrestart. lia.
  - intros Hseen. destruct ((lo <=? byte c) && (byte c <=? hi)).
    + destruct n as [|[|m]].
      * specialize (IH Start). cbn in IH. lia.
      * specialize (IH Start). cbn in IH. lia.
      * specialize (IH (Need (S m) (seen + 1) 128 191)). cbn beta iota in IH. lia.
    + specialize (Hrestart (byte c)). destruct (firstByte (byte c)) as [k st'].
      cbn in Hrestart. lia.
Qed.

(** X18: a message has at most as many runes as bytes, so the length gate
    stops every message of fewer than MinMsgLen bytes (for a user who is not
    pre-approved the result "message length" is the last of the list and
    the detector is left as it is); with MinMsgLen <= 0 the gate stops no
    message and the result "message length" is never on the list. *)
Theorem length_gate_bounds (d : Detector) (msg userID : string) (r : CheckReturn) :
  Check d msg userID = Returns r ->
  0 <= runeCount msg <= strlen msg /\
  (strlen msg < MinMsgLen (config d) -> preApproved d userID = false ->
   last (ret_cr r) = Some msgLengthResult /\ last (ret_by r) = Some byMsgLength /\
   ret_detector r = d) /\
  (MinMsgLen (config d) <= 0 -> byMsgLength ∉ ret_by r).
Proof.
  intros H. pose proof (runeCountFrom_bounds msg Start) as Hb. cbn in Hb.
  fold (runeCount msg) in Hb. split; [exact Hb|]. split.
  - intros Hshort Hpre.
    assert (tooShort d msg = true) as Hgate by (unfold tooShort; apply Z.ltb_lt; lia).
    unfold Check in H. rewrite Hpre, Hgate in H. unfold collect in H. cbn [fst snd] in H.
    destruct (isSpamDetected _); injection H as <-; cbn [ret_cr ret_by ret_detector];
      by rewrite !last_snoc.
  - intros Hmin.
    assert (tooShort d msg = false) as Hgate by (unfold tooShort; apply Z.ltb_ge; lia).
    destruct (Check_cases _ _ _ _ H)
      as [[_ ->]|[(_ & Hshort & _)|(_ & _ & acc & Hacc & Hby)]]; [|congruence|].
    + rewrite list_elem_of_singleton. discriminate.
    + assert (byMsgLength ∉ acc.2) as Hno.
      { intros Hp. destruct (corpus_producers _ _ _ _ _ Hacc Hp) as [?|[?|[?|[?|?]]]];
          discriminate. }
      destruct Hby as [-> | ->]; [exact Hno|].
      rewrite elem_of_app, list_elem_of_singleton. intros [?|?]; [auto|discriminate].
Qed.

Lemma cosineLoop_permutation (b : gmap string Z) (a : gmap string Z)
    (entries : list (string * Z)) :
  entries ≡ₚ map_to_list a -> cosineLoop b entries = (dotProductOf a b, sumOfSquares a).
Proof.
  intros Hperm. unfold cosineLoop, dotProductOf, sumOfSquares.
  rewrite <- (map_fold_pair
                (fun key val dotProduct => wrap64 (dotProduct + wrap64 (val * at_ b key)))
                (fun _ val norm => wrap64 (norm + wrap64 (val * val)))).
  rewrite map_fold_foldr, <- fold_left_rev_right.
  set (F := fun (y : string * Z) (x : Z * Z) =>
              (wrap64 (x.1 + wrap64 (y.2 * at_ b y.1)), wrap64 (x.2 + wrap64 (y.2 * y.2)))).
  transitivity (foldr F (0, 0) (rev entries)).
  { apply foldr_ext; [|reflexivity|reflexivity]. intros [k v] [x y]. reflexivity. }
  transitivity (foldr F (0, 0) (map_to_list a)).
  - apply (foldr_permutation (@Logic.eq (Z * Z))).
    + intros kv x y ->. reflexivity.
    + intros _ [k1 v1] _ [k2 v2] [x y] _ _ _. unfold F. cbn [fst snd].
      f_equal; rewrite !wrap64_add3; apply (f_equal wrap64); lia.
    + rewrite <- Hperm. symmetry. apply Permutation_rev.
  - apply foldr_ext; [|reflexivity|reflexivity]. intros [k v] [x y]. reflexivity.
Qed.

(** X19: the order in which the entries of the two maps are visited does
    not matter to cosineSimilarity: with the entries of a and of b taken in
    any order, the loops give the same dot product and norms (the sums are
    taken in int arithmetic, where addition commutes also when it wraps),
    and so the same float64 result. *)
Theorem cosineSimilarity_any_order (a b : gmap string Z)
    (entriesA entriesB : list (string * Z)) :
  entriesA ≡ₚ map_to_list a ->
  entriesB ≡ₚ map_to_list b ->
  cosineLoop b entriesA = (dotProductOf a b, sumOfSquares a) /\
  cosineSimilarityIn entriesA entriesB b = cosineSimilarity a b.
Proof.
  intros Ha Hb. pose proof (cosineLoop_permutation b a entriesA Ha) as Hloop.
  split; [exact Hloop|].
  unfold cosineSimilarityIn. rewrite Hloop, cosineSimilarity_sums.
  rewrite (Permutation_length Ha), (Permutation_length Hb), !length_map_to_list.
  pose proof (cosineLoop_permutation ∅ b entriesB Hb) as HloopB.
  unfold cosineLoop in HloopB.
  assert (forall (l : list (string * Z)) (x y : Z),
             (fold_left
                (fun '(dotProduct, normA) '(key, val) =>
                   (wrap64 (dotProduct + wrap64 (val * at_ ∅ key)),
                    wrap64 (normA + wrap64 (val * val)))) l (x, y)).2
             = fold_left (fun normB '(_, val) => wrap64 (normB + wrap64 (val * val))) l y)
    as Hsnd.
  { induction l as [|[k v] l IH]; intros x y; cbn [fold_left]; [reflexivity|]. apply IH. }
  rewrite <- (Hsnd entriesB 0 0), HloopB. reflexivity.
Qed.

End CheckEdges.

(** ** A window below 0 *)

Section NegativeWindow.
Context {rt : GoRuntime} {lh : LibHelpers}.
Import GoInt GoStrings.

Lemma everyone_preApproved (d : Detector) (u : string) :
  FirstMessageOnly (config d) = true ->
  FirstMessagesCount (config d) < 0 ->
  (forall v n, approvedUsers d !! v = Some n -> FirstMessagesCount (config d) < n) ->
  preApproved d u = true.
Proof.
  intros Hfmo Hfmc Habove. unfold preApproved, at_. rewrite Hfmo. cbn [andb].
  apply Z.ltb_lt. destruct (approvedUsers d !! u) as [n|] eqn:Hn; cbn; [|lia].
  by apply (Habove u).
Qed.

Lemma above_keeps (c0 : Config) (d d1 : Detector) :
  config d1 = config d ->
  approvedUsers d1 = approvedUsers d ->
  config d = c0 ->
  (forall u n, approvedUsers d !! u = Some n -> FirstMessagesCount c0 < n) ->
  config d1 = c0 /\
  (forall u n, approvedUsers d1 !! u = Some n -> FirstMessagesCount c0 < n).
Proof. intros -> -> Hc Hw. auto. Qed.

Lemma afterCall_above (c0 : Config) (d d' : Detector) (c : call) :
  FirstMessageOnly c0 = true ->
  MinInt64 <= FirstMessagesCount c0 < 0 ->
  config d = c0 ->
  (forall u n, approvedUsers d !! u = Some n -> FirstMessagesCount c0 < n) ->
  afterCall d c = Returns d' ->
  config d' = c0 /\
  (forall u n, approvedUsers d' !! u = Some n -> FirstMessagesCount c0 < n).
Proof.
  intros Hfmo Hrange Hconfig Habove.
  destruct c; cbn [afterCall].
  - destruct (Check d msg userID) as [r|] eqn:HC; [|discriminate]. intros [= <-].
    destruct (Check_detector _ _ _ _ HC) as [[-> _]|(_ & Hpre & _)]; [auto|].
    rewrite everyone_preApproved in Hpre;
      [discriminate|rewrite Hconfig; first [assumption|lia]..].
  - intros [= <-]. split; [exact Hconfig|]. cbn. intros u n. by rewrite lookup_empty.
  - intros [= <-]. rewrite AddApprovedUsers_config. split; [exact Hconfig|].
    intros u n. rewrite AddApprovedUsers_lookup, Hconfig.
    destruct (bool_decide (u ∈ ids)); [|apply Habove].
    intros [= <-]. rewrite wrap64_id by (unfold inInt64, MinInt64, MaxInt64 in *; lia). lia.
  - intros [= <-]. rewrite RemoveApprovedUsers_config. split; [exact Hconfig|].
    intros u n. rewrite RemoveApprovedUsers_lookup.
    destruct (bool_decide (u ∈ ids)); [discriminate|apply Habove].
  - intros [= <-]. unfold LoadApprovedUsers.
    destruct (load_users_loop (wrap64 (FirstMessagesCount (config d) + 1)) (scanned r) ∅ 0 eq_refl)
      as (m' & -> & Hm').
    cbn [snd config approvedUsers withApprovedUsers]. split; [exact Hconfig|].
    intros u n. rewrite Hm', Hconfig, lookup_empty.
    destruct (bool_decide _); [|discriminate].
    intros [= <-]. rewrite wrap64_id by (unfold inInt64, MinInt64, MaxInt64 in *; lia). lia.
  - intros [= <-]. apply (above_keeps c0 d); auto; apply LoadSamples_keeps.
  - intros [= <-]. apply (above_keeps c0 d); auto; apply LoadStopWords_keeps.
  - intros [= <-]. apply (above_keeps c0 d); auto; apply updateSample_config.
  - intros [= <-]. apply (above_keeps c0 d); auto; apply updateSample_config.
  - intros [= <-]. auto.
  - intros [= <-]. auto.
  - intros [= <-]. auto.
Qed.

(** X20: a FirstMessagesCount below 0 with FirstMessageOnly set switches the
    detector off: in every state reached from NewDetector, every call of
    Check, for every message and every user, known or not, answers ham with
    the single result "pre-approved" and runs no check - a user without a
    counter reads as 0, which is already above the window. *)
Theorem negative_window_checks_nothing (p : Config) (calls : list call) (d : Detector)
    (msg userID : string) :
  FirstMessageOnly p = true ->
  MinInt64 <= FirstMessagesCount p < 0 ->
  afterCalls (NewDetector p) calls = Returns d ->
  Check d msg userID
  = Returns {| ret_spam := false; ret_cr := [preApprovedResult]; ret_by := [byPreApproved];
               ret_detector := d |}.
Proof.
  intros Hfmo Hrange Hrun.
  assert (NewDetector p = NewDetector p /\ config (NewDetector p) = p) as [_ Hp].
  { split; [reflexivity|]. cbn.
    replace (0 <? FirstMessagesCount p) with false by (symmetry; apply Z.ltb_ge; lia).
    reflexivity. }
  assert (forall d0,
             config d0 = p ->
             (forall u n, approvedUsers d0 !! u = Some n -> FirstMessagesCount p < n) ->
             afterCalls d0 calls = Returns d ->
             config d = p /\
             (forall u n, approvedUsers d !! u = Some n -> FirstMessagesCount p < n)) as Hloop.
  { clear Hrun. induction calls as [|c calls IH]; intros d0 Hc Hw; cbn [afterCalls].
    - intros [= <-]. auto.
    - destruct (afterCall d0 c) as [d1|] eqn:Hstep; [|discriminate].
      destruct (afterCall_above _ _ _ _ Hfmo Hrange Hc Hw Hstep) as [Hc1 Hw1].
      by apply IH. }
  destruct (Hloop (NewDetector p) Hp) as [Hc Hw]; [|exact Hrun|].
  { intros u n. cbn. by rewrite lookup_empty. }
  unfold Check. rewrite everyone_preApproved; [reflexivity|rewrite Hc..].
  - exact Hfmo.
  - lia.
  - exact Hw.
Qed.

End NegativeWindow.

(** ** The application *)

Section Application.
Context {rt : GoRuntime} {lh : LibHelpers} {app : AppRuntime}.
Import GoInt GoStrings.



Lemma lastStored_snoc_ok (stores : list (list string * option error)) (ids : list string) :
  lastStored (stores ++ [(ids, None)]) = ids.
Proof. unfold lastStored. rewrite List.filter_app. cbn. by rewrite last_snoc. Qed.

Lemma lastStored_snoc_err (stores : list (list string * option error)) (ids : list string)
    (err : error) :
  lastStored (stores ++ [(ids, Some err)]) = lastStored stores.
Proof. unfold lastStored. rewrite List.filter_app. cbn. by rewrite app_nil_r. Qed.

Lemma autoSaveTick_eq (st : Z * list (list string * option error))
    (tick : Detector * option error) :
  autoSaveTick st tick
  = if len (ApprovedUsers tick.1) =? st.1 then st
    else
      match tick.2 with
      | Some err => (st.1, st.2 ++ [(ApprovedUsers tick.1, Some err)])
      | None => (len (ApprovedUsers tick.1), st.2 ++ [(ApprovedUsers tick.1, None)])
      end.
Proof. destruct st as [lastCount stores], tick as [detector answer]. reflexivity. Qed.

Lemma autoSave_loop (ticks : list (Detector * option error))
    (st : Z * list (list string * option error)) :
  st.1 = len (lastStored st.2) ->
  (fold_left autoSaveTick ticks st).1 = len (lastStored (fold_left autoSaveTick ticks st).2) /\
  exists more,
    (fold_left autoSaveTick ticks st).2 = st.2 ++ more /\
    Forall (fun c => exists tick, tick ∈ ticks /\ c = (ApprovedUsers tick.1, tick.2)) more.
Proof.
  revert st. induction ticks as [|[detector answer] ticks IH]; intros [lastCount stores] Hst;
    cbn [fold_left].
  { split; [exact Hst|]. exists []. by rewrite app_nil_r. }
  cbn [fst snd] in Hst |- *.
  assert (forall tick' c,
             (exists tick, tick ∈ ticks /\ c = (ApprovedUsers tick.1, tick.2)) ->
             exists tick, tick ∈ tick' :: ticks /\ c = (ApprovedUsers tick.1, tick.2)) as Hweak.
  { intros tick' c (tick & Hin & ->). exists tick. split; [by right|reflexivity]. }
  rewrite autoSaveTick_eq. cbn [fst snd].
  destruct (len (ApprovedUsers detector) =? lastCount).
  - destruct (IH (lastCount, stores) Hst) as (Hinv & more & Hmore & Hall).
    split; [exact Hinv|]. exists more. split; [exact Hmore|].
    eapply List.Forall_impl; [apply Hweak|exact Hall].
  - destruct answer as [err|].
    + destruct (IH (lastCount, stores ++ [(ApprovedUsers detector, Some err)])) as
        (Hinv & more & Hmore & Hall).
      { cbn [fst snd]. by rewrite lastStored_snoc_err. }
      cbn [fst snd] in Hmore.
      split; [exact Hinv|]. exists ((ApprovedUsers detector, Some err) :: more).
      split; [rewrite Hmore; by rewrite <- app_assoc|].
      constructor; [exists (detector, Some err); split; [by left|reflexivity]|].
      eapply List.Forall_impl; [apply Hweak|exact Hall].
    + destruct (IH (len (ApprovedUsers detector),
                    stores ++ [(ApprovedUsers detector, None)])) as
        (Hinv & more & Hmore & Hall).
      { cbn [fst snd]. by rewrite lastStored_snoc_ok. }
      cbn [fst snd] in Hmore.
      split; [exact Hinv|]. exists ((ApprovedUsers detector, None) :: more).
      split; [rewrite Hmore; by rewrite <- app_assoc|].
      constructor; [exists (detector, None); split; [by left|reflexivity]|].
      eapply List.Forall_impl; [apply Hweak|exact Hall].
Qed.

(** X22: autoSaveApprovedUsers compares the number of approved users with
    the number it stored last (0 at the start) and nothing else: lastCount
    is always the length of the list of the last call of Store that
    succeeded; every call of Store passes the list ApprovedUsers returned at
    that tick; a tick with the same number of users calls Store not at all,
    whoever the users are - so a change that keeps the number (one user
    removed, another added) is not saved, and an empty list is not saved at
    the start; a tick with another number calls Store once, and lastCount
    follows only if Store succeeds, so a failed save is tried again at the
    next tick. *)
Theorem autoSave_compares_counts (ticks : list (Detector * option error))
    (detector : Detector) (answer : option error) :
  (autoSaveApprovedUsers ticks).1 = len (lastStored (autoSaveApprovedUsers ticks).2) /\
  Forall (fun c => exists tick, tick ∈ ticks /\ c = (ApprovedUsers tick.1, tick.2))
    (autoSaveApprovedUsers ticks).2 /\
  autoSaveApprovedUsers (ticks ++ [(detector, answer)])
  = (if len (ApprovedUsers detector) =? len (lastStored (autoSaveApprovedUsers ticks).2)
     then autoSaveApprovedUsers ticks
     else
       match answer with
       | Some err =>
           ((autoSaveApprovedUsers ticks).1,
            (autoSaveApprovedUsers ticks).2 ++ [(ApprovedUsers detector, Some err)])
       | None =>
           (len (ApprovedUsers detector),
            (autoSaveApprovedUsers ticks).2 ++ [(ApprovedUsers detector, None)])
       end).
Proof.
  unfold autoSaveApprovedUsers.
  destruct (autoSave_loop ticks (0, []) eq_refl) as (Hinv & more & Hmore & Hall).
  split; [exact Hinv|]. split; [by rewrite Hmore|].
  rewrite fold_left_app. cbn [fold_left]. rewrite <- Hinv.
  destruct (fold_left autoSaveTick ticks (0, [])) as [lastCount stores].
  rewrite autoSaveTick_eq. cbn [fst snd]. reflexivity.
Qed.

End Application.

(** ** The mock of events.SpamWeb *)

Section MockFacts.
Import Mocks.

(** X23: a SpamWebMock with its function set records every call of
    UnbanURL, in the order of the calls and with both arguments, and returns
    what the function returns; ResetUnbanURLCalls and ResetCalls both empty
    the record and keep the function; with the function unset a call of
    UnbanURL panics. *)
Theorem mock_records_every_call (mock : SpamWebMock) (f : Z -> string -> string)
    (args : list (Z * string)) :
  UnbanURLFunc mock = Some f ->
  (exists mock',
      UnbanURLs mock args = Returns (List.map (fun a => f a.1 a.2) args, mock') /\
      UnbanURLCalls mock' = UnbanURLCalls mock ++ args /\
      UnbanURLFunc mock' = Some f /\
      UnbanURLCalls (ResetUnbanURLCalls mock') = [] /\
      ResetCalls mock' = ResetUnbanURLCalls mock' /\
      UnbanURLFunc (ResetCalls mock') = Some f) /\
  (forall userID msg,
      exists why,
        UnbanURL {| UnbanURLFunc := None; calls_UnbanURL := calls_UnbanURL mock |} userID msg
        = Panics why).
Proof.
  intros Hf. split; [|intros; eexists; reflexivity].
  revert mock Hf. induction args as [|[userID msg] args IH]; intros mock Hf; cbn [UnbanURLs].
  { exists mock. unfold UnbanURLCalls. rewrite app_nil_r. cbn. auto 10. }
  unfold UnbanURL. rewrite Hf.
  destruct (IH {| UnbanURLFunc := Some f;
                  calls_UnbanURL := calls_UnbanURL mock ++ [(userID, msg)] |} eq_refl)
    as (mock' & -> & Hcalls & Hfun & Hreset & Hsame & Hkeep).
  exists mock'. cbn [List.map fst snd]. split; [reflexivity|].
  split; [|auto]. rewrite Hcalls. unfold UnbanURLCalls. cbn. by rewrite <- app_assoc.
Qed.

End MockFacts.

(** * The properties at concrete inputs, on the reference runtime *)

Section Examples.
Import GoInt GoStrings Fixtures.
#[local] Existing Instance Ref.runtime.
#[local] Existing Instance Ref.helpers.

(** C1, the claim as stated fails: a short message is ham through the
    length gate, and the counter of its user stays at 0. *)
Lemma C1_counterexample :
  ~ (forall (d : Detector) (msg u : string) (r : CheckReturn),
       firstMessages d = true ->
       Check d msg u = Returns r ->
       ret_spam r = false ->
       at_ (approvedUsers (ret_detector r)) u = at_ (approvedUsers d) u + 1).
Proof.
  intros H.
  specialize (H shortGate "hello" "7" shortGateHam eq_refl eq_refl eq_refl).
  vm_compute in H. discriminate H.
Qed.

Lemma C1_witness :
  at_ (approvedUsers (ret_detector plainHam)) "7" = at_ (approvedUsers plain) "7" + 1.
Proof.
  destruct (C1_counter_discipline plain "hello there" "7" plainHam
              eq_refl eq_refl) as (_ & H & _).
  destruct (H eq_refl eq_refl eq_refl) as (_ & Hplus & _).
  apply Hplus. vm_compute. split; [discriminate | reflexivity].
Defined.

(** C2, the claim as stated fails: after Reset an attached LLM is still
    consulted, and its result is on the list. *)
Lemma C2_counterexample :
  ~ (forall (d : Detector) (msg u : string),
       0 <= FirstMessagesCount (config d) ->
       (CasAPI (config d) <> EmptyString -> HTTPClient (config d) <> None) ->
       exists r,
         Check (Reset d) msg u = Returns r /\
         forall p, p ∈ ret_by r ->
           p = byStopWord \/ p = byEmoji \/ p = byMsgLength \/ p = byCas).
Proof.
  intros H.
  destruct (H withLLM "hello" "7") as (r & Hr & Hby).
  - vm_compute. discriminate.
  - intros Hcas. exfalso. apply Hcas. reflexivity.
  - vm_compute in Hr. injection Hr as <-.
    destruct (Hby byOpenAI) as [?|[?|[?|?]]]; try discriminate.
    constructor.
Qed.

Lemma C2_witness :
  exists r,
    Check (Reset (casWith (stubClient spammerBody))) "hello" "7" = Returns r /\
    Forall2 (producedBy (Reset (casWith (stubClient spammerBody))) "hello" "7")
      (ret_by r) (ret_cr r) /\
    (forall p, p ∈ ret_by r ->
       p = byEmoji \/ p = byMsgLength \/
       (p = byCas /\ CasAPI (config (casWith (stubClient spammerBody))) <> EmptyString) \/
       (p = byOpenAI /\ openaiChecker (casWith (stubClient spammerBody)) <> None)).
Proof.
  apply C2_check_after_reset.
  - vm_compute. discriminate.
  - intros _. discriminate.
Defined.

(** C3, the claim as stated fails: with FirstMessagesCount at the largest
    int, the count AddApprovedUsers stores wraps around to the smallest
    int, and the next Check runs the pipeline. *)
Lemma C3_counterexample :
  ~ (forall (d : Detector) (msg u : string),
       FirstMessageOnly (config d) = true ->
       0 <= FirstMessagesCount (config d) <= MaxInt64 ->
       exists r,
         Check (AddApprovedUsers d [u]) msg u = Returns r /\
         exists x, ret_cr r = [x] /\ Name x = "pre-approved").
Proof.
  intros H.
  destruct (H maxWindow "hello" "7") as (r & Hr & x & Hcr & _).
  - reflexivity.
  - vm_compute. split; discriminate.
  - vm_compute in Hr. injection Hr as <-. discriminate Hcr.
Qed.

Lemma C3_witness :
  Check (AddApprovedUsers plain ["7"; "8"]) "buy now" "8" =
    Returns {| ret_spam := false;
               ret_cr := [{| Name := "pre-approved"; Spam := false;
                             Details := "user already approved" |}];
               ret_by := [byPreApproved];
               ret_detector := AddApprovedUsers plain ["7"; "8"] |}.
Proof.
  apply C3_pre_approved_after_add.
  - reflexivity.
  - vm_compute. split; [discriminate | reflexivity].
  - repeat constructor.
Defined.

(** C4, the claim as stated fails: for a pre-approved user a short message
    gets the result "pre-approved" alone, without "message length". *)
Lemma C4_counterexample :
  ~ (forall (d : Detector) (msg u : string),
       runeCount msg < MinMsgLen (config d) ->
       exists r,
         Check d msg u = Returns r /\
         {| Name := "message length"; Spam := false; Details := "too short" |} ∈ ret_cr r).
Proof.
  intros H.
  destruct (H approvedShortGate "hello" "7") as (r & Hr & Hin).
  - reflexivity.
  - vm_compute in Hr. injection Hr as <-. cbn in Hin.
    apply list_elem_of_singleton in Hin. discriminate Hin.
Qed.

Lemma C4_witness :
  exists r,
    Check shortGate "hello" "7" = Returns r /\
    ret_cr r = [{| Name := "message length"; Spam := false; Details := "too short" |}] /\
    ret_spam r = false.
Proof.
  destruct (C4_length_gate shortGate "hello" "7") as (r & Hr & Hcr & _ & _ & Hspam & _).
  - reflexivity.
  - reflexivity.
  - exists r. split; [exact Hr|]. split; [exact Hcr|].
    destruct (ret_spam r); [|reflexivity].
    destruct Hspam as [Hspam _]. destruct (Hspam eq_refl) as (x & Hx & _).
    cbn in Hx. by apply elem_of_nil in Hx.
Defined.

Lemma C5_witness :
  exists r,
    Check withLLM "hello" "7" = Returns r /\
    ret_spam r = false /\ ret_by r = [byOpenAI].
Proof.
  destruct (C5_llm_gating withLLM "hello" "7" ([], []) eq_refl eq_refl eq_refl)
    as (r & Hr & Hiff & Hin & _).
  assert (byOpenAI ∈ ret_by r) as Hby.
  { apply Hiff. split; [discriminate|]. split; [left; reflexivity|]. left. split; reflexivity. }
  destruct (Hin Hby) as (checker & Hchecker & Hspam & _ & Hret).
  injection Hchecker as <-.
  exists r. split; [exact Hr|]. split; [exact Hspam | exact Hret].
Defined.

(** C6, the claim as stated fails: with CasAPI set and no HTTP client in
    the configuration, the call of Do on the nil client panics. *)
Lemma C6_counterexample :
  ~ (forall (d : Detector) (msgID : string), exists r, isCasSpam d msgID = Returns r).
Proof.
  intros H. destruct (H casNoClient "123") as [r Hr].
  vm_compute in Hr. discriminate Hr.
Qed.

Lemma C6_witness :
  isCasSpam (casWith (stubClient spammerBody)) "123"
  = Returns {| Name := "cas"; Spam := true; Details := "spammer" |}.
Proof.
  destruct (C6_cas_check_returns (casWith (stubClient spammerBody)) "123"
              (stubClient spammerBody) eq_refl) as (r & Hr & Hname & _ & Hcases).
  destruct (Hcases 123 _ eq_refl eq_refl) as (_ & _ & _ & Hok).
  destruct (Hok {| Method := "GET"; URL := "https://api.cas.chat/check?user_id=123" |}
              {| Body := spammerBody |} true "Spammer." eq_refl eq_refl eq_refl) as [Hs Hd].
  destruct r as [name spam details]. cbn in Hname, Hs, Hd. subst. exact Hr.
Defined.

Lemma C7_witness :
  exists e,
    UpdateSpam failingUpdate "buy cheap pills" = (Some e, failingUpdate) /\
    Unwrap e = Some (errorString "disk full").
Proof.
  destruct (C7_update_samples failingUpdate "buy cheap pills") as (_ & _ & Hfail & _).
  apply (Hfail badUpdater (errorString "disk full")); reflexivity.
Defined.

Lemma C8_witness :
  isSpamSimilarityHigh withSamples "WIN a free prize today!"
  = {| Name := "similarity"; Spam := true; Details := "0.87/0.50" |}.
Proof.
  destruct (C8_similarity_check withSamples "WIN a free prize today!") as (Hhit & _).
  rewrite (Hhit [] sampleWin [samplePills] eq_refl (List.Forall_nil _) eq_refl).
  reflexivity.
Defined.

(** C9, the claim as stated fails: for three tokens counted once each,
    cos(a,a) is 3 / (sqrt 3 * sqrt 3) in float64, which is
    1.0000000000000002 and not 1. *)
Lemma C9_counterexample :
  ~ (forall a : gmap string Z,
       a <> ∅ ->
       (forall key val, a !! key = Some val -> 0 < val) ->
       GoFloat.eq (cosineSimilarity a a) (GoFloat.ofInt 1) = true).
Proof.
  intros H. specialize (H sampleWin).
  assert (sampleWin <> ∅) as Hne.
  { intros Heq. assert (sampleWin !! "win" = Some 1) as Hwin by reflexivity.
    rewrite Heq in Hwin. discriminate Hwin. }
  assert (forall key val, sampleWin !! key = Some val -> 0 < val) as Hpos.
  { intros key val. unfold sampleWin.
    rewrite !lookup_insert_Some, lookup_singleton_Some.
    intros [[_ <-]|[_ [[_ <-]|[_ [_ <-]]]]]; reflexivity. }
  specialize (H Hne Hpos). vm_compute in H. discriminate H.
Qed.

Lemma C9_witness : cosineSimilarity oneToken oneToken = GoFloat.ofInt 1.
Proof.
  destruct (C9_cosine_laws oneToken oneToken) as (_ & _ & _ & _ & Hself & _).
  rewrite Hself.
  - reflexivity.
  - intros Heq. assert (oneToken !! "win" = Some 1) as Hwin by reflexivity.
    rewrite Heq in Hwin. discriminate Hwin.
  - vm_compute. discriminate.
Defined.

(** *** The model on the scenarios of the specification *)

(** The value of cos(a,a) for three tokens counted once: 1 + 2^-52. *)
Example cosine_three_tokens :
  cosineSimilarity sampleWin sampleWin = S754_finite false 4503599627370497 (-52).
Proof. reflexivity. Qed.

(** For two tokens counted once it is 1 - 2^-52. *)
Example cosine_two_tokens :
  cosineSimilarity {["win" := 1; "free" := 1]} {["win" := 1; "free" := 1]}
  = S754_finite false 9007199254740990 (-53).
Proof. reflexivity. Qed.

(** Stop-word hit: spam, the first result names the stop phrase. *)
Example scenario_stop_word :
  exists r,
    Check withStopPhrase "please Buy Now!" "7" = Returns r /\
    ret_spam r = true /\
    ret_cr r = [{| Name := "stopword"; Spam := true; Details := "buy now" |}].
Proof. eexists. split; [reflexivity|]. split; reflexivity. Qed.

(** Short message: ham, and the last result is "message length". *)
Example scenario_short_message : Check shortGate "hello" "7" = Returns shortGateHam.
Proof. reflexivity. Qed.

(** No sample near the message: ham, with the maximum 0.00. *)
Example scenario_similarity_miss :
  isSpamSimilarityHigh withSamples "see you tomorrow morning"
  = {| Name := "similarity"; Spam := false; Details := "0.00/0.50" |}.
Proof. reflexivity. Qed.

(** Reputation miss and ham verdict: the counter of the user goes up. *)
Example scenario_cas_miss :
  exists r,
    Check (casWith (stubClient unknownBody)) "a long and friendly message" "123" = Returns r /\
    ret_spam r = false /\
    ret_cr r = [{| Name := "cas"; Spam := false; Details := "not found" |}] /\
    at_ (approvedUsers (ret_detector r)) "123" = 1.
Proof. eexists. split; [reflexivity|]. repeat split. Qed.

(** A request that cannot be sent is ham with the error in the details. *)
Example scenario_cas_down :
  isCasSpam (casWith downClient) "123"
  = Returns {| Name := "cas"; Spam := false;
               Details := "ffailed to send request https://api.cas.chat/check?user_id=123: connection refused" |}.
Proof. reflexivity. Qed.

(** CAS set and no client: Check panics in the reputation check. *)
Example scenario_cas_no_client :
  Check casNoClient "a long and friendly message" "123"
  = Panics "invalid memory address or nil pointer dereference".
Proof. reflexivity. Qed.

(** The same right after Reset. *)
Example scenario_reset_cas_no_client :
  Check (Reset casNoClient) "a long and friendly message" "123"
  = Panics "invalid memory address or nil pointer dereference".
Proof. reflexivity. Qed.

(** After Reset no user is approved: a user added by hand is checked again. *)
Example scenario_reset_forgets_users :
  exists r,
    Check (Reset (AddApprovedUsers plain ["7"])) "hello there" "7" = Returns r /\
    ret_by r = [] /\ at_ (approvedUsers (ret_detector r)) "7" = 1.
Proof. eexists. split; [reflexivity|]. split; reflexivity. Qed.

(** LLM veto flips spam to ham, and the counter of the user goes up. *)
Example scenario_llm_veto :
  exists r,
    Check vetoed "buy now, friends" "7" = Returns r /\
    ret_spam r = false /\
    ret_by r = [byStopWord; byOpenAI] /\
    at_ (approvedUsers (ret_detector r)) "7" = 1.
Proof. eexists. split; [reflexivity|]. repeat split. Qed.

(** A reader that fails: what was read is loaded and the error is nil. *)
Example scenario_broken_reader :
  (LoadSamples plain noLines [brokenFile] []).1
  = ({| ExcludedTokens := 0; SpamSamples := 1; HamSamples := 0; StopWords := 0 |}, None).
Proof. reflexivity. Qed.

(** A successful update teaches the classifier one document. *)
Example scenario_update_learns :
  NaiveBayes.nAllDocument (classifier (UpdateSpam storingUpdate "buy cheap pills").2) = 1.
Proof. reflexivity. Qed.

End Examples.

(** * The further properties at concrete inputs, on the reference runtime *)

Section MoreExamples.
Import GoInt GoStrings Fixtures MoreFixtures.
#[local] Existing Instance Ref.runtime.
#[local] Existing Instance Ref.helpers.

Lemma counters_stay_within_window_witness :
  exists d,
    afterCalls (NewDetector (cfg 0 (-1) "" true 2 None false))
      [callAddApprovedUsers ["7"]; callCheck "hello there" "8"; callCheck "hello again" "8";
       callRemoveApprovedUsers ["9"]] = Returns d /\
    forall u n, approvedUsers d !! u = Some n -> 1 <= n <= 2 + 1.
Proof.
  destruct (afterCalls (NewDetector (cfg 0 (-1) "" true 2 None false))
              [callAddApprovedUsers ["7"]; callCheck "hello there" "8";
               callCheck "hello again" "8"; callRemoveApprovedUsers ["9"]])
    as [d|] eqn:Hrun; [|vm_compute in Hrun; discriminate].
  exists d. split; [reflexivity|].
  assert (0 <= FirstMessagesCount (cfg 0 (-1) "" true 2 None false) < MaxInt64) as Hrange.
  { vm_compute. split; [discriminate|reflexivity]. }
  destruct (counters_stay_within_window _ _ _ Hrange Hrun) as (_ & _ & _ & H).
  exact H.
Defined.

Lemma Check_writes_one_counter_witness :
  withApprovedUsers (ret_detector plainHam) (approvedUsers plain) = plain /\
  approvedUsers (ret_detector plainHam) !! "8" = approvedUsers plain !! "8".
Proof.
  destruct (Check_writes_one_counter plain "hello there" "7" plainHam eq_refl)
    as (Hframe & H & _).
  split; [exact Hframe|]. apply H. discriminate.
Defined.


Lemma approval_counts_the_hams_witness :
  exists rs d',
    checkEach windowTwo ["first message"; "second message"; "third message"] "7"
    = Returns (rs, d') /\
    at_ (approvedUsers d') "7" = 0 + len (List.filter hamAtTheEnd rs) /\
    preApproved d' "7" = true.
Proof.
  destruct (checkEach windowTwo ["first message"; "second message"; "third message"] "7")
    as [[rs d']|] eqn:Hrun; [|vm_compute in Hrun; discriminate].
  exists rs, d'. split; [reflexivity|].
  assert (FirstMessagesCount (config windowTwo) < MaxInt64) as Hfmc by reflexivity.
  assert (MinInt64 <= at_ (approvedUsers windowTwo) "7") as Hmin by (vm_compute; discriminate).
  destruct (approval_counts_the_hams windowTwo _ _ _ _ eq_refl Hfmc Hmin Hrun)
    as (_ & _ & Hn & Hpre).
  split; [exact Hn|]. rewrite Hpre.
  vm_compute in Hrun. injection Hrun as <- _. reflexivity.
Defined.

Lemma RemoveApprovedUsers_forgets_witness :
  preApproved (RemoveApprovedUsers approvedShortGate ["7"]) "7" = false.
Proof.
  destruct (RemoveApprovedUsers_forgets approvedShortGate ["7"] "7") as (_ & H & _).
  - vm_compute. discriminate.
  - by left.
  - exact H.
Defined.


Lemma verdict_is_some_spam_result_witness :
  ret_spam plainHam = false /\ byOpenAI ∉ ret_by plainHam.
Proof.
  destruct (verdict_is_some_spam_result plain "hello there" "7" plainHam eq_refl)
    as (_ & Hno & H & _).
  split; [by apply H|by apply Hno].
Defined.

Lemma results_follow_the_pipeline_witness :
  exists r,
    Check withStopPhrase "Buy now, pay later" "7" = Returns r /\
    sublist (ret_by r) pipelineOrder.
Proof.
  destruct (Check withStopPhrase "Buy now, pay later" "7") as [r|] eqn:Hrun;
    [|vm_compute in Hrun; discriminate].
  exists r. split; [reflexivity|].
  by destruct (results_follow_the_pipeline _ _ _ _ Hrun) as [H _].
Defined.

Lemma approvals_ignored_without_window_witness :
  Check (AddApprovedUsers everyMessage ["7"]) "hello" "7"
  = match Check everyMessage "hello" "7" with
    | Returns r =>
        Returns {| ret_spam := ret_spam r; ret_cr := ret_cr r; ret_by := ret_by r;
                   ret_detector := AddApprovedUsers everyMessage ["7"] |}
    | Panics why => Panics why
    end.
Proof.
  destruct (approvals_ignored_without_window everyMessage ["7"] "hello" "7") as [_ H].
  - reflexivity.
  - vm_compute. discriminate.
  - exact H.
Defined.

Lemma tokenChan_tokens_are_trimmed_witness :
  exists reader line a b,
    reader ∈ [spamFile] /\ line ∈ scanned reader /\
    firstByteOf "win free prize" = Some a /\ lastByteOf "win free prize" = Some b /\
    inCutset a blanks = false /\ inCutset b blanks = false /\
    (if Contains line "," && HasPrefix line (String "034" EmptyString)
     then Contains "win free prize" "," = false /\ a <> "034"%char /\ b <> "034"%char
     else "win free prize" = Trim line blanks /\ lineTokens line = ["win free prize"]).
Proof.
  apply (tokenChan_tokens_are_trimmed [spamFile] "win free prize").
  vm_compute. by left.
Defined.

Lemma no_tokens_no_similarity_witness :
  Spam (isSpamSimilarityHigh withSamples "hi") = false.
Proof.
  destruct (no_tokens_no_similarity withSamples "hi") as [_ H].
  - reflexivity.
  - left. vm_compute. by repeat constructor.
  - exact H.
Defined.

Lemma length_gate_bounds_witness : 0 <= runeCount "hello" <= strlen "hello".
Proof.
  by destruct (length_gate_bounds shortGate "hello" "7" shortGateHam eq_refl) as [H _].
Defined.

Lemma cosineSimilarity_any_order_witness :
  cosineSimilarityIn (map_to_list sampleWin) (map_to_list samplePills) samplePills
  = cosineSimilarity sampleWin samplePills.
Proof.
  by destruct (cosineSimilarity_any_order sampleWin samplePills
                 (map_to_list sampleWin) (map_to_list samplePills)) as [_ H].
Defined.

Lemma negative_window_checks_nothing_witness :
  exists d,
    afterCalls (NewDetector negativeWindow) [callRemoveApprovedUsers ["8"]] = Returns d /\
    Check d "Buy now, pay later" "8"
    = Returns {| ret_spam := false; ret_cr := [preApprovedResult]; ret_by := [byPreApproved];
                 ret_detector := d |}.
Proof.
  eexists. split; [reflexivity|].
  apply (negative_window_checks_nothing negativeWindow [callRemoveApprovedUsers ["8"]]).
  - reflexivity.
  - vm_compute. split; [discriminate|reflexivity].
  - reflexivity.
Defined.

Lemma mock_records_every_call_witness :
  exists mock',
    Mocks.UnbanURLs echoMock [(7, "spam"); (8, "more spam")]
    = Returns (["spam"; "more spam"], mock') /\
    Mocks.UnbanURLCalls mock' = [(7, "spam"); (8, "more spam")].
Proof.
  destruct (mock_records_every_call echoMock (fun _ msg => msg)
              [(7, "spam"); (8, "more spam")] eq_refl)
    as [(mock' & Hrun & Hcalls & _) _].
  exists mock'. split; [exact Hrun|exact Hcalls].
Defined.


(** *** Runs of the model *)

(** A message of one line of 64 KiB teaches the classifier nothing. *)
Example scenario_line_too_long :
  NewBufferString (string_of_list_ascii (repeat "a"%char (256 * 256)))
  = {| scanned := []; scanErr := Some ErrTooLong |} /\
  sampleDocuments plain (string_of_list_ascii (repeat "a"%char (256 * 256))) "spam" = [].
Proof. split; vm_compute; reflexivity. Qed.


(** Two hams make a user of [windowTwo] none the wiser: the third one is
    still checked, the fourth message is pre-approved. *)
Example scenario_window_of_two :
  exists rs d',
    checkEach windowTwo ["one ham"; "two hams"; "three hams"; "anything"] "7"
    = Returns (rs, d') /\
    List.map ret_by rs = [[]; []; []; [byPreApproved]] /\
    at_ (approvedUsers d') "7" = 3.
Proof. do 2 eexists. split; [vm_compute; reflexivity|]. split; reflexivity. Qed.

(** A save is skipped when the number of approved users is the one stored
    last, though the users are others. *)
Example scenario_autosave_same_count :
  autoSaveApprovedUsers
    [(AddApprovedUsers plain ["7"], None);
     (AddApprovedUsers plain ["8"], None)]
  = (1, [(["7"], None)]).
Proof. vm_compute. reflexivity. Qed.

(** A failed save is tried again at the next tick. *)
Example scenario_autosave_retry :
  autoSaveApprovedUsers
    [(AddApprovedUsers plain ["7"], Some (errorString "disk full"));
     (AddApprovedUsers plain ["7"], None)]
  = (1, [(["7"], Some (errorString "disk full")); (["7"], None)]).
Proof. vm_compute. reflexivity. Qed.

(** A quoted row is split at its commas, a plain line is one token. *)
Example scenario_quoted_row :
  tokenChan [{| scanned := [String "034" ("buy now" +:+ String "034" (", cheap pills , "));
                            " win, free prize  "];
                scanErr := None |}]
  = ["buy now"; "cheap pills"; "win, free prize"].
Proof. vm_compute. reflexivity. Qed.

(** Short words are not counted, the others are counted in lower case,
    without the punctuation around them. *)
Example scenario_tokenize :
  tokenize plain "Win a prize, WIN it now!" = {["win" := 2; "prize" := 1; "now" := 1]}.
Proof. vm_compute. reflexivity. Qed.

End MoreExamples.
